(** * OV9281 image-sensor driver: a shallow embedding of
      drivers/media/i2c/ov9281.c and the properties of its register
      transport, control translation and power/stream state machine.

    Integers are [Z] with the C conversions written out ([u8], [u16],
    [u32]).  Driver functions are state transformers over a [system]: the
    sensor handle, the runtime-PM bookkeeping of the device and the trace of
    everything the driver asked of the platform (I2C, clock, GPIO,
    regulators, PM core, control framework).  What the platform answers is
    given by a [platform] record of oracles indexed by the position in the
    trace at which the question is asked. *)

From Stdlib Require Import ZArith List Bool Lia.
Import ListNotations.
Local Open Scope Z_scope.

(** ** Machine integers and error numbers *)

Definition u8 (x : Z) : Z := x mod 2 ^ 8.
Definition u16 (x : Z) : Z := x mod 2 ^ 16.
Definition u32 (x : Z) : Z := x mod 2 ^ 32.

Definition EIO : Z := 5.
Definition ENODEV : Z := 19.
Definition EINVAL : Z := 22.

(** ** Constants of the driver *)

Definition OV9281_XVCLK_FREQ : Z := 24000000.
Definition CHIP_ID : Z := 0x9281.
Definition OV9281_REG_CHIP_ID : Z := 0x300a.
Definition OV9281_REG_CTRL_MODE : Z := 0x0100.
Definition OV9281_MODE_SW_STANDBY : Z := 0x0.
Definition OV9281_MODE_STREAMING : Z := 1.
Definition OV9281_REG_EXPOSURE : Z := 0x3500.
Definition OV9281_EXPOSURE_MIN : Z := 4.
Definition OV9281_EXPOSURE_STEP : Z := 1.
Definition OV9281_VTS_MAX : Z := 0x7fff.
Definition OV9281_REG_GAIN_H : Z := 0x3508.
Definition OV9281_REG_GAIN_L : Z := 0x3509.
Definition OV9281_GAIN_H_MASK : Z := 0x07.
Definition OV9281_GAIN_H_SHIFT : Z := 8.
Definition OV9281_GAIN_L_MASK : Z := 0xff.
Definition OV9281_GAIN_MIN : Z := 0x10.
Definition OV9281_GAIN_MAX : Z := 0xf8.
Definition OV9281_GAIN_STEP : Z := 1.
Definition OV9281_GAIN_DEFAULT : Z := 0x10.
Definition OV9281_REG_TEST_PATTERN : Z := 0x5e00.
Definition OV9281_TEST_PATTERN_ENABLE : Z := 0x80.
Definition OV9281_TEST_PATTERN_DISABLE : Z := 0x0.
Definition OV9281_REG_VTS : Z := 0x380e.
Definition REG_NULL : Z := 0xFFFF.
Definition OV9281_REG_VALUE_08BIT : Z := 1.
Definition OV9281_REG_VALUE_16BIT : Z := 2.
Definition OV9281_REG_VALUE_24BIT : Z := 3.

(** ** Data model *)

Record regval := mk_regval { addr : Z; val : Z }.

Record v4l2_rect := { left : Z; top : Z; rect_width : Z; rect_height : Z }.

Record ov9281_mode := {
  width : Z;
  height : Z;
  hts_def : Z;
  vts_def : Z;
  exp_def : Z;
  crop : v4l2_rect;
  reg_list : list regval
}.

(** A control of the control framework: its range and the logical value the
    framework holds for it. *)
Record v4l2_ctrl := {
  minimum : Z;
  maximum : Z;
  step : Z;
  default_value : Z;
  cur_val : Z
}.

(** The controls the handle keeps a pointer to. *)
Inductive ctrl_id :=
| V4L2_CID_HBLANK
| V4L2_CID_VBLANK
| V4L2_CID_EXPOSURE
| V4L2_CID_ANALOGUE_GAIN
| V4L2_CID_TEST_PATTERN.

(** The handle.  The two GPIO fields record whether the descriptor is usable
    ([!IS_ERR]). *)
Record ov9281 := {
  reset_gpio : bool;
  pwdn_gpio : bool;
  exposure : v4l2_ctrl;
  anal_gain : v4l2_ctrl;
  hblank : v4l2_ctrl;
  vblank : v4l2_ctrl;
  test_pattern : v4l2_ctrl;
  streaming : bool;
  power_on : bool;
  cur_mode : ov9281_mode
}.

Inductive gpio_line := RESET | PWDN.

(** What the driver asks of the platform, in program order. *)
Inductive event :=
| I2cSend (buf : list Z)
| I2cTransfer (reg_be : list Z) (len : Z)
| PmGetSync
| PmGet
| PmPut
| PmPutNoidle
| ClkSetRate (hz : Z)
| ClkPrepareEnable
| ClkDisableUnprepare
| GpioSet (line : gpio_line) (level : Z)
| RegulatorBulkEnable
| RegulatorBulkDisable
| Usleep (lo hi : Z)
| CtrlModifyRange (id : ctrl_id) (min max stp def : Z).

(** What the platform answers.  The [nat] is the number of events issued
    before the call. *)
Record platform := {
  i2c_master_send : nat -> list Z -> Z;
  i2c_transfer : nat -> Z;
  i2c_read_data : nat -> list Z;
  clk_prepare_enable : nat -> Z;
  regulator_bulk_enable : nat -> Z
}.

Record system := {
  dev : ov9281;
  usage_count : Z;
  runtime_active : bool;
  trace : list event
}.

Definition with_dev (d : ov9281) (s : system) : system :=
  {| dev := d; usage_count := usage_count s;
     runtime_active := runtime_active s; trace := trace s |}.

Definition with_usage (n : Z) (s : system) : system :=
  {| dev := dev s; usage_count := n;
     runtime_active := runtime_active s; trace := trace s |}.

Definition with_active (b : bool) (s : system) : system :=
  {| dev := dev s; usage_count := usage_count s;
     runtime_active := b; trace := trace s |}.

Definition emit (evs : list event) (s : system) : system :=
  {| dev := dev s; usage_count := usage_count s;
     runtime_active := runtime_active s; trace := trace s ++ evs |}.

(** ** The state monad the driver runs in *)

Definition M (A : Type) : Type := system -> A * system.

Definition ret {A} (a : A) : M A := fun s => (a, s).

Definition bind {A B} (m : M A) (k : A -> M B) : M B :=
  fun s => let (a, s') := m s in k a s'.

Declare Scope drv_scope.
Delimit Scope drv_scope with drv.
Notation "x <- m ;; k" := (bind m (fun x => k))
  (at level 61, m at next level, right associativity) : drv_scope.
Notation "m ;;; k" := (bind m (fun _ => k))
  (at level 61, right associativity) : drv_scope.
Local Open Scope drv_scope.

Definition log (e : event) : M unit := fun s => (tt, emit [e] s).
Definition clock : M nat := fun s => (length (trace s), s).
Definition get_dev : M ov9281 := fun s => (dev s, s).
Definition put_dev (d : ov9281) : M unit := fun s => (tt, with_dev d s).

(** ** Register transport *)

Section Driver.

Variable hw : platform.

(** Byte [i] (0 is the most significant) of [cpu_to_be32 v]. *)
Definition be32_byte (v : Z) (i : Z) : Z :=
  Z.land (Z.shiftr v (8 * (3 - i))) 0xff.

(** [while (val_i < 4) buf[buf_i++] = val_p[val_i++];], with [n] the number
    of iterations left, [4 - val_i]. *)
Fixpoint copy_val (n : nat) (val_p : Z -> Z) (val_i : Z) : list Z :=
  match n with
  | O => []
  | S n' => val_p val_i :: copy_val n' val_p (val_i + 1)
  end.

(** The bytes [buf[0 .. len + 1]] that [ov9281_write_reg] hands to
    [i2c_master_send]. *)
Definition write_reg_buf (reg len value : Z) : list Z :=
  let buf0 := u8 (Z.shiftr reg 8) in
  let buf1 := u8 (Z.land reg 0xff) in
  let val_i := 4 - len in
  firstn (Z.to_nat (len + 2))
         (buf0 :: buf1 :: copy_val (Z.to_nat (4 - val_i)) (be32_byte value) val_i).

Definition do_i2c_master_send (buf : list Z) : M Z :=
  n <- clock ;;
  log (I2cSend buf) ;;;
  ret (i2c_master_send hw n buf).

Definition ov9281_write_reg (reg len value : Z) : M Z :=
  let reg := u16 reg in
  let len := u32 len in
  let value := u32 value in
  if 4 <? len then ret (- EINVAL)
  else
    sent <- do_i2c_master_send (write_reg_buf reg len value) ;;
    if negb (u32 sent =? u32 (len + 2)) then ret (- EIO) else ret 0.

Fixpoint ov9281_write_array (regs : list regval) : M Z :=
  match regs with
  | [] => ret 0
  | r :: rest =>
      if addr r =? REG_NULL then ret 0
      else
        e <- ov9281_write_reg (addr r) OV9281_REG_VALUE_08BIT (val r) ;;
        if e =? 0 then ov9281_write_array rest else ret e
  end.

(** [be32_to_cpu] of a 4-byte buffer whose last [len] bytes hold [data] and
    whose leading bytes are zero. *)
Fixpoint be_value (data : list Z) : Z :=
  match data with
  | [] => 0
  | b :: rest => Z.lor (Z.shiftl (u8 b) (8 * Z.of_nat (length rest))) (be_value rest)
  end.

(** The [len] bytes the device puts into the read buffer. *)
Definition read_bytes (data : list Z) (len : Z) : list Z :=
  map (fun i => u8 (nth i data 0)) (seq 0 (Z.to_nat len)).

Definition do_i2c_transfer (reg_be : list Z) (len : Z) : M (Z * list Z) :=
  n <- clock ;;
  log (I2cTransfer reg_be len) ;;;
  ret (i2c_transfer hw n, read_bytes (i2c_read_data hw n) len).

(** [ov9281_read_reg]: returns the status and the content of [*val]
    afterwards ([old] is its content before the call). *)
Definition ov9281_read_reg (reg len : Z) (old : Z) : M (Z * Z) :=
  let reg := u16 reg in
  let len := u32 len in
  if (4 <? len) || (len =? 0) then ret (- EINVAL, old)
  else
    r <- do_i2c_transfer [u8 (Z.shiftr reg 8); u8 reg] len ;;
    if negb (fst r =? 2) then ret (- EIO, old)
    else ret (0, be_value (snd r)).

(** ** Power sequencer *)

(** [DIV_ROUND_UP(cycles, OV9281_XVCLK_FREQ / 1000 / 1000)] *)
Definition ov9281_cal_delay (cycles : Z) : Z :=
  let d := OV9281_XVCLK_FREQ / 1000 / 1000 in
  u32 ((u32 cycles + d - 1) / d).

Definition when (b : bool) (m : M unit) : M unit := if b then m else ret tt.

(** The clock-rate warnings only log; they are left out. *)
Definition __ov9281_power_on : M Z :=
  d <- get_dev ;;
  log (ClkSetRate OV9281_XVCLK_FREQ) ;;;
  n <- clock ;;
  log ClkPrepareEnable ;;;
  let e := clk_prepare_enable hw n in
  if e <? 0 then ret e
  else
    when (reset_gpio d) (log (GpioSet RESET 0)) ;;;
    n <- clock ;;
    log RegulatorBulkEnable ;;;
    let e := regulator_bulk_enable hw n in
    if e <? 0 then log ClkDisableUnprepare ;;; ret e
    else
      when (reset_gpio d) (log (GpioSet RESET 1)) ;;;
      log (Usleep 500 1000) ;;;
      when (pwdn_gpio d) (log (GpioSet PWDN 1)) ;;;
      let delay_us := ov9281_cal_delay 8192 in
      log (Usleep delay_us (u32 (delay_us * 2))) ;;;
      ret 0.

Definition __ov9281_power_off : M unit :=
  d <- get_dev ;;
  when (pwdn_gpio d) (log (GpioSet PWDN 0)) ;;;
  log ClkDisableUnprepare ;;;
  when (reset_gpio d) (log (GpioSet RESET 0)) ;;;
  log RegulatorBulkDisable.

Definition ov9281_runtime_resume : M Z := __ov9281_power_on.

Definition ov9281_runtime_suspend : M Z := __ov9281_power_off ;;; ret 0.

(** ** Runtime-PM core *)

(** Modelled from the spec: [pm_runtime_get_sync] of the runtime-PM core,
    which is not part of the driver file.  The core counts references to the
    device and invokes the resume callback at the transition to active; the
    reference is taken even when resuming fails. *)
Definition pm_runtime_get_sync : M Z := fun s =>
  let s := with_usage (usage_count s + 1) (emit [PmGetSync] s) in
  if runtime_active s then (1, s)
  else
    let (e, s') := ov9281_runtime_resume s in
    if e <? 0 then (e, s') else (0, with_active true s').

(** Modelled from the spec: [pm_runtime_put] of the runtime-PM core.  The
    reference is dropped and an idle device is powered down through the
    suspend callback. *)
Definition pm_runtime_put : M unit := fun s =>
  let s := with_usage (usage_count s - 1) (emit [PmPut] s) in
  if (usage_count s =? 0) && runtime_active s then
    let (_, s') := ov9281_runtime_suspend s in (tt, with_active false s')
  else (tt, s).

(** Modelled from the spec: [pm_runtime_put_noidle] of the runtime-PM core
    drops a reference and nothing else. *)
Definition pm_runtime_put_noidle : M unit := fun s =>
  (tt, with_usage (usage_count s - 1) (emit [PmPutNoidle] s)).

(** Modelled from the spec: [pm_runtime_get] of the runtime-PM core, as the
    driver uses it: the non-blocking probe of section 4.4.  If the device is
    resumed a reference is taken and the result is positive; if it is
    suspended the result is 0. *)
Definition pm_runtime_get : M Z := fun s =>
  let s := emit [PmGet] s in
  if runtime_active s then (1, with_usage (usage_count s + 1) s) else (0, s).

(** ** Control framework *)

Definition ctrl_of (id : ctrl_id) (d : ov9281) : v4l2_ctrl :=
  match id with
  | V4L2_CID_HBLANK => hblank d
  | V4L2_CID_VBLANK => vblank d
  | V4L2_CID_EXPOSURE => exposure d
  | V4L2_CID_ANALOGUE_GAIN => anal_gain d
  | V4L2_CID_TEST_PATTERN => test_pattern d
  end.

Definition with_ctrl (id : ctrl_id) (c : v4l2_ctrl) (d : ov9281) : ov9281 :=
  {| reset_gpio := reset_gpio d;
     pwdn_gpio := pwdn_gpio d;
     exposure := match id with V4L2_CID_EXPOSURE => c | _ => exposure d end;
     anal_gain := match id with V4L2_CID_ANALOGUE_GAIN => c | _ => anal_gain d end;
     hblank := match id with V4L2_CID_HBLANK => c | _ => hblank d end;
     vblank := match id with V4L2_CID_VBLANK => c | _ => vblank d end;
     test_pattern := match id with V4L2_CID_TEST_PATTERN => c | _ => test_pattern d end;
     streaming := streaming d;
     power_on := power_on d;
     cur_mode := cur_mode d |}.

Definition with_streaming (b : bool) (d : ov9281) : ov9281 :=
  {| reset_gpio := reset_gpio d; pwdn_gpio := pwdn_gpio d;
     exposure := exposure d; anal_gain := anal_gain d; hblank := hblank d;
     vblank := vblank d; test_pattern := test_pattern d;
     streaming := b; power_on := power_on d; cur_mode := cur_mode d |}.

Definition with_power_on (b : bool) (d : ov9281) : ov9281 :=
  {| reset_gpio := reset_gpio d; pwdn_gpio := pwdn_gpio d;
     exposure := exposure d; anal_gain := anal_gain d; hblank := hblank d;
     vblank := vblank d; test_pattern := test_pattern d;
     streaming := streaming d; power_on := b; cur_mode := cur_mode d |}.

(** Modelled from the spec: [__v4l2_ctrl_modify_range] of the control
    framework, which is not part of the driver file: the control gets the
    new range and keeps its value. *)
Definition __v4l2_ctrl_modify_range (id : ctrl_id) (min max stp def : Z)
  : M unit :=
  log (CtrlModifyRange id min max stp def) ;;;
  d <- get_dev ;;
  put_dev (with_ctrl id {| minimum := min; maximum := max; step := stp;
                           default_value := def;
                           cur_val := cur_val (ctrl_of id d) |} d).

(** ** Control translation *)

Definition ov9281_enable_test_pattern (pattern : Z) : M Z :=
  let pattern := u32 pattern in
  let value :=
    if negb (pattern =? 0)
    then Z.lor (u32 (pattern - 1)) OV9281_TEST_PATTERN_ENABLE
    else OV9281_TEST_PATTERN_DISABLE in
  ov9281_write_reg OV9281_REG_TEST_PATTERN OV9281_REG_VALUE_08BIT value.

(** [ov9281_set_ctrl]; [id] is [ctrl->id] and [ctrl_val] is [ctrl->val].
    The warning of the default case only logs. *)
Definition ov9281_set_ctrl (id : ctrl_id) (ctrl_val : Z) : M Z :=
  d <- get_dev ;;
  match id with
  | V4L2_CID_VBLANK =>
      let max := u32 (height (cur_mode d) + ctrl_val - 4) in
      __v4l2_ctrl_modify_range V4L2_CID_EXPOSURE
        (minimum (exposure d)) max (step (exposure d))
        (default_value (exposure d))
  | _ => ret tt
  end ;;;
  resumed <- pm_runtime_get ;;
  if resumed <=? 0 then ret 0
  else
    e <- match id with
         | V4L2_CID_EXPOSURE =>
             ov9281_write_reg OV9281_REG_EXPOSURE OV9281_REG_VALUE_24BIT
               (Z.shiftl ctrl_val 4)
         | V4L2_CID_ANALOGUE_GAIN =>
             e1 <- ov9281_write_reg OV9281_REG_GAIN_H OV9281_REG_VALUE_08BIT
                     (Z.land (Z.shiftr ctrl_val OV9281_GAIN_H_SHIFT)
                             OV9281_GAIN_H_MASK) ;;
             e2 <- ov9281_write_reg OV9281_REG_GAIN_L OV9281_REG_VALUE_08BIT
                     (Z.land ctrl_val OV9281_GAIN_L_MASK) ;;
             ret (Z.lor e1 e2)
         | V4L2_CID_VBLANK =>
             ov9281_write_reg OV9281_REG_VTS OV9281_REG_VALUE_16BIT
               (ctrl_val + height (cur_mode d))
         | V4L2_CID_TEST_PATTERN => ov9281_enable_test_pattern ctrl_val
         | V4L2_CID_HBLANK => ret 0
         end ;;
    pm_runtime_put ;;;
    ret e.

(** Modelled from the spec: a control write through the control framework,
    which is not part of the driver file.  The framework stores the logical
    value, calls the setter, and keeps the value whatever the setter
    returns. *)
Definition v4l2_ctrl_s_ctrl (id : ctrl_id) (v : Z) : M Z :=
  d <- get_dev ;;
  let c := ctrl_of id d in
  put_dev (with_ctrl id {| minimum := minimum c; maximum := maximum c;
                           step := step c; default_value := default_value c;
                           cur_val := v |} d) ;;;
  ov9281_set_ctrl id v.

(** The controls created with [ov9281_ctrl_ops], in the order in which
    [ov9281_initialize_controls] creates them. *)
Definition ops_ctrls : list ctrl_id :=
  [V4L2_CID_VBLANK; V4L2_CID_EXPOSURE; V4L2_CID_ANALOGUE_GAIN;
   V4L2_CID_TEST_PATTERN].

Fixpoint replay (ids : list ctrl_id) : M Z :=
  match ids with
  | [] => ret 0
  | id :: rest =>
      d <- get_dev ;;
      e <- ov9281_set_ctrl id (cur_val (ctrl_of id d)) ;;
      if negb (e =? 0) then ret e else replay rest
  end.

(** Modelled from the spec: [v4l2_ctrl_handler_setup] of the control
    framework, which is not part of the driver file: the stored value of
    every control that has a setter is handed to the setter again, and the
    first error ends the replay. *)
Definition v4l2_ctrl_handler_setup : M Z := replay ops_ctrls.

(** ** Streaming and power entry points *)

Definition __ov9281_start_stream : M Z :=
  d <- get_dev ;;
  e <- ov9281_write_array (reg_list (cur_mode d)) ;;
  if negb (e =? 0) then ret e
  else
    e <- v4l2_ctrl_handler_setup ;;
    if negb (e =? 0) then ret e
    else ov9281_write_reg OV9281_REG_CTRL_MODE OV9281_REG_VALUE_08BIT
           OV9281_MODE_STREAMING.

Definition __ov9281_stop_stream : M Z :=
  ov9281_write_reg OV9281_REG_CTRL_MODE OV9281_REG_VALUE_08BIT
    OV9281_MODE_SW_STANDBY.

Definition set_streaming (b : bool) : M unit :=
  d <- get_dev ;; put_dev (with_streaming b d).

Definition set_power_on (b : bool) : M unit :=
  d <- get_dev ;; put_dev (with_power_on b d).

Definition ov9281_s_stream (on : Z) : M Z :=
  d <- get_dev ;;
  let on := negb (on =? 0) in
  if Bool.eqb on (streaming d) then ret 0
  else if on then
    e <- pm_runtime_get_sync ;;
    if e <? 0 then pm_runtime_put_noidle ;;; ret e
    else
      e <- __ov9281_start_stream ;;
      if negb (e =? 0) then pm_runtime_put ;;; ret e
      else set_streaming on ;;; ret e
  else
    __ov9281_stop_stream ;;;
    pm_runtime_put ;;;
    set_streaming on ;;;
    ret 0.

Definition ov9281_s_power (on : Z) : M Z :=
  d <- get_dev ;;
  if Bool.eqb (power_on d) (negb (on =? 0)) then ret 0
  else if negb (on =? 0) then
    e <- pm_runtime_get_sync ;;
    if e <? 0 then pm_runtime_put_noidle ;;; ret e
    else set_power_on true ;;; ret e
  else
    pm_runtime_put ;;;
    set_power_on false ;;;
    ret 0.

(** ** Identity check *)

(** [id_msb0] is the content of the uninitialised local [id_msb]. *)
Definition ov9281_check_sensor_id (id_msb0 : Z) : M Z :=
  r1 <- ov9281_read_reg (OV9281_REG_CHIP_ID + 1) OV9281_REG_VALUE_08BIT 0 ;;
  r2 <- (if fst r1 =? 0
         then ov9281_read_reg OV9281_REG_CHIP_ID OV9281_REG_VALUE_08BIT id_msb0
         else ret (fst r1, id_msb0)) ;;
  let id := Z.lor (snd r1) (u32 (Z.shiftl (snd r2) 8)) in
  if negb (fst r2 =? 0) || negb (id =? CHIP_ID) then ret (- ENODEV)
  else ret 0.

End Driver.

(** ** Mode table *)

(** Xclk 24Mhz, max_framerate 120fps, mipi_datarate per lane 800Mbps *)
Definition ov9281_1280x800_regs : list regval :=
  let r := mk_regval in
  [r 0x0103 0x01; r 0x0302 0x32; r 0x030d 0x50; r 0x030e 0x02;
   r 0x3001 0x00; r 0x3004 0x00; r 0x3005 0x00; r 0x3006 0x04;
   r 0x3011 0x0a; r 0x3013 0x18; r 0x3022 0x01; r 0x3023 0x00;
   r 0x302c 0x00; r 0x302f 0x00; r 0x3030 0x04; r 0x3039 0x32;
   r 0x303a 0x00; r 0x303f 0x01; r 0x3500 0x00; r 0x3501 0x2a;
   r 0x3502 0x90; r 0x3503 0x08; r 0x3505 0x8c; r 0x3507 0x03;
   r 0x3508 0x00; r 0x3509 0x10; r 0x3610 0x80; r 0x3611 0xa0;
   r 0x3620 0x6f; r 0x3632 0x56; r 0x3633 0x78; r 0x3662 0x05;
   r 0x3666 0x00; r 0x366f 0x5a; r 0x3680 0x84; r 0x3712 0x80;
   r 0x372d 0x22; r 0x3731 0x80; r 0x3732 0x30; r 0x3778 0x00;
   r 0x377d 0x22; r 0x3788 0x02; r 0x3789 0xa4; r 0x378a 0x00;
   r 0x378b 0x4a; r 0x3799 0x20; r 0x3800 0x00; r 0x3801 0x00;
   r 0x3802 0x00; r 0x3803 0x00; r 0x3804 0x05; r 0x3805 0x0f;
   r 0x3806 0x03; r 0x3807 0x2f; r 0x3808 0x05; r 0x3809 0x00;
   r 0x380a 0x03; r 0x380b 0x20; r 0x380c 0x02; r 0x380d 0xd8;
   r 0x380e 0x03; r 0x380f 0x8e; r 0x3810 0x00; r 0x3811 0x08;
   r 0x3812 0x00; r 0x3813 0x08; r 0x3814 0x11; r 0x3815 0x11;
   r 0x3820 0x40; r 0x3821 0x00; r 0x3881 0x42; r 0x38b1 0x00;
   r 0x3920 0xff; r 0x4003 0x40; r 0x4008 0x04; r 0x4009 0x0b;
   r 0x400c 0x00; r 0x400d 0x07; r 0x4010 0x40; r 0x4043 0x40;
   r 0x4307 0x30; r 0x4317 0x00; r 0x4501 0x00; r 0x4507 0x00;
   r 0x4509 0x00; r 0x450a 0x08; r 0x4601 0x04; r 0x470f 0x00;
   r 0x4f07 0x00; r 0x4800 0x00; r 0x5000 0x9f; r 0x5001 0x00;
   r 0x5e00 0x00; r 0x5d00 0x07; r 0x5d01 0x00; r REG_NULL 0x00].

Definition mode_1280x800 : ov9281_mode :=
  {| width := 1280;
     height := 800;
     hts_def := 0x05b0;
     vts_def := 0x038e;
     exp_def := 0x0320;
     crop := {| left := 0; top := 0; rect_width := 1280; rect_height := 800 |};
     reg_list := ov9281_1280x800_regs |}.

Definition supported_modes : list ov9281_mode := [mode_1280x800].

(** ** Control set *)

(** Modelled from the spec: [v4l2_ctrl_new_std] and
    [v4l2_ctrl_new_std_menu_items] of the control framework, which are not
    part of the driver file: a new control has the given range and holds its
    default. *)
Definition v4l2_ctrl_new_std (min max stp def : Z) : v4l2_ctrl :=
  {| minimum := min; maximum := max; step := stp; default_value := def;
     cur_val := def |}.

(** The five controls of the handle as [ov9281_initialize_controls] creates
    them for the current mode (the read-only link-frequency and pixel-rate
    controls are not kept in the handle). *)
Definition ov9281_initialize_controls (d : ov9281) : ov9281 :=
  let mode := cur_mode d in
  let h_blank := u32 (hts_def mode - width mode) in
  let vblank_def := u32 (vts_def mode - height mode) in
  let exposure_max := u32 (vts_def mode - 4) in
  {| reset_gpio := reset_gpio d;
     pwdn_gpio := pwdn_gpio d;
     exposure := v4l2_ctrl_new_std OV9281_EXPOSURE_MIN exposure_max
                   OV9281_EXPOSURE_STEP (exp_def mode);
     anal_gain := v4l2_ctrl_new_std OV9281_GAIN_MIN OV9281_GAIN_MAX
                    OV9281_GAIN_STEP OV9281_GAIN_DEFAULT;
     hblank := v4l2_ctrl_new_std h_blank h_blank 1 h_blank;
     vblank := v4l2_ctrl_new_std vblank_def
                 (u32 (OV9281_VTS_MAX - height mode)) 1 vblank_def;
     test_pattern := v4l2_ctrl_new_std 0 4 0 0;
     streaming := streaming d;
     power_on := power_on d;
     cur_mode := cur_mode d |}.

Definition zero_ctrl : v4l2_ctrl := v4l2_ctrl_new_std 0 0 0 0.

(** The handle as [ov9281_probe] sets it up: zeroed by [devm_kzalloc], the
    first mode current, both GPIOs found, the controls created. *)
Definition probed_handle : ov9281 :=
  ov9281_initialize_controls
    {| reset_gpio := true; pwdn_gpio := true;
       exposure := zero_ctrl; anal_gain := zero_ctrl; hblank := zero_ctrl;
       vblank := zero_ctrl; test_pattern := zero_ctrl;
       streaming := false; power_on := false;
       cur_mode := mode_1280x800 |}.

(** The system once a successful probe has returned and the PM core has
    idled the device: no reference held, device suspended, and a fresh
    trace. *)
Definition after_probe : system :=
  {| dev := probed_handle; usage_count := 0; runtime_active := false;
     trace := [] |}.

(** ** Vocabulary of the statements *)

(** The low [L] bytes of [v], most significant first. *)
Fixpoint big_endian (L : nat) (v : Z) : list Z :=
  match L with
  | O => []
  | S k => (v / 256 ^ Z.of_nat k) mod 256 :: big_endian k v
  end.

(** The number a big-endian byte string stands for. *)
Definition big_endian_value (bs : list Z) : Z :=
  fold_left (fun acc b => acc * 256 + b) bs 0.

(** The I2C message of a register write: address high, address low, then
    the value bytes. *)
Definition reg_message (a : Z) (L : nat) (v : Z) : list Z :=
  a / 256 :: a mod 256 :: big_endian L v.

Definition is_i2c (e : event) : bool :=
  match e with
  | I2cSend _ | I2cTransfer _ _ => true
  | _ => false
  end.

Definition i2c_traffic (t : list event) : list event := filter is_i2c t.

Definition is_pm_get_sync (e : event) : bool :=
  match e with
  | PmGetSync => true
  | _ => false
  end.

(** The event of one call of [ov9281_write_reg] that reaches the bus. *)
Definition reg_write (reg len value : Z) : event :=
  I2cSend (write_reg_buf (u16 reg) (u32 len) (u32 value)).

(** The registers before the [REG_NULL] sentinel. *)
Fixpoint until_null (regs : list regval) : list regval :=
  match regs with
  | [] => []
  | r :: rest => if addr r =? REG_NULL then [] else r :: until_null rest
  end.

Definition mode_writes (regs : list regval) : list event :=
  map (fun r => reg_write (addr r) OV9281_REG_VALUE_08BIT (val r))
      (until_null regs).

(** The register writes by which the setter programs value [v] of a
    control. *)
Definition ctrl_reg_writes (d : ov9281) (id : ctrl_id) (v : Z) : list event :=
  match id with
  | V4L2_CID_EXPOSURE =>
      [reg_write OV9281_REG_EXPOSURE OV9281_REG_VALUE_24BIT (Z.shiftl v 4)]
  | V4L2_CID_ANALOGUE_GAIN =>
      [reg_write OV9281_REG_GAIN_H OV9281_REG_VALUE_08BIT
         (Z.land (Z.shiftr v OV9281_GAIN_H_SHIFT) OV9281_GAIN_H_MASK);
       reg_write OV9281_REG_GAIN_L OV9281_REG_VALUE_08BIT
         (Z.land v OV9281_GAIN_L_MASK)]
  | V4L2_CID_VBLANK =>
      [reg_write OV9281_REG_VTS OV9281_REG_VALUE_16BIT
         (v + height (cur_mode d))]
  | V4L2_CID_TEST_PATTERN =>
      [reg_write OV9281_REG_TEST_PATTERN OV9281_REG_VALUE_08BIT
         (if u32 v =? 0 then OV9281_TEST_PATTERN_DISABLE
          else Z.lor (u32 (u32 v - 1)) OV9281_TEST_PATTERN_ENABLE)]
  | V4L2_CID_HBLANK => []
  end.

(** The range update that precedes the power probe in the setter. *)
Definition ctrl_range_events (d : ov9281) (id : ctrl_id) (v : Z)
  : list event :=
  match id with
  | V4L2_CID_VBLANK =>
      [CtrlModifyRange V4L2_CID_EXPOSURE (minimum (exposure d))
         (u32 (height (cur_mode d) + v - 4)) (step (exposure d))
         (default_value (exposure d))]
  | _ => []
  end.

(** Everything one call of the setter asks of the platform while the device
    is resumed and stays in use. *)
Definition setter_events (d : ov9281) (id : ctrl_id) (v : Z) : list event :=
  ctrl_range_events d id v ++ [PmGet] ++ ctrl_reg_writes d id v ++ [PmPut].

Definition replay_plan (d : ov9281) : list event :=
  concat (map (fun id => setter_events d id (cur_val (ctrl_of id d)))
              ops_ctrls).

(** The status [ov9281_write_reg] returns for a write issued when [n] events
    have gone before. *)
Definition write_status (hw : platform) (n : nat) (reg len value : Z) : Z :=
  if u32 (i2c_master_send hw n
            (write_reg_buf (u16 reg) (u32 len) (u32 value)))
     =? u32 (u32 len + 2)
  then 0 else - EIO.

Definition stream_on_write : event :=
  reg_write OV9281_REG_CTRL_MODE OV9281_REG_VALUE_08BIT OV9281_MODE_STREAMING.

(** What a successful stream start asks of the platform after the PM
    reference has been taken. *)
Definition stream_start_plan (d : ov9281) : list event :=
  mode_writes (reg_list (cur_mode d)) ++ replay_plan d ++ [stream_on_write].

(** The exposure maximum follows the vertical blanking. *)
Definition coupled (d : ov9281) : Prop :=
  maximum (exposure d) = height (cur_mode d) + cur_val (vblank d) - 4.

(** The values the VBLANK control of mode [m] takes. *)
Definition vblank_accepts (m : ov9281_mode) (v : Z) : Prop :=
  vts_def m - height m <= v <= OV9281_VTS_MAX - height m.

(** A sequence of control writes through the framework; the status of each
    write is dropped. *)
Fixpoint ctrl_writes (hw : platform) (id : ctrl_id) (vs : list Z)
  (s : system) : system :=
  match vs with
  | [] => s
  | v :: rest => ctrl_writes hw id rest (snd (v4l2_ctrl_s_ctrl hw id v s))
  end.

(** Platforms used in the examples. *)

(** Every transfer completes; the chip answers 0x81 to the first read and
    0x92 to the next. *)
Definition good_hw : platform :=
  {| i2c_master_send := fun _ buf => Z.of_nat (length buf);
     i2c_transfer := fun _ => 2;
     i2c_read_data := fun n => if Nat.eqb n 0 then [0x81] else [0x92];
     clk_prepare_enable := fun _ => 0;
     regulator_bulk_enable := fun _ => 0 |}.

(** Nothing answers on the bus. *)
Definition dead_bus : platform :=
  {| i2c_master_send := fun _ _ => - EIO;
     i2c_transfer := fun _ => - EIO;
     i2c_read_data := fun _ => [];
     clk_prepare_enable := fun _ => 0;
     regulator_bulk_enable := fun _ => 0 |}.

(** Another sensor answers: the identity reads give 0x5649. *)
Definition wrong_chip : platform :=
  {| i2c_master_send := fun _ buf => Z.of_nat (length buf);
     i2c_transfer := fun _ => 2;
     i2c_read_data := fun n => if Nat.eqb n 0 then [0x49] else [0x56];
     clk_prepare_enable := fun _ => 0;
     regulator_bulk_enable := fun _ => 0 |}.

(** Every bus write and both enables succeed. *)
Definition platform_ok (hw : platform) : Prop :=
  (forall n buf, i2c_master_send hw n buf = Z.of_nat (length buf)) /\
  (forall n, 0 <= clk_prepare_enable hw n) /\
  (forall n, 0 <= regulator_bulk_enable hw n).


(** The handle after the range update of the setter. *)
Definition range_updated (id : ctrl_id) (v : Z) (d : ov9281) : ov9281 :=
  match id with
  | V4L2_CID_VBLANK =>
      with_ctrl V4L2_CID_EXPOSURE
        {| minimum := minimum (exposure d);
           maximum := u32 (height (cur_mode d) + v - 4);
           step := step (exposure d);
           default_value := default_value (exposure d);
           cur_val := cur_val (exposure d) |} d
  | _ => d
  end.

(** The status the setter returns when its first register write is issued
    after [n] events. *)
Definition setter_status (hw : platform) (n : nat) (d : ov9281)
  (id : ctrl_id) (v : Z) : Z :=
  match id with
  | V4L2_CID_EXPOSURE =>
      write_status hw n OV9281_REG_EXPOSURE OV9281_REG_VALUE_24BIT
        (Z.shiftl v 4)
  | V4L2_CID_ANALOGUE_GAIN =>
      Z.lor
        (write_status hw n OV9281_REG_GAIN_H OV9281_REG_VALUE_08BIT
           (Z.land (Z.shiftr v OV9281_GAIN_H_SHIFT) OV9281_GAIN_H_MASK))
        (write_status hw (S n) OV9281_REG_GAIN_L OV9281_REG_VALUE_08BIT
           (Z.land v OV9281_GAIN_L_MASK))
  | V4L2_CID_VBLANK =>
      write_status hw n OV9281_REG_VTS OV9281_REG_VALUE_16BIT
        (v + height (cur_mode d))
  | V4L2_CID_TEST_PATTERN =>
      write_status hw n OV9281_REG_TEST_PATTERN OV9281_REG_VALUE_08BIT
        (if u32 v =? 0 then OV9281_TEST_PATTERN_DISABLE
         else Z.lor (u32 (u32 v - 1)) OV9281_TEST_PATTERN_ENABLE)
  | V4L2_CID_HBLANK => 0
  end.

(** What powering the sensor down asks of the platform. *)
Definition power_off_events (d : ov9281) : list event :=
  (if pwdn_gpio d then [GpioSet PWDN 0] else []) ++
  [ClkDisableUnprepare] ++
  (if reset_gpio d then [GpioSet RESET 0] else []) ++
  [RegulatorBulkDisable].

(** The state after dropping a PM reference. *)
Definition released (s : system) : system :=
  if (usage_count s - 1 =? 0) && runtime_active s
  then with_active false
         (with_usage (usage_count s - 1)
            (emit (PmPut :: power_off_events (dev s)) s))
  else with_usage (usage_count s - 1) (emit [PmPut] s).

(** The calls the host makes on a probed sensor. *)
Inductive request :=
| SPower (on : Z)
| SStream (on : Z)
| SetCtrl (id : ctrl_id) (v : Z).

Definition serve (hw : platform) (q : request) (s : system) : system :=
  match q with
  | SPower on => snd (ov9281_s_power hw on s)
  | SStream on => snd (ov9281_s_stream hw on s)
  | SetCtrl id v => snd (v4l2_ctrl_s_ctrl hw id v s)
  end.

Definition serve_all (hw : platform) (qs : list request) (s : system)
  : system :=
  fold_left (fun s q => serve hw q s) qs s.

(** The PM bookkeeping agrees with the handle: one reference for power, one
    for streaming, and the device is resumed exactly while one is held. *)
Definition pm_consistent (s : system) : Prop :=
  usage_count s =
    Z.b2z (streaming (dev s)) + Z.b2z (power_on (dev s)) /\
  runtime_active s = (0 <? usage_count s).

(** Events that are neither bus traffic nor the taking of a PM reference. *)
Definition quiet (evs : list event) : Prop :=
  i2c_traffic evs = [] /\ filter is_pm_get_sync evs = [].

(** ** Further vocabulary: the supply rails as the platform sees them *)

(** The clock and the regulators of the sensor. *)
Record rails := { clk_on : bool; regs_on : bool }.

Definition rails_of (b : bool) : rails := {| clk_on := b; regs_on := b |}.

(** What one request of the driver does to the rails when [n] events went
    before; [None] when the request is out of place: a bus transfer while
    the clock or the regulators are off, an enable of what is on, a disable
    of what is off.  An enable takes effect when the platform does not
    report an error for it. *)
Definition step_rails (hw : platform) (n : nat) (p : rails) (e : event)
  : option rails :=
  match e with
  | ClkPrepareEnable =>
      if clk_on p then None
      else Some {| clk_on := 0 <=? clk_prepare_enable hw n;
                   regs_on := regs_on p |}
  | ClkDisableUnprepare =>
      if clk_on p then Some {| clk_on := false; regs_on := regs_on p |}
      else None
  | RegulatorBulkEnable =>
      if regs_on p then None
      else Some {| clk_on := clk_on p;
                   regs_on := 0 <=? regulator_bulk_enable hw n |}
  | RegulatorBulkDisable =>
      if regs_on p then Some {| clk_on := clk_on p; regs_on := false |}
      else None
  | I2cSend _ | I2cTransfer _ _ =>
      if clk_on p && regs_on p then Some p else None
  | _ => Some p
  end.

Fixpoint run_rails (hw : platform) (n : nat) (p : rails) (t : list event)
  : option rails :=
  match t with
  | [] => Some p
  | e :: t' =>
      match step_rails hw n p e with
      | Some p' => run_rails hw (S n) p' t'
      | None => None
      end
  end.

(** The rails at the end of the trace are on exactly when the device is
    runtime-resumed, and nothing in the trace was out of place. *)
Definition rails_ok (hw : platform) (s : system) : Prop :=
  run_rails hw 0 (rails_of false) (trace s) = Some (rails_of (runtime_active s)).

(** Requests that leave the rails alone. *)
Definition rail_neutral (e : event) : bool :=
  match e with
  | PmGetSync | PmGet | PmPut | PmPutNoidle | ClkSetRate _ | GpioSet _ _
  | Usleep _ _ | CtrlModifyRange _ _ _ _ _ => true
  | _ => false
  end.

(** What powering the sensor up asks of the platform, given whether the
    clock and the regulators could be enabled. *)
Definition power_on_events (d : ov9281) (clk_ok reg_ok : bool) : list event :=
  [ClkSetRate OV9281_XVCLK_FREQ; ClkPrepareEnable] ++
  if clk_ok then
    (if reset_gpio d then [GpioSet RESET 0] else []) ++
    [RegulatorBulkEnable] ++
    (if reg_ok then
       (if reset_gpio d then [GpioSet RESET 1] else []) ++
       [Usleep 500 1000] ++
       (if pwdn_gpio d then [GpioSet PWDN 1] else []) ++
       [Usleep 342 684]
     else [ClkDisableUnprepare])
  else [].

(** ** Formats, selections and the mode negotiation *)

Definition OV9281_NATIVE_WIDTH : Z := 1280.
Definition OV9281_NATIVE_HEIGHT : Z := 800.
Definition OV9281_PIXEL_ARRAY_LEFT : Z := 0.
Definition OV9281_PIXEL_ARRAY_TOP : Z := 0.
Definition OV9281_PIXEL_ARRAY_WIDTH : Z := 1280.
Definition OV9281_PIXEL_ARRAY_HEIGHT : Z := 800.

(** The values and macros of the V4L2 interface that the driver names but
    that are declared outside the driver file.  They are taken as given;
    statements that need them to differ say so. *)
Record v4l2_abi := {
  MEDIA_BUS_FMT_Y10_1X10 : Z;
  V4L2_FIELD_NONE : Z;
  V4L2_COLORSPACE_SRGB : Z;
  V4L2_MAP_YCBCR_ENC_DEFAULT : Z -> Z;
  V4L2_MAP_QUANTIZATION_DEFAULT : bool -> Z -> Z -> Z;
  V4L2_MAP_XFER_FUNC_DEFAULT : Z -> Z;
  V4L2_SUBDEV_FORMAT_TRY : Z;
  V4L2_SUBDEV_FORMAT_ACTIVE : Z;
  V4L2_SEL_TGT_CROP : Z;
  V4L2_SEL_TGT_NATIVE_SIZE : Z;
  V4L2_SEL_TGT_CROP_DEFAULT : Z;
  V4L2_SEL_TGT_CROP_BOUNDS : Z
}.

Record v4l2_mbus_framefmt := {
  fmt_width : Z;
  fmt_height : Z;
  code : Z;
  field : Z;
  colorspace : Z;
  ycbcr_enc : Z;
  quantization : Z;
  xfer_func : Z
}.

Record v4l2_subdev_format := {
  which : Z;
  pad : Z;
  format : v4l2_mbus_framefmt
}.

Record v4l2_subdev_selection := {
  sel_which : Z;
  sel_pad : Z;
  target : Z;
  r : v4l2_rect
}.

Record v4l2_subdev_frame_size_enum := {
  index : Z;
  fse_code : Z;
  min_width : Z;
  max_width : Z;
  min_height : Z;
  max_height : Z
}.

(** The try state of one pad. *)
Record v4l2_subdev_pad_config := {
  try_fmt : v4l2_mbus_framefmt;
  try_crop : v4l2_rect
}.

(** The try state of a file handle, by pad: what
    [v4l2_subdev_get_try_format] and [v4l2_subdev_get_try_crop] point
    into. *)
Definition pad_configs : Type := Z -> v4l2_subdev_pad_config.

Definition set_try_fmt (cfg : pad_configs) (p : Z) (f : v4l2_mbus_framefmt)
  : pad_configs :=
  fun q => if q =? p
           then {| try_fmt := f; try_crop := try_crop (cfg q) |}
           else cfg q.

(** Conversion to a signed 32-bit integer. *)
Definition s32 (x : Z) : Z := (x + 2 ^ 31) mod 2 ^ 32 - 2 ^ 31.

(** Modelled from the spec: the kernel's [abs] macro, which is not part of
    the driver file.  It yields the magnitude of its argument taken as a
    signed integer, so that with the wrapping subtraction of the caller the
    distance is the [|w - mode.width| + |h - mode.height|] of section 4.3. *)
Definition abs (x : Z) : Z :=
  let sx := s32 x in if sx <? 0 then s32 (- sx) else sx.

Definition ov9281_get_reso_dist (mode : ov9281_mode)
  (framefmt : v4l2_mbus_framefmt) : Z :=
  s32 (abs (u32 (width mode - fmt_width framefmt)) +
       abs (u32 (height mode - fmt_height framefmt))).

(** The loop of [ov9281_find_best_fit] over the modes from index [i] on. *)
Fixpoint best_fit_loop (modes : list ov9281_mode)
  (framefmt : v4l2_mbus_framefmt) (i cur_best_fit cur_best_fit_dist : Z)
  : Z :=
  match modes with
  | [] => cur_best_fit
  | m :: rest =>
      let dist := ov9281_get_reso_dist m framefmt in
      if (cur_best_fit_dist =? -1) || (dist <? cur_best_fit_dist)
      then best_fit_loop rest framefmt (i + 1) i dist
      else best_fit_loop rest framefmt (i + 1) cur_best_fit cur_best_fit_dist
  end.

Definition ov9281_find_best_fit (fmt : v4l2_subdev_format) : ov9281_mode :=
  nth (Z.to_nat (best_fit_loop supported_modes (format fmt) 0 0 (-1)))
      supported_modes mode_1280x800.

(** A try state with nothing in it, for the examples. *)
Definition zero_pad : v4l2_subdev_pad_config :=
  {| try_fmt := {| fmt_width := 0; fmt_height := 0; code := 0; field := 0;
                   colorspace := 0; ycbcr_enc := 0; quantization := 0;
                   xfer_func := 0 |};
     try_crop := {| left := 0; top := 0; rect_width := 0;
                    rect_height := 0 |} |}.

(** A request and a second mode for the examples of the mode search. *)
Definition request_640x480 : v4l2_mbus_framefmt :=
  {| fmt_width := 640; fmt_height := 480; code := 0; field := 0;
     colorspace := 0; ycbcr_enc := 0; quantization := 0; xfer_func := 0 |}.

Definition mode_640x400 : ov9281_mode :=
  {| width := 640; height := 400;
     hts_def := hts_def mode_1280x800;
     vts_def := vts_def mode_1280x800;
     exp_def := exp_def mode_1280x800;
     crop := {| left := 0; top := 0; rect_width := 640;
                rect_height := 400 |};
     reg_list := reg_list mode_1280x800 |}.

Section Formats.

Variable hw : platform.
Variable k : v4l2_abi.

(** Modelled from the spec: [__v4l2_ctrl_s_ctrl] of the control framework,
    which is not part of the driver file.  The value becomes the control's
    value; a control created with the driver's setter has it called, a
    control created without one ([hblank]) is only stored. *)
Definition __v4l2_ctrl_s_ctrl (id : ctrl_id) (v : Z) : M Z :=
  match id with
  | V4L2_CID_HBLANK =>
      d <- get_dev ;;
      let c := ctrl_of id d in
      put_dev (with_ctrl id {| minimum := minimum c; maximum := maximum c;
                               step := step c;
                               default_value := default_value c;
                               cur_val := v |} d) ;;;
      ret 0
  | _ => v4l2_ctrl_s_ctrl hw id v
  end.

Definition with_cur_mode (m : ov9281_mode) (d : ov9281) : ov9281 :=
  {| reset_gpio := reset_gpio d; pwdn_gpio := pwdn_gpio d;
     exposure := exposure d; anal_gain := anal_gain d; hblank := hblank d;
     vblank := vblank d; test_pattern := test_pattern d;
     streaming := streaming d; power_on := power_on d; cur_mode := m |}.

(** [ov9281_set_fmt]: returns the status, the try state and [*fmt] as the
    call leaves them. *)
Definition ov9281_set_fmt (cfg : pad_configs) (fmt : v4l2_subdev_format)
  : M (Z * pad_configs * v4l2_subdev_format) :=
  let mode := ov9281_find_best_fit fmt in
  let cs := V4L2_COLORSPACE_SRGB k in
  let enc := V4L2_MAP_YCBCR_ENC_DEFAULT k cs in
  let fmt :=
    {| which := which fmt; pad := pad fmt;
       format :=
         {| fmt_width := width mode;
            fmt_height := height mode;
            code := MEDIA_BUS_FMT_Y10_1X10 k;
            field := V4L2_FIELD_NONE k;
            colorspace := cs;
            ycbcr_enc := enc;
            quantization := V4L2_MAP_QUANTIZATION_DEFAULT k true cs enc;
            xfer_func := V4L2_MAP_XFER_FUNC_DEFAULT k cs |} |} in
  if which fmt =? V4L2_SUBDEV_FORMAT_TRY k then
    ret (0, set_try_fmt cfg (pad fmt) (format fmt), fmt)
  else
    d <- get_dev ;;
    put_dev (with_cur_mode mode d) ;;;
    let h_blank := u32 (hts_def mode - width mode) in
    __v4l2_ctrl_modify_range V4L2_CID_HBLANK h_blank h_blank 1 h_blank ;;;
    __v4l2_ctrl_s_ctrl V4L2_CID_HBLANK h_blank ;;;
    let vblank_def := u32 (vts_def mode - height mode) in
    __v4l2_ctrl_modify_range V4L2_CID_VBLANK vblank_def
      (u32 (OV9281_VTS_MAX - height mode)) 1 vblank_def ;;;
    __v4l2_ctrl_s_ctrl V4L2_CID_VBLANK vblank_def ;;;
    ret (0, cfg, fmt).

(** [ov9281_get_fmt] only reads the handle. *)
Definition ov9281_get_fmt (d : ov9281) (cfg : pad_configs)
  (fmt : v4l2_subdev_format) : Z * v4l2_subdev_format :=
  let mode := cur_mode d in
  if which fmt =? V4L2_SUBDEV_FORMAT_TRY k then
    (0, {| which := which fmt; pad := pad fmt;
           format := try_fmt (cfg (pad fmt)) |})
  else
    let cs := V4L2_COLORSPACE_SRGB k in
    let enc := V4L2_MAP_YCBCR_ENC_DEFAULT k cs in
    (0, {| which := which fmt; pad := pad fmt;
           format :=
             {| fmt_width := width mode;
                fmt_height := height mode;
                code := MEDIA_BUS_FMT_Y10_1X10 k;
                field := V4L2_FIELD_NONE k;
                colorspace := cs;
                ycbcr_enc := enc;
                quantization := V4L2_MAP_QUANTIZATION_DEFAULT k true cs enc;
                xfer_func := V4L2_MAP_XFER_FUNC_DEFAULT k cs |} |}).

(** [ov9281_enum_mbus_code]: the status and [code->code] afterwards. *)
Definition ov9281_enum_mbus_code (code_index code_code : Z) : Z * Z :=
  if negb (u32 code_index =? 0) then (- EINVAL, code_code)
  else (0, MEDIA_BUS_FMT_Y10_1X10 k).

Definition ov9281_enum_frame_sizes (fse : v4l2_subdev_frame_size_enum)
  : Z * v4l2_subdev_frame_size_enum :=
  if Z.of_nat (length supported_modes) <=? u32 (index fse) then (- EINVAL, fse)
  else if negb (fse_code fse =? MEDIA_BUS_FMT_Y10_1X10 k) then (- EINVAL, fse)
  else
    let m := nth (Z.to_nat (u32 (index fse))) supported_modes mode_1280x800 in
    (0, {| index := index fse; fse_code := fse_code fse;
           min_width := width m; max_width := width m;
           min_height := height m; max_height := height m |}).

(** [__ov9281_get_pad_crop]; [None] is the [NULL] it returns for a [which]
    that is neither of the two. *)
Definition __ov9281_get_pad_crop (d : ov9281) (cfg : pad_configs)
  (p : Z) (w : Z) : option v4l2_rect :=
  if w =? V4L2_SUBDEV_FORMAT_TRY k then Some (try_crop (cfg p))
  else if w =? V4L2_SUBDEV_FORMAT_ACTIVE k then Some (crop (cur_mode d))
  else None.

(** [ov9281_get_selection]: the status and [*sel] afterwards; [None] when
    the [NULL] of [__ov9281_get_pad_crop] is dereferenced.  The case labels
    of the [switch] are tried in the order of the source. *)
Definition ov9281_get_selection (d : ov9281) (cfg : pad_configs)
  (sel : v4l2_subdev_selection) : option (Z * v4l2_subdev_selection) :=
  let with_r (x : v4l2_rect) :=
    {| sel_which := sel_which sel; sel_pad := sel_pad sel;
       target := target sel; r := x |} in
  if target sel =? V4L2_SEL_TGT_CROP k then
    match __ov9281_get_pad_crop d cfg (sel_pad sel) (sel_which sel) with
    | Some x => Some (0, with_r x)
    | None => None
    end
  else if target sel =? V4L2_SEL_TGT_NATIVE_SIZE k then
    Some (0, with_r {| left := 0; top := 0;
                       rect_width := OV9281_NATIVE_WIDTH;
                       rect_height := OV9281_NATIVE_HEIGHT |})
  else if (target sel =? V4L2_SEL_TGT_CROP_DEFAULT k)
          || (target sel =? V4L2_SEL_TGT_CROP_BOUNDS k) then
    Some (0, with_r {| left := OV9281_PIXEL_ARRAY_LEFT;
                       top := OV9281_PIXEL_ARRAY_TOP;
                       rect_width := OV9281_PIXEL_ARRAY_WIDTH;
                       rect_height := OV9281_PIXEL_ARRAY_HEIGHT |})
  else Some (- EINVAL, sel).

(** [ov9281_open]: the status and the try state of the file handle
    afterwards. *)
Definition ov9281_open (cfg : pad_configs) : Z * pad_configs :=
  let def_mode := nth 0 supported_modes mode_1280x800 in
  let cs := V4L2_COLORSPACE_SRGB k in
  let enc := V4L2_MAP_YCBCR_ENC_DEFAULT k cs in
  (0, set_try_fmt cfg 0
        {| fmt_width := width def_mode;
           fmt_height := height def_mode;
           code := MEDIA_BUS_FMT_Y10_1X10 k;
           field := V4L2_FIELD_NONE k;
           colorspace := cs;
           ycbcr_enc := enc;
           quantization := V4L2_MAP_QUANTIZATION_DEFAULT k true cs enc;
           xfer_func := V4L2_MAP_XFER_FUNC_DEFAULT k cs |}).

End Formats.

(** The format structure the driver fills in for a mode. *)
Definition mode_format (k : v4l2_abi) (m : ov9281_mode)
  : v4l2_mbus_framefmt :=
  {| fmt_width := width m;
     fmt_height := height m;
     code := MEDIA_BUS_FMT_Y10_1X10 k;
     field := V4L2_FIELD_NONE k;
     colorspace := V4L2_COLORSPACE_SRGB k;
     ycbcr_enc := V4L2_MAP_YCBCR_ENC_DEFAULT k (V4L2_COLORSPACE_SRGB k);
     quantization :=
       V4L2_MAP_QUANTIZATION_DEFAULT k true (V4L2_COLORSPACE_SRGB k)
         (V4L2_MAP_YCBCR_ENC_DEFAULT k (V4L2_COLORSPACE_SRGB k));
     xfer_func := V4L2_MAP_XFER_FUNC_DEFAULT k (V4L2_COLORSPACE_SRGB k) |}.

(** The interface values of the kernel the driver is built for, for the
    examples. *)
Definition linux_abi : v4l2_abi :=
  {| MEDIA_BUS_FMT_Y10_1X10 := 0x200a;
     V4L2_FIELD_NONE := 1;
     V4L2_COLORSPACE_SRGB := 8;
     V4L2_MAP_YCBCR_ENC_DEFAULT := fun _ => 1;
     V4L2_MAP_QUANTIZATION_DEFAULT := fun _ _ _ => 1;
     V4L2_MAP_XFER_FUNC_DEFAULT := fun _ => 2;
     V4L2_SUBDEV_FORMAT_TRY := 0;
     V4L2_SUBDEV_FORMAT_ACTIVE := 1;
     V4L2_SEL_TGT_CROP := 0;
     V4L2_SEL_TGT_NATIVE_SIZE := 3;
     V4L2_SEL_TGT_CROP_DEFAULT := 1;
     V4L2_SEL_TGT_CROP_BOUNDS := 2 |}.

(** ** Binding and unbinding *)

Definition ENOMEM : Z := 12.

(** What the kernel answers to the calls of [ov9281_probe] that leave the
    driver file: whether the handle could be allocated, whether the clock
    was found, whether each GPIO lookup gave something other than an error
    pointer, and the status of the regulator lookup, of the control
    handler, of the pad initialisation and of the registration. *)
Record probe_env := {
  devm_kzalloc : bool;
  devm_clk_get : bool;
  reset_gpiod_get : bool;
  pwdn_gpiod_get : bool;
  devm_regulator_bulk_get : Z;
  ctrl_handler_error : Z;
  media_entity_pads_init : Z;
  v4l2_async_register_subdev_sensor_common : Z
}.

(** Modelled from the spec: [pm_runtime_set_active] and [pm_runtime_idle]
    of the runtime-PM core, which is not part of the driver file, as the
    probe uses them: the device is marked resumed, and a resumed device
    that nobody holds a reference to is suspended through the callback of
    the driver. *)
Definition pm_runtime_set_active : M unit := fun s =>
  (tt, with_active true s).

Definition pm_runtime_idle : M unit := fun s =>
  if (usage_count s =? 0) && runtime_active s then
    let (_, s') := ov9281_runtime_suspend s in (tt, with_active false s')
  else (tt, s).

(** Modelled from the spec: [pm_runtime_status_suspended] and
    [pm_runtime_set_suspended] of the runtime-PM core, as the removal uses
    them. *)
Definition pm_runtime_status_suspended : M bool := fun s =>
  (negb (runtime_active s), s).

Definition pm_runtime_set_suspended : M unit := fun s =>
  (tt, with_active false s).

(** [ov9281_probe].  The handle comes zeroed from [devm_kzalloc]; a [NULL]
    GPIO is not an error pointer.  The mutex, the sub-device initialisation,
    the entity fields, [pm_runtime_enable] and the clean-up calls of the
    unwinding ([media_entity_cleanup], [v4l2_ctrl_handler_free],
    [mutex_destroy]) have no part in the system modelled here and are left
    out; [id_msb0] is the content of the uninitialised local of the
    identity check. *)
Definition ov9281_probe (hw : platform) (env : probe_env) (id_msb0 : Z)
  : M Z :=
  if negb (devm_kzalloc env) then ret (- ENOMEM)
  else
    put_dev {| reset_gpio := true; pwdn_gpio := true;
               exposure := zero_ctrl; anal_gain := zero_ctrl;
               hblank := zero_ctrl; vblank := zero_ctrl;
               test_pattern := zero_ctrl;
               streaming := false; power_on := false;
               cur_mode := nth 0 supported_modes mode_1280x800 |} ;;;
    if negb (devm_clk_get env) then ret (- EINVAL)
    else
      d <- get_dev ;;
      put_dev {| reset_gpio := reset_gpiod_get env;
                 pwdn_gpio := pwdn_gpiod_get env;
                 exposure := exposure d; anal_gain := anal_gain d;
                 hblank := hblank d; vblank := vblank d;
                 test_pattern := test_pattern d;
                 streaming := streaming d; power_on := power_on d;
                 cur_mode := cur_mode d |} ;;;
      let e := devm_regulator_bulk_get env in
      if negb (e =? 0) then ret e
      else
        let e := ctrl_handler_error env in
        if negb (e =? 0) then ret e
        else
          d <- get_dev ;;
          put_dev (ov9281_initialize_controls d) ;;;
          e <- __ov9281_power_on hw ;;
          if negb (e =? 0) then ret e
          else
            e <- ov9281_check_sensor_id hw id_msb0 ;;
            if negb (e =? 0) then __ov9281_power_off ;;; ret e
            else
              let e := media_entity_pads_init env in
              if e <? 0 then __ov9281_power_off ;;; ret e
              else
                let e := v4l2_async_register_subdev_sensor_common env in
                if negb (e =? 0) then __ov9281_power_off ;;; ret e
                else
                  pm_runtime_set_active ;;;
                  pm_runtime_idle ;;;
                  ret 0.

(** The handle a probe leaves when it gets as far as the controls. *)
Definition handle_of (env : probe_env) : ov9281 :=
  ov9281_initialize_controls
    {| reset_gpio := reset_gpiod_get env; pwdn_gpio := pwdn_gpiod_get env;
       exposure := zero_ctrl; anal_gain := zero_ctrl; hblank := zero_ctrl;
       vblank := zero_ctrl; test_pattern := zero_ctrl;
       streaming := false; power_on := false;
       cur_mode := mode_1280x800 |}.

(** The two reads of the identity check. *)
Definition id_reads : list event :=
  [I2cTransfer [0x30; 0x0b] 1; I2cTransfer [0x30; 0x0a] 1].

(** [ov9281_remove]; the unregistration, the clean-up calls and
    [pm_runtime_disable] have no part in the system modelled here and are
    left out. *)
Definition ov9281_remove : M Z :=
  suspended <- pm_runtime_status_suspended ;;
  when (negb suspended) __ov9281_power_off ;;;
  pm_runtime_set_suspended ;;;
  ret 0.

(** A kernel that grants everything the probe asks for. *)
Definition granting : probe_env :=
  {| devm_kzalloc := true; devm_clk_get := true;
     reset_gpiod_get := true; pwdn_gpiod_get := true;
     devm_regulator_bulk_get := 0; ctrl_handler_error := 0;
     media_entity_pads_init := 0;
     v4l2_async_register_subdev_sensor_common := 0 |}.

(** An OV9281 on a working platform, as a probe meets it: the identity
    reads come after the eight requests of the power-up. *)
Definition fresh_sensor : platform :=
  {| i2c_master_send := fun _ buf => Z.of_nat (length buf);
     i2c_transfer := fun _ => 2;
     i2c_read_data := fun n => if Nat.eqb n 8 then [0x81] else [0x92];
     clk_prepare_enable := fun _ => 0;
     regulator_bulk_enable := fun _ => 0 |}.

(** The system before the probe: nothing has happened, the device counts
    as suspended and the handle does not exist yet ([d] stands for the
    memory that will hold it). *)
Definition unbound (d : ov9281) : system :=
  {| dev := d; usage_count := 0; runtime_active := false; trace := [] |}.

(** ** The registers as the driver last wrote them *)








(** ** The states the host can bring the sensor into *)

(** From the state a probe leaves, the host powers, streams, sets formats
    and writes controls; the control framework hands the setter only values
    within the range of the control. *)
Inductive reachable (hw : platform) : system -> Prop :=
| reach_probe : reachable hw after_probe
| reach_s_power s on :
    reachable hw s -> reachable hw (snd (ov9281_s_power hw on s))
| reach_s_stream s on :
    reachable hw s -> reachable hw (snd (ov9281_s_stream hw on s))
| reach_s_ctrl s id v :
    reachable hw s -> In id ops_ctrls ->
    minimum (ctrl_of id (dev s)) <= v <= maximum (ctrl_of id (dev s)) ->
    reachable hw (snd (v4l2_ctrl_s_ctrl hw id v s))
| reach_set_fmt s k cfg fmt :
    reachable hw s -> reachable hw (snd (ov9281_set_fmt hw k cfg fmt s)).

(** What every reachable handle satisfies: a supported mode is current, the
    vertical blanking has the range of that mode and a value within it, and
    the exposure range follows it. *)
Definition handle_ok (d : ov9281) : Prop :=
  In (cur_mode d) supported_modes /\
  minimum (vblank d) = vts_def (cur_mode d) - height (cur_mode d) /\
  maximum (vblank d) = OV9281_VTS_MAX - height (cur_mode d) /\
  vblank_accepts (cur_mode d) (cur_val (vblank d)) /\
  coupled d /\
  minimum (exposure d) = OV9281_EXPOSURE_MIN.

(** * Properties *)

(** ** Register transport *)

Lemma u8_small x : 0 <= x < 256 -> u8 x = x.
Proof. intros H. unfold u8. apply Z.mod_small. lia. Qed.

Lemma u16_small x : 0 <= x < 2 ^ 16 -> u16 x = x.
Proof. intros H. unfold u16. apply Z.mod_small. lia. Qed.

Lemma u32_small x : 0 <= x < 2 ^ 32 -> u32 x = x.
Proof. intros H. unfold u32. apply Z.mod_small. lia. Qed.

Lemma land_ff x : Z.land x 0xff = x mod 256.
Proof. change 0xff with (Z.ones 8). rewrite Z.land_ones by lia. reflexivity. Qed.

Lemma be32_byte_div v i :
  0 <= i <= 3 -> be32_byte v i = (v / 2 ^ (8 * (3 - i))) mod 256.
Proof.
  intros H. unfold be32_byte.
  rewrite land_ff, Z.shiftr_div_pow2 by lia. reflexivity.
Qed.

(** The buffer the code fills is the message of the statements. *)
Lemma write_reg_buf_message a L v :
  0 <= a < 2 ^ 16 -> 0 <= L <= 4 ->
  write_reg_buf a L v = reg_message a (Z.to_nat L) v.
Proof.
  intros Ha HL. unfold write_reg_buf, reg_message.
  assert (E0 : u8 (Z.shiftr a 8) = a / 256).
  { rewrite Z.shiftr_div_pow2 by lia. apply u8_small.
    change (2 ^ 8) with 256. split.
    - apply Z.div_pos; lia.
    - apply Z.div_lt_upper_bound; lia. }
  assert (E1 : u8 (Z.land a 0xff) = a mod 256).
  { rewrite land_ff. apply u8_small. apply Z.mod_pos_bound. lia. }
  rewrite E0, E1.
  assert (C : L = 0 \/ L = 1 \/ L = 2 \/ L = 3 \/ L = 4) by lia.
  destruct C as [-> | [-> | [-> | [-> | ->]]]];
    repeat match goal with
           | |- context [Z.to_nat ?z] =>
               let n := eval vm_compute in (Z.to_nat z) in
               change (Z.to_nat z) with n
           end;
    cbn [firstn copy_val big_endian];
    rewrite ?be32_byte_div by lia; reflexivity.
Qed.

Lemma big_endian_length L v : length (big_endian L v) = L.
Proof. induction L; cbn [big_endian length]; congruence. Qed.

Lemma big_endian_value_inv L v :
  (L <= 4)%nat -> 0 <= v < 2 ^ (8 * Z.of_nat L) ->
  big_endian_value (big_endian L v) = v.
Proof.
  intros HL Hv.
  do 5 (destruct L as [| L]; [ cbn in *; unfold big_endian_value;
    cbn [fold_left]; Z.div_mod_to_equations; lia | ]).
  lia.
Qed.

(** How a register write runs: the message always reaches the bus and the
    status reflects how many bytes the bus took. *)
Lemma write_reg_run hw reg len value s :
  u32 len <= 4 ->
  ov9281_write_reg hw reg len value s =
  (write_status hw (length (trace s)) reg len value,
   emit [reg_write reg len value] s).
Proof.
  intros H. unfold ov9281_write_reg, write_status, reg_write.
  destruct (4 <? u32 len) eqn:E; [ apply Z.ltb_lt in E; lia | ].
  unfold bind, do_i2c_master_send, clock, log, ret, bind.
  destruct (u32 _ =? u32 _); reflexivity.
Qed.

Lemma write_reg_too_long hw reg len value s :
  4 < u32 len -> ov9281_write_reg hw reg len value s = (- EINVAL, s).
Proof.
  intros H. unfold ov9281_write_reg.
  destruct (4 <? u32 len) eqn:E; [ reflexivity | apply Z.ltb_ge in E; lia ].
Qed.

(** C5: a register write of length [L] in 1..4 with a value below
    [2^(8L)] puts exactly [L + 2] bytes on the bus, the address high byte,
    the address low byte and the [L] bytes of the value most significant
    first (they stand for the whole value); the status is 0 when the bus
    takes all of them and [-EIO] when the transfer is short.  A length above
    4 is refused with [-EINVAL] before anything is sent. *)
Theorem write_reg_message hw s a L v :
  0 <= a < 2 ^ 16 -> 0 <= v < 2 ^ 32 ->
  (1 <= L <= 4 -> v < 2 ^ (8 * L) ->
   let msg := reg_message a (Z.to_nat L) v in
   let sent := i2c_master_send hw (length (trace s)) msg in
   Z.of_nat (length msg) = L + 2 /\
   big_endian_value (big_endian (Z.to_nat L) v) = v /\
   snd (ov9281_write_reg hw a L v s) = emit [I2cSend msg] s /\
   (sent = L + 2 -> fst (ov9281_write_reg hw a L v s) = 0) /\
   (- 2 ^ 31 <= sent < L + 2 ->
    fst (ov9281_write_reg hw a L v s) = - EIO)) /\
  (4 < L < 2 ^ 32 -> ov9281_write_reg hw a L v s = (- EINVAL, s)).
Proof.
  intros Ha Hv. split.
  - intros HL Hv' msg sent.
    assert (EL : u32 L = L) by (apply u32_small; lia).
    assert (Ebuf : write_reg_buf (u16 a) (u32 L) (u32 v) = msg).
    { rewrite u16_small, EL, (u32_small v) by lia.
      apply write_reg_buf_message; lia. }
    rewrite write_reg_run by lia.
    unfold write_status, reg_write. rewrite Ebuf. fold sent.
    cbn [fst snd]. rewrite EL.
    repeat split.
    + unfold msg, reg_message. cbn [length].
      rewrite big_endian_length. lia.
    + apply big_endian_value_inv; [ lia | ].
      rewrite Z2Nat.id by lia. lia.
    + intros ->. rewrite Z.eqb_refl. reflexivity.
    + intros Hs. rewrite (u32_small (L + 2)) by lia.
      destruct (u32 sent =? L + 2) eqn:E; [ | reflexivity ].
      apply Z.eqb_eq in E. unfold u32 in E.
      destruct (Z_lt_le_dec sent 0) as [Hn | Hp].
      * assert (E' : sent mod 2 ^ 32 = sent + 2 ^ 32).
        { symmetry. apply Z.mod_unique with (q := -1); lia. }
        lia.
      * rewrite Z.mod_small in E by lia. lia.
  - intros HL. apply write_reg_too_long.
    rewrite u32_small by lia. lia.
Qed.

Lemma write_reg_message_witness :
  (0 <= 0x3500 < 2 ^ 16) /\ (0 <= 0x3200 < 2 ^ 32) /\
  (snd (ov9281_write_reg good_hw 0x3500 3 0x3200 after_probe)
     = emit [I2cSend [0x35; 0x00; 0x00; 0x32; 0x00]] after_probe /\
   fst (ov9281_write_reg good_hw 0x3500 3 0x3200 after_probe) = 0 /\
   fst (ov9281_write_reg dead_bus 0x3500 3 0x3200 after_probe) = - EIO) /\
  ov9281_write_reg good_hw 0x3500 5 0x3200 after_probe
    = (- EINVAL, after_probe).
Proof.
  assert (Ha : 0 <= 0x3500 < 2 ^ 16) by lia.
  assert (Hv : 0 <= 0x3200 < 2 ^ 32) by lia.
  assert (HL : 1 <= 3 <= 4) by lia.
  assert (Hv' : 0x3200 < 2 ^ (8 * 3)) by reflexivity.
  split; [ exact Ha | split; [ exact Hv | split ] ].
  - destruct (write_reg_message good_hw after_probe 0x3500 3 0x3200 Ha Hv)
      as [Hg _].
    destruct (Hg HL Hv') as (_ & _ & Hs & H0 & _).
    destruct (write_reg_message dead_bus after_probe 0x3500 3 0x3200 Ha Hv)
      as [Hd _].
    destruct (Hd HL Hv') as (_ & _ & _ & _ & He).
    split; [ exact Hs | split ].
    + apply H0. reflexivity.
    + apply He. vm_compute. split; [ discriminate | reflexivity ].
  - destruct (write_reg_message good_hw after_probe 0x3500 5 0x3200 Ha Hv)
      as [_ Hlong].
    apply Hlong. lia.
Defined.

Lemma read_reg_zero_length hw reg old s :
  ov9281_read_reg hw reg 0 old s = (- EINVAL, old, s).
Proof. reflexivity. Qed.

(** C10: a write of length 0 is not refused: the two address bytes alone go
    on the bus and the status is 0 when the bus takes them, whereas a read
    of length 0 is refused with [-EINVAL] before any transfer. *)
Theorem zero_length_write_accepted hw s a v old :
  0 <= a < 2 ^ 16 ->
  let msg := [a / 256; a mod 256] in
  let sent := i2c_master_send hw (length (trace s)) msg in
  snd (ov9281_write_reg hw a 0 v s) = emit [I2cSend msg] s /\
  fst (ov9281_write_reg hw a 0 v s) <> - EINVAL /\
  (sent = 2 -> fst (ov9281_write_reg hw a 0 v s) = 0) /\
  ov9281_read_reg hw a 0 old s = (- EINVAL, old, s).
Proof.
  intros Ha msg sent.
  assert (Ebuf : write_reg_buf (u16 a) (u32 0) (u32 v) = msg).
  { rewrite u16_small by lia. change (u32 0) with 0.
    rewrite write_reg_buf_message by lia. reflexivity. }
  rewrite write_reg_run by (vm_compute; discriminate).
  unfold write_status, reg_write. rewrite Ebuf. fold sent. cbn [fst snd].
  repeat split.
  - destruct (u32 sent =? u32 (u32 0 + 2)); discriminate.
  - intros ->. reflexivity.
Qed.

Lemma zero_length_write_accepted_witness :
  (0 <= 0x0100 < 2 ^ 16) /\
  ov9281_write_reg good_hw 0x0100 0 0xabcd after_probe
    = (0, emit [I2cSend [0x01; 0x00]] after_probe) /\
  ov9281_read_reg good_hw 0x0100 0 7 after_probe = (- EINVAL, 7, after_probe).
Proof.
  assert (Ha : 0 <= 0x0100 < 2 ^ 16) by lia.
  destruct (zero_length_write_accepted good_hw after_probe 0x0100 0xabcd 7 Ha)
    as (Hs & _ & H0 & Hr).
  split; [ exact Ha | split; [ | exact Hr ] ].
  rewrite (surjective_pairing (ov9281_write_reg _ _ _ _ _)).
  rewrite Hs, H0 by reflexivity. reflexivity.
Defined.

(** ** Identity check *)

Lemma read_reg_byte hw reg old s :
  ov9281_read_reg hw reg OV9281_REG_VALUE_08BIT old s =
  (if i2c_transfer hw (length (trace s)) =? 2
   then (0, u8 (nth 0 (i2c_read_data hw (length (trace s))) 0))
   else (- EIO, old),
   emit [I2cTransfer [u8 (Z.shiftr (u16 reg) 8); u8 (u16 reg)] 1] s).
Proof.
  unfold ov9281_read_reg. change (u32 OV9281_REG_VALUE_08BIT) with 1.
  cbn [Z.ltb Z.eqb Z.compare Pos.compare Pos.compare_cont orb].
  unfold bind, do_i2c_transfer, clock, log, ret, bind. cbn [fst snd].
  destruct (i2c_transfer hw (length (trace s)) =? 2); cbn [negb];
    [ | reflexivity ].
  do 2 f_equal. unfold read_bytes. change (Z.to_nat 1) with 1%nat.
  cbn [seq map be_value length]. change (8 * Z.of_nat 0) with 0.
  rewrite Z.shiftl_0_r, Z.lor_0_r.
  unfold u8. apply Z.mod_mod. lia.
Qed.

(** C4 (as amended): the identity check reads register 0x300B as one byte
    and, only if that read succeeds, register 0x300A as one byte; it returns
    [-ENODEV] exactly when a read fails or [(0x300A << 8) | 0x300B] is not
    0x9281, and 0 otherwise.  Nothing else of the system changes. *)
Theorem check_sensor_id_result hw junk s :
  let n := length (trace s) in
  let ok1 := i2c_transfer hw n =? 2 in
  let ok2 := i2c_transfer hw (S n) =? 2 in
  let lsb := u8 (nth 0 (i2c_read_data hw n) 0) in
  let msb := u8 (nth 0 (i2c_read_data hw (S n)) 0) in
  let id := Z.lor (Z.shiftl msb 8) lsb in
  let r := ov9281_check_sensor_id hw junk s in
  snd r = emit (I2cTransfer [0x30; 0x0b] 1 ::
                if ok1 then [I2cTransfer [0x30; 0x0a] 1] else []) s /\
  (fst r = - ENODEV <-> ok1 = false \/ ok2 = false \/ id <> CHIP_ID) /\
  (fst r = 0 <-> ok1 = true /\ ok2 = true /\ id = CHIP_ID).
Proof.
  intros n ok1 ok2 lsb msb id r. subst r.
  unfold ov9281_check_sensor_id, bind.
  rewrite read_reg_byte. fold n ok1 lsb.
  change (u8 (Z.shiftr (u16 (OV9281_REG_CHIP_ID + 1)) 8)) with 0x30.
  change (u8 (u16 (OV9281_REG_CHIP_ID + 1))) with 0x0b.
  destruct ok1 eqn:E1; cbn [fst snd Z.eqb].
  - rewrite read_reg_byte.
    change (u8 (Z.shiftr (u16 OV9281_REG_CHIP_ID) 8)) with 0x30.
    change (u8 (u16 OV9281_REG_CHIP_ID)) with 0x0a.
    assert (El : length (trace (emit [I2cTransfer [0x30; 0x0b] 1] s)) = S n).
    { unfold emit, n. cbn [trace]. rewrite length_app. cbn [length]. lia. }
    rewrite El. fold ok2 msb.
    assert (Eemit : forall a b, emit [b] (emit [a] s) = emit [a; b] s).
    { intros a b. unfold emit. cbn [dev usage_count runtime_active trace].
      rewrite <- app_assoc. reflexivity. }
    destruct ok2 eqn:E2; cbn [fst snd Z.eqb negb orb].
    + assert (Eid : Z.lor lsb (u32 (Z.shiftl msb 8)) = id).
      { unfold id. rewrite Z.lor_comm. f_equal. apply u32_small.
        assert (0 <= msb < 256) by (apply Z.mod_pos_bound; lia).
        rewrite Z.shiftl_mul_pow2 by lia. lia. }
      rewrite Eid. unfold ret.
      destruct (id =? CHIP_ID) eqn:Ec; cbn [negb fst snd]; rewrite Eemit.
      * apply Z.eqb_eq in Ec. repeat split; try tauto;
          try discriminate; intuition congruence.
      * apply Z.eqb_neq in Ec. repeat split; try tauto;
          try discriminate; intuition congruence.
    + unfold ret. cbn [fst snd]. rewrite Eemit.
      repeat split; try tauto; try discriminate; intuition congruence.
  - unfold ret. cbn [fst snd negb orb].
    repeat split; try tauto; try discriminate; intuition congruence.
Qed.

(** C4, where the sentence of the specification does not hold: when the
    first read fails the second read is not performed, so the check does one
    read, not two. *)
Lemma sensor_id_second_read_skipped :
  ov9281_check_sensor_id dead_bus 0 after_probe
    = (- ENODEV, emit [I2cTransfer [0x30; 0x0b] 1] after_probe) /\
  i2c_traffic (trace (snd (ov9281_check_sensor_id dead_bus 0 after_probe)))
    <> [I2cTransfer [0x30; 0x0b] 1; I2cTransfer [0x30; 0x0a] 1].
Proof. split; [ reflexivity | vm_compute; discriminate ]. Qed.

Example sensor_id_detected :
  fst (ov9281_check_sensor_id good_hw 0 after_probe) = 0.
Proof. reflexivity. Qed.

Example sensor_id_wrong_chip :
  fst (ov9281_check_sensor_id wrong_chip 0 after_probe) = - ENODEV.
Proof. reflexivity. Qed.

(** ** Platform state bookkeeping *)

Ltac sys_norm :=
  unfold emit, with_usage, with_dev, with_active;
  cbn [dev usage_count runtime_active trace];
  rewrite <- ?app_assoc; cbn [app]; rewrite ?app_nil_r.

Lemma emit_emit a b s : emit b (emit a s) = emit (a ++ b) s.
Proof.
  unfold emit. cbn [dev usage_count runtime_active trace].
  rewrite app_assoc. reflexivity.
Qed.

Lemma emit_nil s : emit [] s = s.
Proof.
  destruct s. unfold emit. cbn [dev usage_count runtime_active trace].
  rewrite app_nil_r. reflexivity.
Qed.

Lemma i2c_traffic_app a b : i2c_traffic (a ++ b) = i2c_traffic a ++ i2c_traffic b.
Proof. apply filter_app. Qed.

Lemma power_off_quiet d : i2c_traffic (power_off_events d) = [].
Proof.
  unfold power_off_events.
  destruct (pwdn_gpio d), (reset_gpio d); reflexivity.
Qed.

Lemma power_off_run s :
  __ov9281_power_off s = (tt, emit (power_off_events (dev s)) s).
Proof.
  unfold __ov9281_power_off, power_off_events, bind, get_dev, when, log, ret.
  destruct (pwdn_gpio (dev s)), (reset_gpio (dev s));
    cbn [dev emit]; rewrite ?emit_emit; reflexivity.
Qed.

Lemma pm_runtime_put_run s : pm_runtime_put s = (tt, released s).
Proof.
  unfold pm_runtime_put, released, ov9281_runtime_suspend, bind.
  cbn [usage_count runtime_active with_usage emit].
  destruct ((usage_count s - 1 =? 0) && runtime_active s); [ | reflexivity ].
  rewrite power_off_run. unfold ret.
  unfold with_active, with_usage, emit.
  cbn [dev usage_count runtime_active trace].
  rewrite <- app_assoc. reflexivity.
Qed.

(** Powering up asks nothing of the I2C bus and touches neither the handle
    nor the PM bookkeeping. *)
Lemma power_on_run hw s :
  exists pw,
    snd (__ov9281_power_on hw s) = emit pw s /\ quiet pw /\
    fst (__ov9281_power_on hw s) <= 0 /\
    (platform_ok hw -> fst (__ov9281_power_on hw s) = 0).
Proof.
  unfold __ov9281_power_on, bind, get_dev, clock, log, when, ret.
  cbn [dev emit trace].
  destruct (clk_prepare_enable hw _ <? 0) eqn:E1.
  { eexists. rewrite emit_emit. cbn [fst snd].
    split; [ reflexivity | split; [ split; reflexivity | ] ].
    apply Z.ltb_lt in E1. split; [ lia | ].
    intros (_ & Hclk & _). specialize (Hclk (length (trace s ++
      [ClkSetRate OV9281_XVCLK_FREQ]))). lia. }
  destruct (reset_gpio (dev s)), (pwdn_gpio (dev s));
    cbn [dev emit trace usage_count runtime_active];
    match goal with
    | |- context [regulator_bulk_enable hw ?n <? 0] =>
        pose proof (fun H : platform_ok hw => proj2 (proj2 H) n) as Hreg;
        destruct (regulator_bulk_enable hw n <? 0) eqn:E2
    end;
    eexists; cbn [fst snd]; rewrite ?emit_emit; cbn [app];
    (split; [ reflexivity | split; [ split; reflexivity | ] ]);
    try (apply Z.ltb_lt in E2);
    (split; [ lia | intros Hok; specialize (Hreg Hok); lia ]).
Qed.

Lemma get_sync_run hw s :
  let r := pm_runtime_get_sync hw s in
  dev (snd r) = dev s /\
  usage_count (snd r) = usage_count s + 1 /\
  (exists pw, trace (snd r) = trace s ++ PmGetSync :: pw /\ quiet pw) /\
  (0 <= fst r -> runtime_active (snd r) = true) /\
  (platform_ok hw -> 0 <= fst r) /\
  (fst r < 0 -> runtime_active (snd r) = runtime_active s).
Proof.
  unfold pm_runtime_get_sync, ov9281_runtime_resume.
  cbn [runtime_active with_usage emit].
  destruct (runtime_active s) eqn:Ea.
  - cbn [fst snd dev usage_count trace runtime_active with_usage emit].
    split; [ reflexivity | split; [ reflexivity | split; [ | split;
      [ | split ] ] ] ].
    + exists []. split; [ reflexivity | split; reflexivity ].
    + intros _. assumption.
    + lia.
    + lia.
  - set (s1 := with_usage _ _).
    destruct (power_on_run hw s1) as (pw & Hs & Hq & Hle & Hok).
    destruct (__ov9281_power_on hw s1) as [e s2]. cbn [fst snd] in *.
    subst s2.
    destruct (e <? 0) eqn:E; cbn [fst snd];
      unfold s1, with_active, with_usage, emit;
      cbn [dev usage_count runtime_active trace];
      rewrite <- ?app_assoc; cbn [app];
      (split; [ reflexivity | split; [ reflexivity | split; [ | split;
         [ | split ] ] ] ]);
      try (exists pw; split; [ reflexivity | assumption ]).
    + apply Z.ltb_lt in E. lia.
    + intros H. specialize (Hok H). apply Z.ltb_lt in E. lia.
    + intros _. exact Ea.
    + intros _. reflexivity.
    + lia.
    + apply Z.ltb_ge in E. lia.
Qed.

(** ** Control translation *)

Lemma pm_runtime_get_suspended s :
  runtime_active s = false -> pm_runtime_get s = (0, emit [PmGet] s).
Proof.
  intros H. unfold pm_runtime_get. cbn [runtime_active emit].
  rewrite H. reflexivity.
Qed.

Lemma pm_runtime_get_resumed s :
  runtime_active s = true ->
  pm_runtime_get s = (1, with_usage (usage_count s + 1) (emit [PmGet] s)).
Proof.
  intros H. unfold pm_runtime_get. cbn [runtime_active emit].
  rewrite H. reflexivity.
Qed.

Lemma range_update_run id v s :
  (d <- get_dev ;;
   match id with
   | V4L2_CID_VBLANK =>
       __v4l2_ctrl_modify_range V4L2_CID_EXPOSURE (minimum (exposure d))
         (u32 (height (cur_mode d) + v - 4)) (step (exposure d))
         (default_value (exposure d))
   | _ => ret tt
   end) s
  = (tt, with_dev (range_updated id v (dev s))
           (emit (ctrl_range_events (dev s) id v) s)).
Proof.
  unfold bind, get_dev.
  destruct id; unfold ret, range_updated, ctrl_range_events;
    try (rewrite emit_nil; destruct s; reflexivity).
  unfold __v4l2_ctrl_modify_range, bind, log, get_dev, put_dev.
  reflexivity.
Qed.

(** The setter on a suspended device: the range update, the probe, and
    nothing on the bus. *)
Lemma set_ctrl_suspended hw id v s :
  runtime_active s = false ->
  ov9281_set_ctrl hw id v s =
  (0, with_dev (range_updated id v (dev s))
        (emit (ctrl_range_events (dev s) id v ++ [PmGet]) s)).
Proof.
  intros H. unfold ov9281_set_ctrl.
  unfold bind at 1. unfold get_dev at 1.
  unfold bind at 1.
  pose proof (range_update_run id v s) as R.
  unfold bind at 1 in R. unfold get_dev at 1 in R.
  destruct id; cbn beta iota in R |- *; rewrite R;
    unfold bind; rewrite pm_runtime_get_suspended by exact H;
    cbn [Z.leb Z.compare]; unfold ret; rewrite <- emit_emit; reflexivity.
Qed.

(** The setter on a resumed device. *)
Lemma set_ctrl_resumed hw id v s :
  runtime_active s = true ->
  ov9281_set_ctrl hw id v s =
  (setter_status hw
     (length (trace s ++ ctrl_range_events (dev s) id v ++ [PmGet]))
     (dev s) id v,
   released
     (with_usage (usage_count s + 1)
        (with_dev (range_updated id v (dev s))
           (emit (ctrl_range_events (dev s) id v ++ [PmGet] ++
                  ctrl_reg_writes (dev s) id v) s)))).
Proof.
  intros H. unfold ov9281_set_ctrl.
  unfold bind at 1. unfold get_dev at 1.
  unfold bind at 1.
  pose proof (range_update_run id v s) as R.
  unfold bind at 1 in R. unfold get_dev at 1 in R.
  destruct id; cbn beta iota in R |- *; rewrite R;
    unfold bind at 1; rewrite pm_runtime_get_resumed by exact H;
    cbn [Z.leb Z.compare]; unfold ov9281_enable_test_pattern;
    unfold bind, ret;
    repeat (first [ rewrite write_reg_run by (vm_compute; discriminate)
                  | rewrite pm_runtime_put_run ]; cbv beta iota);
    unfold setter_status, ctrl_reg_writes, ctrl_range_events, range_updated;
    try (destruct (u32 v =? 0); cbn [negb]);
    (apply f_equal2; [ | apply f_equal ]);
    sys_norm; rewrite ?length_app; cbn [length];
    rewrite ?Nat.add_1_r, ?Nat.add_succ_r, ?Nat.add_0_r; reflexivity.
Qed.

Lemma released_dev s : dev (released s) = dev s.
Proof. unfold released. destruct (_ && _); reflexivity. Qed.

Lemma released_usage s : usage_count (released s) = usage_count s - 1.
Proof. unfold released. destruct (_ && _); reflexivity. Qed.

Lemma released_trace s :
  exists tl, trace (released s) = trace s ++ PmPut :: tl /\
             i2c_traffic tl = [].
Proof.
  unfold released. destruct (_ && _).
  - exists (power_off_events (dev s)). split; [ reflexivity | ].
    apply power_off_quiet.
  - exists []. split; reflexivity.
Qed.

Lemma released_in_use s :
  usage_count s <> 1 ->
  released s = with_usage (usage_count s - 1) (emit [PmPut] s).
Proof.
  intros H. unfold released.
  destruct (usage_count s - 1 =? 0) eqn:E; [ | reflexivity ].
  apply Z.eqb_eq in E. lia.
Qed.

Lemma ctrl_range_quiet d id v : i2c_traffic (ctrl_range_events d id v) = [].
Proof. destruct id; reflexivity. Qed.

Lemma ctrl_reg_writes_traffic d id v :
  i2c_traffic (ctrl_reg_writes d id v) = ctrl_reg_writes d id v.
Proof. destruct id; reflexivity. Qed.

(** The bus sees exactly the register writes of the control when the device
    is resumed, and nothing when it is suspended. *)
Lemma set_ctrl_traffic hw id v s :
  i2c_traffic (trace (snd (ov9281_set_ctrl hw id v s))) =
  i2c_traffic (trace s) ++
  (if runtime_active s then ctrl_reg_writes (dev s) id v else []).
Proof.
  destruct (runtime_active s) eqn:H.
  - rewrite set_ctrl_resumed by exact H. cbn [snd].
    destruct (released_trace
                (with_usage (usage_count s + 1)
                   (with_dev (range_updated id v (dev s))
                      (emit (ctrl_range_events (dev s) id v ++ [PmGet] ++
                             ctrl_reg_writes (dev s) id v) s))))
      as (tl & Ht & Hq).
    rewrite Ht. cbn [trace with_usage with_dev emit].
    rewrite !i2c_traffic_app, ctrl_range_quiet, ctrl_reg_writes_traffic.
    change (i2c_traffic [PmGet]) with (@nil event).
    change (i2c_traffic (PmPut :: tl)) with (i2c_traffic tl).
    rewrite Hq, app_nil_r. reflexivity.
  - rewrite set_ctrl_suspended by exact H.
    cbn [snd trace with_dev emit].
    rewrite !i2c_traffic_app, ctrl_range_quiet.
    reflexivity.
Qed.

Lemma set_ctrl_in_use hw id v s :
  runtime_active s = true -> usage_count s <> 0 ->
  ov9281_set_ctrl hw id v s =
  (setter_status hw
     (length (trace s ++ ctrl_range_events (dev s) id v ++ [PmGet]))
     (dev s) id v,
   with_dev (range_updated id v (dev s))
     (emit (setter_events (dev s) id v) s)).
Proof.
  intros Ha Hu. rewrite set_ctrl_resumed by exact Ha.
  f_equal. rewrite released_in_use by (cbn [usage_count with_usage]; lia).
  unfold setter_events. sys_norm. f_equal. lia.
Qed.

Lemma reg_write_message reg len v :
  0 <= reg < 2 ^ 16 -> 0 <= len <= 4 -> 0 <= v < 2 ^ 32 ->
  reg_write reg len v = I2cSend (reg_message reg (Z.to_nat len) v).
Proof.
  intros Hr Hl Hv. unfold reg_write.
  rewrite u16_small, (u32_small len), (u32_small v) by lia.
  rewrite write_reg_buf_message by lia. reflexivity.
Qed.

Lemma shiftl4_bounds E : 0 <= E < 2 ^ 20 -> 0 <= Z.shiftl E 4 < 2 ^ 24.
Proof. intros H. rewrite Z.shiftl_mul_pow2 by lia. lia. Qed.

(** C6: setting an exposure value [E] the control accepts (these lie between
    4 and 0x7fff - 4) on a resumed device puts exactly one message on the
    bus, the 24-bit write of [E << 4] to register 0x3500. *)
Theorem exposure_register_write hw s E :
  runtime_active s = true ->
  OV9281_EXPOSURE_MIN <= E <= OV9281_VTS_MAX - 4 ->
  i2c_traffic (trace (snd (ov9281_set_ctrl hw V4L2_CID_EXPOSURE E s))) =
  i2c_traffic (trace s) ++ [I2cSend (reg_message 0x3500 3 (Z.shiftl E 4))] /\
  big_endian_value (big_endian 3 (Z.shiftl E 4)) = Z.shiftl E 4.
Proof.
  intros Ha HE. unfold OV9281_EXPOSURE_MIN, OV9281_VTS_MAX in HE.
  pose proof (shiftl4_bounds E ltac:(lia)) as Hb.
  split.
  - rewrite set_ctrl_traffic, Ha. cbn [ctrl_reg_writes].
    rewrite reg_write_message by (unfold OV9281_REG_EXPOSURE,
      OV9281_REG_VALUE_24BIT; lia).
    reflexivity.
  - apply big_endian_value_inv; [ lia | exact Hb ].
Qed.

Lemma exposure_register_write_witness :
  runtime_active (snd (ov9281_s_power good_hw 1 after_probe)) = true /\
  OV9281_EXPOSURE_MIN <= 0x0320 <= OV9281_VTS_MAX - 4 /\
  i2c_traffic
    (trace (snd (ov9281_set_ctrl good_hw V4L2_CID_EXPOSURE 0x0320
                   (snd (ov9281_s_power good_hw 1 after_probe))))) =
  [I2cSend [0x35; 0x00; 0x00; 0x32; 0x00]].
Proof.
  assert (Ha : runtime_active (snd (ov9281_s_power good_hw 1 after_probe))
               = true) by reflexivity.
  assert (HE : OV9281_EXPOSURE_MIN <= 0x0320 <= OV9281_VTS_MAX - 4)
    by (vm_compute; split; discriminate).
  split; [ exact Ha | split; [ exact HE | ] ].
  exact (proj1 (exposure_register_write good_hw _ 0x0320 Ha HE)).
Defined.

(** C7: setting an analog gain [G] in [0x10, 0xF8] on a resumed device puts
    two one-byte writes on the bus, [(G >> 8) & 0x07] to register 0x3508 and
    then [G & 0xFF] to register 0x3509, and nothing else. *)
Theorem gain_register_writes hw s G :
  runtime_active s = true ->
  OV9281_GAIN_MIN <= G <= OV9281_GAIN_MAX ->
  i2c_traffic (trace (snd (ov9281_set_ctrl hw V4L2_CID_ANALOGUE_GAIN G s))) =
  i2c_traffic (trace s) ++
  [I2cSend [0x35; 0x08; Z.land (Z.shiftr G 8) 0x07];
   I2cSend [0x35; 0x09; Z.land G 0xFF]].
Proof.
  intros Ha HG. unfold OV9281_GAIN_MIN, OV9281_GAIN_MAX in HG.
  rewrite set_ctrl_traffic, Ha. cbn [ctrl_reg_writes].
  unfold OV9281_REG_GAIN_H, OV9281_REG_GAIN_L, OV9281_REG_VALUE_08BIT,
    OV9281_GAIN_H_SHIFT, OV9281_GAIN_H_MASK, OV9281_GAIN_L_MASK.
  assert (Hh : Z.land (Z.shiftr G 8) 7 = 0).
  { rewrite Z.shiftr_div_pow2 by lia.
    rewrite (Z.div_small G (2 ^ 8)) by lia. reflexivity. }
  assert (Hl : Z.land G 255 = G).
  { rewrite land_ff. apply Z.mod_small. lia. }
  rewrite Hh, Hl.
  rewrite !reg_write_message by lia.
  unfold reg_message. change (Z.to_nat 1) with 1%nat. cbn [big_endian].
  change (256 ^ Z.of_nat 0) with 1. rewrite !Z.div_1_r.
  rewrite (Z.mod_small G) by lia. reflexivity.
Qed.

Lemma gain_register_writes_witness :
  runtime_active (snd (ov9281_s_power good_hw 1 after_probe)) = true /\
  OV9281_GAIN_MIN <= 0x20 <= OV9281_GAIN_MAX /\
  i2c_traffic
    (trace (snd (ov9281_set_ctrl good_hw V4L2_CID_ANALOGUE_GAIN 0x20
                   (snd (ov9281_s_power good_hw 1 after_probe))))) =
  [I2cSend [0x35; 0x08; 0x00]; I2cSend [0x35; 0x09; 0x20]].
Proof.
  assert (Ha : runtime_active (snd (ov9281_s_power good_hw 1 after_probe))
               = true) by reflexivity.
  assert (HG : OV9281_GAIN_MIN <= 0x20 <= OV9281_GAIN_MAX)
    by (vm_compute; split; discriminate).
  split; [ exact Ha | split; [ exact HG | ] ].
  exact (gain_register_writes good_hw _ 0x20 Ha HG).
Defined.

(** C8: setting test-pattern index [N] of the menu (0..4) on a resumed
    device puts one one-byte write to register 0x5E00 on the bus: 0x00 for
    index 0 and [(N - 1) | 0x80] for the others. *)
Theorem test_pattern_register_write hw s N :
  runtime_active s = true ->
  0 <= N <= 4 ->
  i2c_traffic (trace (snd (ov9281_set_ctrl hw V4L2_CID_TEST_PATTERN N s))) =
  i2c_traffic (trace s) ++
  [I2cSend [0x5E; 0x00; if N =? 0 then 0x00 else Z.lor (N - 1) 0x80]].
Proof.
  intros Ha HN.
  rewrite set_ctrl_traffic, Ha. cbn [ctrl_reg_writes].
  assert (C : N = 0 \/ N = 1 \/ N = 2 \/ N = 3 \/ N = 4) by lia.
  destruct C as [-> | [-> | [-> | [-> | ->]]]]; reflexivity.
Qed.

Lemma test_pattern_register_write_witness :
  runtime_active (snd (ov9281_s_power good_hw 1 after_probe)) = true /\
  0 <= 3 <= 4 /\
  i2c_traffic
    (trace (snd (ov9281_set_ctrl good_hw V4L2_CID_TEST_PATTERN 3
                   (snd (ov9281_s_power good_hw 1 after_probe))))) =
  [I2cSend [0x5E; 0x00; 0x82]].
Proof.
  assert (Ha : runtime_active (snd (ov9281_s_power good_hw 1 after_probe))
               = true) by reflexivity.
  assert (HN : 0 <= 3 <= 4) by lia.
  split; [ exact Ha | split; [ exact HN | ] ].
  exact (test_pattern_register_write good_hw _ 3 Ha HN).
Defined.

(** ** Vertical blanking and the exposure range *)

Lemma set_ctrl_dev hw id v s :
  dev (snd (ov9281_set_ctrl hw id v s)) = range_updated id v (dev s).
Proof.
  destruct (runtime_active s) eqn:H.
  - rewrite set_ctrl_resumed by exact H. cbn [snd].
    rewrite released_dev. reflexivity.
  - rewrite set_ctrl_suspended by exact H. reflexivity.
Qed.

Lemma s_ctrl_unfold hw id v s :
  v4l2_ctrl_s_ctrl hw id v s =
  ov9281_set_ctrl hw id v
    (with_dev
       (with_ctrl id
          {| minimum := minimum (ctrl_of id (dev s));
             maximum := maximum (ctrl_of id (dev s));
             step := step (ctrl_of id (dev s));
             default_value := default_value (ctrl_of id (dev s));
             cur_val := v |} (dev s)) s).
Proof. reflexivity. Qed.

Lemma supported_mode_dims m :
  In m supported_modes -> height m = 800 /\ vts_def m = 0x038e.
Proof.
  intros [<- | []]. split; reflexivity.
Qed.

Lemma vblank_no_wrap m v :
  In m supported_modes -> vblank_accepts m v ->
  u32 (height m + v - 4) = height m + v - 4 /\
  0 <= v + height m < 2 ^ 16.
Proof.
  intros Hm Hv. destruct (supported_mode_dims m Hm) as [Hh Hd].
  unfold vblank_accepts, OV9281_VTS_MAX in Hv. rewrite Hh, Hd in Hv.
  rewrite Hh. split; [ apply u32_small | ]; lia.
Qed.

Lemma s_ctrl_vblank_coupled hw v s :
  In (cur_mode (dev s)) supported_modes ->
  vblank_accepts (cur_mode (dev s)) v ->
  coupled (dev (snd (v4l2_ctrl_s_ctrl hw V4L2_CID_VBLANK v s))) /\
  cur_mode (dev (snd (v4l2_ctrl_s_ctrl hw V4L2_CID_VBLANK v s)))
    = cur_mode (dev s).
Proof.
  intros Hm Hv. rewrite s_ctrl_unfold, set_ctrl_dev.
  unfold coupled.
  cbn [range_updated with_ctrl with_dev dev exposure vblank cur_mode
       maximum cur_val].
  split; [ | reflexivity ].
  apply (vblank_no_wrap _ _ Hm Hv).
Qed.

Lemma ctrl_writes_vblank_coupled hw vs : forall s,
  In (cur_mode (dev s)) supported_modes ->
  Forall (vblank_accepts (cur_mode (dev s))) vs ->
  vs <> [] \/ coupled (dev s) ->
  coupled (dev (ctrl_writes hw V4L2_CID_VBLANK vs s)).
Proof.
  induction vs as [| v rest IH]; intros s Hm Hall Hne.
  - destruct Hne as [Hne | Hc]; [ congruence | exact Hc ].
  - cbn [ctrl_writes]. inversion Hall as [| ? ? Hv Hrest]; subst.
    destruct (s_ctrl_vblank_coupled hw v s Hm Hv) as [Hc Hmode].
    apply IH.
    + rewrite Hmode. exact Hm.
    + rewrite Hmode. exact Hrest.
    + right. exact Hc.
Qed.

(** C1: a write of a value [v] the VBLANK control accepts first sets the
    maximum of the exposure control to [height + v - 4], whatever the power
    state, and then probes the device; only a resumed device gets the 16-bit
    write of [v + height] to register 0x380E.  After any sequence of VBLANK
    writes the exposure maximum is [height + vblank - 4]. *)
Theorem vblank_exposure_coupling hw s v :
  In (cur_mode (dev s)) supported_modes ->
  vblank_accepts (cur_mode (dev s)) v ->
  let d := dev s in
  let r := ov9281_set_ctrl hw V4L2_CID_VBLANK v s in
  maximum (exposure (dev (snd r))) = height (cur_mode d) + v - 4 /\
  (exists tl,
     trace (snd r) =
       trace s ++
       CtrlModifyRange V4L2_CID_EXPOSURE (minimum (exposure d))
         (height (cur_mode d) + v - 4) (step (exposure d))
         (default_value (exposure d)) :: PmGet :: tl /\
     i2c_traffic tl =
       if runtime_active s
       then [I2cSend (reg_message 0x380E 2 (v + height (cur_mode d)))]
       else []) /\
  (forall vs,
     Forall (vblank_accepts (cur_mode d)) vs ->
     vs <> [] \/ coupled d ->
     coupled (dev (ctrl_writes hw V4L2_CID_VBLANK vs s))).
Proof.
  intros Hm Hv d r.
  destruct (vblank_no_wrap _ _ Hm Hv) as [Hw Hb]. fold d in Hw, Hb.
  split; [ | split ].
  - unfold r. rewrite set_ctrl_dev. cbn [range_updated with_ctrl exposure
      maximum]. exact Hw.
  - unfold r. destruct (runtime_active s) eqn:Ha.
    + rewrite set_ctrl_resumed by exact Ha. cbn [snd].
      match goal with
      | |- context [released ?x] =>
          destruct (released_trace x) as (tl & Ht & Hq); rewrite Ht
      end.
      cbn [trace with_usage with_dev emit ctrl_range_events ctrl_reg_writes
           app].
      fold d. rewrite Hw.
      eexists. rewrite <- app_assoc. cbn [app].
      split; [ reflexivity | ].
      cbn [i2c_traffic filter is_i2c reg_write]. fold (i2c_traffic tl).
      rewrite Hq.
      rewrite reg_write_message
        by (unfold OV9281_REG_VTS, OV9281_REG_VALUE_16BIT; lia).
      reflexivity.
    + rewrite set_ctrl_suspended by exact Ha.
      cbn [snd trace with_dev emit ctrl_range_events app].
      fold d. rewrite Hw.
      exists []. split; reflexivity.
  - intros vs Hall Hne.
    apply ctrl_writes_vblank_coupled; assumption.
Qed.

Lemma vblank_exposure_coupling_witness :
  In (cur_mode (dev after_probe)) supported_modes /\
  vblank_accepts (cur_mode (dev after_probe)) 0x1000 /\
  maximum (exposure (dev (snd (ov9281_set_ctrl good_hw V4L2_CID_VBLANK
                                 0x1000 after_probe)))) = 0x131C /\
  coupled (dev (ctrl_writes dead_bus V4L2_CID_VBLANK [0x1000; 200; 110]
                  after_probe)).
Proof.
  assert (Hm : In (cur_mode (dev after_probe)) supported_modes)
    by (left; reflexivity).
  assert (Hv : vblank_accepts (cur_mode (dev after_probe)) 0x1000)
    by (vm_compute; split; discriminate).
  destruct (vblank_exposure_coupling dead_bus after_probe 0x1000 Hm Hv)
    as (_ & _ & Hseq).
  destruct (vblank_exposure_coupling good_hw after_probe 0x1000 Hm Hv)
    as (Hmax & _ & _).
  split; [ exact Hm | split; [ exact Hv | split; [ exact Hmax | ] ] ].
  apply Hseq.
  - repeat constructor; vm_compute; discriminate.
  - left. discriminate.
Defined.

Example vblank_extension_trace :
  trace (snd (v4l2_ctrl_s_ctrl good_hw V4L2_CID_VBLANK 0x1000
                (snd (ov9281_s_power good_hw 1 after_probe)))) =
  trace (snd (ov9281_s_power good_hw 1 after_probe)) ++
  [CtrlModifyRange V4L2_CID_EXPOSURE 4 0x131C 1 0x0320; PmGet;
   I2cSend [0x38; 0x0E; 0x13; 0x20]; PmPut].
Proof. reflexivity. Qed.

Example probed_handle_coupled : coupled probed_handle.
Proof. reflexivity. Qed.

(** ** Stream start *)

Lemma write_reg_buf_length reg len v :
  0 <= len <= 4 -> Z.of_nat (length (write_reg_buf reg len v)) = len + 2.
Proof.
  intros H. unfold write_reg_buf.
  assert (C : len = 0 \/ len = 1 \/ len = 2 \/ len = 3 \/ len = 4) by lia.
  destruct C as [-> | [-> | [-> | [-> | ->]]]];
    repeat match goal with
           | |- context [Z.to_nat ?z] =>
               let n := eval vm_compute in (Z.to_nat z) in
               change (Z.to_nat z) with n
           end;
    reflexivity.
Qed.

(** A register write either succeeds or returns [-EIO]; it can only fail on
    a platform whose bus drops bytes. *)
Lemma write_status_cases hw n reg len v :
  u32 len <= 4 ->
  write_status hw n reg len v = 0 \/
  write_status hw n reg len v = - EIO /\ ~ platform_ok hw.
Proof.
  intros Hl. unfold write_status.
  destruct (_ =? _) eqn:E; [ left; reflexivity | right ].
  split; [ reflexivity | ].
  intros (Hsend & _). rewrite Hsend, write_reg_buf_length in E.
  - rewrite Z.eqb_refl in E. discriminate.
  - split; [ apply Z.mod_pos_bound; lia | exact Hl ].
Qed.

Lemma setter_status_cases hw n d id v :
  setter_status hw n d id v = 0 \/
  setter_status hw n d id v = - EIO /\ ~ platform_ok hw.
Proof.
  destruct id; cbn [setter_status]; auto;
    try (apply write_status_cases; vm_compute; discriminate).
  destruct (write_status_cases hw n OV9281_REG_GAIN_H OV9281_REG_VALUE_08BIT
              (Z.land (Z.shiftr v OV9281_GAIN_H_SHIFT) OV9281_GAIN_H_MASK))
    as [-> | [-> Hb]]; [ vm_compute; discriminate | | ];
  (destruct (write_status_cases hw (S n) OV9281_REG_GAIN_L
              OV9281_REG_VALUE_08BIT (Z.land v OV9281_GAIN_L_MASK))
    as [-> | [-> Hb']]; [ vm_compute; discriminate | | ]); auto.
Qed.

(** The mode table is written in order up to and including the first write
    that fails. *)
Lemma write_array_run hw regs : forall s,
  exists done rest,
    mode_writes regs = done ++ rest /\
    snd (ov9281_write_array hw regs s) = emit done s /\
    (fst (ov9281_write_array hw regs s) = 0 /\ rest = [] \/
     fst (ov9281_write_array hw regs s) = - EIO /\ ~ platform_ok hw).
Proof.
  induction regs as [| r regs IH]; intros s.
  - exists [], []. cbn [ov9281_write_array mode_writes until_null map].
    unfold ret. cbn [fst snd]. rewrite emit_nil. auto.
  - cbn [ov9281_write_array]. unfold mode_writes. cbn [until_null].
    destruct (addr r =? REG_NULL).
    + exists [], []. unfold ret. cbn [fst snd map]. rewrite emit_nil. auto.
    + cbn [map]. fold (mode_writes regs). unfold bind.
      rewrite write_reg_run by (vm_compute; discriminate).
      destruct (write_status_cases hw (length (trace s)) (addr r)
                  OV9281_REG_VALUE_08BIT (val r))
        as [E | [E Hbad]]; [ vm_compute; discriminate | | ]; rewrite E.
      * cbn [Z.eqb].
        destruct (IH (emit [reg_write (addr r) OV9281_REG_VALUE_08BIT
                              (val r)] s))
          as (done & rest & Hp & Hs & Hr).
        exists (reg_write (addr r) OV9281_REG_VALUE_08BIT (val r) :: done),
               rest.
        rewrite Hs, emit_emit, Hp. auto.
      * cbn [Z.eqb Z.opp EIO]. unfold ret. cbn [fst snd].
        exists [reg_write (addr r) OV9281_REG_VALUE_08BIT (val r)],
               (mode_writes regs).
        auto.
Qed.

Ltac handle_norm :=
  cbn [dev usage_count runtime_active trace with_dev emit with_usage
       range_updated ctrl_of with_ctrl exposure anal_gain hblank vblank
       test_pattern streaming power_on cur_mode reset_gpio pwdn_gpio
       minimum maximum step default_value cur_val setter_events
       ctrl_range_events ctrl_reg_writes app fst snd].

Ltac replay_step :=
  rewrite set_ctrl_in_use
    by (cbn [runtime_active usage_count with_dev emit]; assumption);
  cbv beta iota;
  match goal with
  | |- context [setter_status ?h ?n ?d ?i ?v] =>
      let E := fresh "E" in
      let Hbad := fresh "Hbad" in
      destruct (setter_status_cases h n d i v) as [E | [E Hbad]];
      rewrite E; clear E
  end;
  cbn [Z.eqb negb Z.opp EIO].

Ltac replay_done k :=
  unfold ret;
  match goal with
  | |- context [replay_plan ?d] =>
      exists (concat (firstn k (map (fun id => setter_events d id
                                       (cur_val (ctrl_of id d))) ops_ctrls))),
             (concat (skipn k (map (fun id => setter_events d id
                                      (cur_val (ctrl_of id d))) ops_ctrls)))
  end;
  unfold replay_plan, ops_ctrls; cbn [map firstn skipn concat];
  handle_norm; sys_norm;
  (split; [ reflexivity | split; [ reflexivity | auto ] ]).

(** The replay hands the stored values to the setter in creation order and
    stops after the first setter that fails. *)
Lemma replay_run hw s :
  runtime_active s = true -> usage_count s <> 0 ->
  exists done rest,
    replay_plan (dev s) = done ++ rest /\
    snd (v4l2_ctrl_handler_setup hw s) =
      with_dev (range_updated V4L2_CID_VBLANK (cur_val (vblank (dev s)))
                  (dev s))
        (emit done s) /\
    (fst (v4l2_ctrl_handler_setup hw s) = 0 /\ rest = [] \/
     fst (v4l2_ctrl_handler_setup hw s) = - EIO /\ ~ platform_ok hw).
Proof.
  intros Ha Hu.
  unfold v4l2_ctrl_handler_setup, ops_ctrls. cbn [replay].
  unfold bind, get_dev.
  replay_step; [ | replay_done 1%nat ].
  replay_step; [ | replay_done 2%nat ].
  replay_step; [ | replay_done 3%nat ].
  replay_step; [ | replay_done 4%nat ].
  replay_done 4%nat.
Qed.

Lemma range_updated_flags id v d :
  streaming (range_updated id v d) = streaming d /\
  power_on (range_updated id v d) = power_on d.
Proof. destruct id; split; reflexivity. Qed.

(** Starting the stream on a resumed device follows the plan: mode table,
    replay, stream-on bit; it stops after the first step that fails. *)
Lemma start_stream_run hw s :
  runtime_active s = true -> usage_count s <> 0 ->
  exists done rest d' e,
    stream_start_plan (dev s) = done ++ rest /\
    __ov9281_start_stream hw s = (e, with_dev d' (emit done s)) /\
    streaming d' = streaming (dev s) /\
    power_on d' = power_on (dev s) /\
    (e = 0 /\ rest = [] \/ e = - EIO /\ ~ platform_ok hw).
Proof.
  intros Ha Hu. unfold __ov9281_start_stream, stream_start_plan.
  unfold bind, get_dev.
  destruct (write_array_run hw (reg_list (cur_mode (dev s))) s)
    as (done1 & rest1 & Hp1 & Hs1 & Hr1).
  destruct (ov9281_write_array hw (reg_list (cur_mode (dev s))) s)
    as [e1 s1]. cbn [fst snd] in Hs1, Hr1. subst s1.
  destruct Hr1 as [[-> ->] | [-> Hbad]]; cbn [Z.eqb negb Z.opp EIO].
  - rewrite app_nil_r in Hp1. subst done1.
    set (s1 := emit (mode_writes (reg_list (cur_mode (dev s)))) s).
    assert (Ha1 : runtime_active s1 = true) by exact Ha.
    assert (Hu1 : usage_count s1 <> 0) by exact Hu.
    destruct (replay_run hw s1 Ha1 Hu1) as (done2 & rest2 & Hp2 & Hs2 & Hr2).
    change (dev s1) with (dev s) in Hp2, Hs2.
    destruct (v4l2_ctrl_handler_setup hw s1) as [e2 s2].
    cbn [fst snd] in Hs2, Hr2. subst s2.
    destruct (range_updated_flags V4L2_CID_VBLANK
                (cur_val (vblank (dev s))) (dev s)) as [Hfs Hfp].
    destruct Hr2 as [[-> ->] | [-> Hbad]]; cbn [Z.eqb negb Z.opp EIO].
    + rewrite app_nil_r in Hp2. subst done2.
      rewrite write_reg_run by (vm_compute; discriminate).
      fold stream_on_write.
      exists (mode_writes (reg_list (cur_mode (dev s))) ++
              replay_plan (dev s) ++ [stream_on_write]), [],
             (range_updated V4L2_CID_VBLANK (cur_val (vblank (dev s)))
                (dev s)).
      eexists. rewrite app_nil_r.
      split; [ reflexivity | split; [ | split; [ exact Hfs | split;
        [ exact Hfp | ] ] ] ].
      * f_equal. unfold s1. sys_norm. reflexivity.
      * match goal with
        | |- context [write_status ?h ?n ?r ?l ?v] =>
            destruct (write_status_cases h n r l v) as [E | [E Hbad]];
            [ vm_compute; discriminate | | ]; rewrite E
        end; auto.
    + unfold ret.
      exists (mode_writes (reg_list (cur_mode (dev s))) ++ done2),
             (rest2 ++ [stream_on_write]),
             (range_updated V4L2_CID_VBLANK (cur_val (vblank (dev s)))
                (dev s)), (-5).
      split; [ rewrite Hp2, <- !app_assoc; reflexivity | ].
      split; [ f_equal; unfold s1; sys_norm; reflexivity | ].
      split; [ exact Hfs | split; [ exact Hfp | auto ] ].
  - unfold ret.
    exists done1,
           (rest1 ++ replay_plan (dev s) ++ [stream_on_write]), (dev s), (-5).
    split; [ rewrite Hp1, <- app_assoc; reflexivity | ].
    split; [ destruct s; reflexivity | auto ].
Qed.

Lemma s_stream_on_unfold hw on s :
  streaming (dev s) = false -> on <> 0 ->
  ov9281_s_stream hw on s =
  (let (e, s0) := pm_runtime_get_sync hw s in
   if e <? 0 then (e, snd (pm_runtime_put_noidle s0))
   else
     let (e', s1) := __ov9281_start_stream hw s0 in
     if negb (e' =? 0) then (e', released s1)
     else (e', with_dev (with_streaming true (dev s1)) s1)).
Proof.
  intros Hs Hon. unfold ov9281_s_stream.
  unfold bind at 1. unfold get_dev at 1. rewrite Hs.
  apply Z.eqb_neq in Hon. rewrite Hon. cbn [negb Bool.eqb].
  unfold bind at 1.
  destruct (pm_runtime_get_sync hw s) as [e s0].
  destruct (e <? 0); [ reflexivity | ].
  unfold bind at 1.
  destruct (__ov9281_start_stream hw s0) as [e' s1].
  destruct (negb (e' =? 0)).
  - unfold bind, ret. rewrite pm_runtime_put_run. reflexivity.
  - reflexivity.
Qed.

(** The whole of a stream start on a handle that is not streaming. *)
Lemma s_stream_on_run hw s on :
  streaming (dev s) = false -> on <> 0 -> 0 <= usage_count s ->
  let g := pm_runtime_get_sync hw s in
  let r := ov9281_s_stream hw on s in
  (exists pw, trace (snd g) = trace s ++ PmGetSync :: pw /\ quiet pw) /\
  (fst g < 0 ->
   fst r = fst g /\
   trace (snd r) = trace (snd g) ++ [PmPutNoidle] /\
   streaming (dev (snd r)) = false /\
   usage_count (snd r) = usage_count s) /\
  (0 <= fst g ->
   exists done rest,
     stream_start_plan (dev s) = done ++ rest /\
     (fst r = 0 /\ rest = [] /\
      trace (snd r) = trace (snd g) ++ done /\
      streaming (dev (snd r)) = true /\
      usage_count (snd r) = usage_count s + 1 /\
      power_on (dev (snd r)) = power_on (dev s) /\
      runtime_active (snd r) = true
      \/
      fst r = - EIO /\ ~ platform_ok hw /\
      (exists tl, trace (snd r) = trace (snd g) ++ done ++ PmPut :: tl /\
                  i2c_traffic tl = []) /\
      streaming (dev (snd r)) = false /\
      usage_count (snd r) = usage_count s)).
Proof.
  intros Hs Hon Hu g r.
  destruct (get_sync_run hw s) as (Hd & Hc & Hpw & Hact & _).
  fold g in Hd, Hc, Hpw, Hact.
  unfold r. rewrite s_stream_on_unfold by assumption. fold g.
  destruct g as [e s0]. cbn [fst snd] in *.
  split; [ exact Hpw | split ].
  - intros He. apply Z.ltb_lt in He. rewrite He. cbn [fst snd].
    unfold pm_runtime_put_noidle. cbn [snd trace dev usage_count with_usage
      emit].
    repeat split; try reflexivity.
    + rewrite Hd. exact Hs.
    + lia.
  - intros He. apply Z.ltb_ge in He. rewrite He.
    assert (Hu0 : usage_count s0 <> 0) by lia.
    destruct (start_stream_run hw s0 (Hact ltac:(lia)) Hu0)
      as (done & rest & d' & e' & Hp & Hst & Hfs & Hfp & Hr).
    rewrite Hd in Hp, Hfs, Hfp. rewrite Hst.
    exists done, rest. split; [ exact Hp | ].
    destruct Hr as [[-> ->] | [-> Hbad]]; cbn [Z.eqb negb Z.opp EIO fst snd].
    + left. cbn [trace dev usage_count with_dev emit with_streaming
                 streaming].
      repeat split; try reflexivity; try assumption.
      apply Hact. lia.
    + right. rewrite released_dev, released_usage.
      cbn [dev usage_count with_dev emit].
      split; [ reflexivity | split; [ exact Hbad | ] ].
      split; [ | split; [ congruence | lia ] ].
      destruct (released_trace (with_dev d' (emit done s0)))
        as (tl & Ht & Hq).
      exists tl. rewrite Ht. cbn [trace with_dev emit].
      rewrite <- app_assoc. split; [ reflexivity | exact Hq ].
Qed.



Example stream_start_fails_on_dead_bus :
  let r := ov9281_s_stream dead_bus 1 after_probe in
  fst r = - EIO /\ streaming (dev (snd r)) = false /\
  usage_count (snd r) = 0 /\ runtime_active (snd r) = false /\
  i2c_traffic (trace (snd r)) = [I2cSend [0x01; 0x03; 0x01]].
Proof. vm_compute. repeat split. Qed.

(** ** Repeated power and stream requests *)

Lemma s_power_same hw s on :
  power_on (dev s) = negb (on =? 0) -> ov9281_s_power hw on s = (0, s).
Proof.
  intros H. unfold ov9281_s_power, bind, get_dev.
  rewrite H, Bool.eqb_reflx. reflexivity.
Qed.

Lemma s_stream_same hw s on :
  streaming (dev s) = negb (on =? 0) -> ov9281_s_stream hw on s = (0, s).
Proof.
  intros H. unfold ov9281_s_stream, bind, get_dev.
  rewrite H, Bool.eqb_reflx. reflexivity.
Qed.

Lemma s_power_on_unfold hw on s :
  power_on (dev s) = false -> on <> 0 ->
  ov9281_s_power hw on s =
  (let (e, s0) := pm_runtime_get_sync hw s in
   if e <? 0 then (e, snd (pm_runtime_put_noidle s0))
   else (e, with_dev (with_power_on true (dev s0)) s0)).
Proof.
  intros Hp Hon. unfold ov9281_s_power.
  unfold bind at 1. unfold get_dev at 1. rewrite Hp.
  apply Z.eqb_neq in Hon. rewrite Hon. cbn [negb Bool.eqb].
  unfold bind at 1.
  destruct (pm_runtime_get_sync hw s) as [e s0].
  destruct (e <? 0); reflexivity.
Qed.

Lemma mode_writes_no_get_sync regs :
  filter is_pm_get_sync (mode_writes regs) = [].
Proof.
  unfold mode_writes. induction (until_null regs) as [| r l IH];
    [ reflexivity | exact IH ].
Qed.

Lemma plan_no_get_sync d : filter is_pm_get_sync (stream_start_plan d) = [].
Proof.
  unfold stream_start_plan. rewrite filter_app, mode_writes_no_get_sync.
  reflexivity.
Qed.

(** C9: a power or stream request that asks for the state the handle is
    already in returns 0 and changes nothing: no PM call, no bus traffic.
    Hence of two power-on requests in a row, the first of which succeeds,
    only the first takes a PM reference, and of two stream-on requests in a
    row, the first of which succeeds, only the first takes a PM reference
    and runs the start plan: one transition each. *)
Theorem power_stream_idempotent hw s on :
  (power_on (dev s) = negb (on =? 0) -> ov9281_s_power hw on s = (0, s)) /\
  (streaming (dev s) = negb (on =? 0) -> ov9281_s_stream hw on s = (0, s)) /\
  (power_on (dev s) = false -> on <> 0 ->
   let r1 := ov9281_s_power hw on s in
   0 <= fst r1 ->
   power_on (dev (snd r1)) = true /\
   ov9281_s_power hw on (snd r1) = (0, snd r1) /\
   exists evs, trace (snd r1) = trace s ++ evs /\
               filter is_pm_get_sync evs = [PmGetSync]) /\
  (streaming (dev s) = false -> on <> 0 -> 0 <= usage_count s ->
   let r1 := ov9281_s_stream hw on s in
   fst r1 = 0 ->
   streaming (dev (snd r1)) = true /\
   ov9281_s_stream hw on (snd r1) = (0, snd r1) /\
   exists pw, trace (snd r1) =
                trace s ++ PmGetSync :: pw ++ stream_start_plan (dev s) /\
              filter is_pm_get_sync
                (PmGetSync :: pw ++ stream_start_plan (dev s))
              = [PmGetSync]).
Proof.
  split; [ apply s_power_same | split; [ apply s_stream_same | split ] ].
  - intros Hp Hon r1 Hr. unfold r1 in *. clear r1.
    assert (Hnz : negb (on =? 0) = true)
      by (apply Z.eqb_neq in Hon; rewrite Hon; reflexivity).
    rewrite s_power_on_unfold in * by assumption.
    destruct (get_sync_run hw s) as (_ & _ & (pw & Ht & Hq) & _ & _).
    destruct (pm_runtime_get_sync hw s) as [e s0]. cbn [fst snd] in *.
    destruct (e <? 0) eqn:E; cbn [fst snd] in *.
    + apply Z.ltb_lt in E. lia.
    + split; [ reflexivity | split ].
      * apply s_power_same. rewrite Hnz. reflexivity.
      * exists (PmGetSync :: pw). cbn [trace with_dev].
        split; [ exact Ht | ].
        cbn [filter is_pm_get_sync]. rewrite (proj2 Hq). reflexivity.
  - intros Hs Hon Hu r1 Hr. unfold r1 in *. clear r1.
    assert (Hnz : negb (on =? 0) = true)
      by (apply Z.eqb_neq in Hon; rewrite Hon; reflexivity).
    destruct (s_stream_on_run hw s on Hs Hon Hu)
      as ((pw & Ht & Hq) & Hf & Hok).
    destruct (Z_lt_le_dec (fst (pm_runtime_get_sync hw s)) 0) as [Hn | Hp].
    + destruct (Hf Hn) as (He & _). lia.
    + destruct (Hok Hp) as (done & rest & Hplan & Hcase).
      destruct Hcase as [(_ & -> & Htr & Hst & _) | (He & _)];
        [ | rewrite He in Hr; discriminate ].
      rewrite app_nil_r in Hplan. subst done.
      split; [ exact Hst | split ].
      * apply s_stream_same. rewrite Hnz. exact Hst.
      * exists pw. rewrite Htr, Ht, <- app_assoc. cbn [app].
        split; [ reflexivity | ].
        cbn [filter is_pm_get_sync].
        rewrite filter_app, (proj2 Hq), plan_no_get_sync. reflexivity.
Qed.

Lemma power_stream_idempotent_witness :
  (power_on (dev after_probe) = false /\ 1 <> 0 /\
   0 <= fst (ov9281_s_power good_hw 1 after_probe) /\
   ov9281_s_power good_hw 1 (snd (ov9281_s_power good_hw 1 after_probe))
   = (0, snd (ov9281_s_power good_hw 1 after_probe))) /\
  (streaming (dev after_probe) = false /\ 0 <= usage_count after_probe /\
   fst (ov9281_s_stream good_hw 1 after_probe) = 0 /\
   ov9281_s_stream good_hw 1 (snd (ov9281_s_stream good_hw 1 after_probe))
   = (0, snd (ov9281_s_stream good_hw 1 after_probe))).
Proof.
  assert (Hp : power_on (dev after_probe) = false) by reflexivity.
  assert (Hs : streaming (dev after_probe) = false) by reflexivity.
  assert (Hon : 1 <> 0) by discriminate.
  assert (Hu : 0 <= usage_count after_probe) by (vm_compute; discriminate).
  assert (Hr : 0 <= fst (ov9281_s_power good_hw 1 after_probe))
    by (vm_compute; discriminate).
  assert (Hr' : fst (ov9281_s_stream good_hw 1 after_probe) = 0)
    by (vm_compute; reflexivity).
  destruct (power_stream_idempotent good_hw after_probe 1)
    as (_ & _ & Hpow & Hstr).
  split.
  - split; [ exact Hp | split; [ exact Hon | split; [ exact Hr | ] ] ].
    exact (proj1 (proj2 (Hpow Hp Hon Hr))).
  - split; [ exact Hs | split; [ exact Hu | split; [ exact Hr' | ] ] ].
    exact (proj1 (proj2 (Hstr Hs Hon Hu Hr'))).
Defined.

(** ** The PM bookkeeping of reachable states *)

Lemma released_active s :
  runtime_active s = true ->
  runtime_active (released s) = negb (usage_count s - 1 =? 0).
Proof.
  intros H. unfold released. rewrite H, andb_true_r.
  destruct (usage_count s - 1 =? 0); [ reflexivity | exact H ].
Qed.

Lemma b2z_range b : 0 <= Z.b2z b <= 1.
Proof. destruct b; cbn; lia. Qed.

Lemma pm_consistent_after_probe : pm_consistent after_probe.
Proof. split; reflexivity. Qed.

Lemma s_ctrl_keeps_pm hw id v s :
  pm_consistent s ->
  let s' := snd (v4l2_ctrl_s_ctrl hw id v s) in
  usage_count s' = usage_count s /\
  runtime_active s' = runtime_active s /\
  streaming (dev s') = streaming (dev s) /\
  power_on (dev s') = power_on (dev s).
Proof.
  intros [Hu Ha]. rewrite s_ctrl_unfold.
  set (s1 := with_dev _ s).
  assert (Hflags : forall d, streaming (range_updated id v d) = streaming d /\
                             power_on (range_updated id v d) = power_on d)
    by (intros d; apply range_updated_flags).
  assert (Hd1 : streaming (dev s1) = streaming (dev s) /\
                power_on (dev s1) = power_on (dev s))
    by (unfold s1; destruct id; split; reflexivity).
  destruct (runtime_active s) eqn:E.
  - rewrite set_ctrl_resumed by exact E. cbn [snd].
    assert (Hpos : usage_count s <> 0).
    { symmetry in Ha. apply Z.ltb_lt in Ha. lia. }
    change (usage_count s1) with (usage_count s).
    rewrite released_in_use by (cbn [usage_count with_usage]; lia).
    cbn [usage_count runtime_active dev with_usage with_dev emit].
    change (runtime_active s1) with (runtime_active s).
    destruct (Hflags (dev s1)) as [-> ->]. destruct Hd1 as [-> ->].
    repeat split; try reflexivity; try assumption. lia.
  - rewrite set_ctrl_suspended by exact E. cbn [snd].
    cbn [usage_count runtime_active dev with_usage with_dev emit].
    change (runtime_active s1) with (runtime_active s).
    change (usage_count s1) with (usage_count s).
    destruct (Hflags (dev s1)) as [-> ->]. destruct Hd1 as [-> ->].
    repeat split; assumption || reflexivity.
Qed.

Lemma s_ctrl_preserves hw id v s :
  pm_consistent s -> pm_consistent (snd (v4l2_ctrl_s_ctrl hw id v s)).
Proof.
  intros H. destruct (s_ctrl_keeps_pm hw id v s H) as (Hu & Ha & Hs & Hp).
  destruct H as [Hc Hr]. unfold pm_consistent.
  rewrite Hu, Ha, Hs, Hp. split; assumption.
Qed.

Lemma s_power_preserves hw on s :
  pm_consistent s -> pm_consistent (snd (ov9281_s_power hw on s)).
Proof.
  intros [Hc Hr].
  pose proof (b2z_range (streaming (dev s))) as Hb.
  destruct (Bool.eqb (power_on (dev s)) (negb (on =? 0))) eqn:Esame.
  { apply Bool.eqb_prop in Esame. rewrite s_power_same by exact Esame.
    split; assumption. }
  destruct (on =? 0) eqn:Eon; cbn [negb] in Esame.
  - (* power off *)
    assert (Hp : power_on (dev s) = true)
      by (destruct (power_on (dev s)); [ reflexivity | discriminate ]).
    unfold ov9281_s_power, bind, get_dev. rewrite Hp, Eon. cbn [negb Bool.eqb].
    rewrite pm_runtime_put_run. unfold set_power_on, bind, get_dev, put_dev,
      ret. cbn [snd].
    rewrite Hp in Hc. cbn [Z.b2z] in Hc.
    assert (Hact : runtime_active s = true)
      by (rewrite Hr; apply Z.ltb_lt; lia).
    unfold pm_consistent.
    cbn [dev usage_count runtime_active with_dev with_power_on streaming
         power_on].
    rewrite released_dev, released_usage, released_active by exact Hact.
    cbn [Z.b2z]. split; [ lia | ].
    destruct (usage_count s - 1 =? 0) eqn:E; cbn [negb]; symmetry.
    + apply Z.ltb_ge. apply Z.eqb_eq in E. lia.
    + apply Z.ltb_lt. apply Z.eqb_neq in E. lia.
  - (* power on *)
    assert (Hp : power_on (dev s) = false)
      by (destruct (power_on (dev s)); [ discriminate | reflexivity ]).
    assert (Hon : on <> 0) by (apply Z.eqb_neq; exact Eon).
    rewrite s_power_on_unfold by assumption.
    destruct (get_sync_run hw s) as (Hd & Hu & _ & Hact & _ & Hfail).
    destruct (pm_runtime_get_sync hw s) as [e s0]. cbn [fst snd] in *.
    rewrite Hp in Hc. cbn [Z.b2z] in Hc.
    unfold pm_consistent.
    destruct (e <? 0) eqn:E; cbn [snd].
    + apply Z.ltb_lt in E.
      unfold pm_runtime_put_noidle.
      cbn [snd dev usage_count runtime_active with_usage emit].
      rewrite Hd, Hu, Hp, (Hfail E), Hr. cbn [Z.b2z].
      replace (usage_count s + 1 - 1) with (usage_count s) by lia.
      split; [ lia | reflexivity ].
    + apply Z.ltb_ge in E.
      cbn [dev usage_count runtime_active with_dev with_power_on streaming
           power_on].
      rewrite Hd, Hu, (Hact E). cbn [Z.b2z].
      split; [ lia | ]. symmetry. apply Z.ltb_lt. lia.
Qed.

Lemma s_stream_preserves hw on s :
  pm_consistent s -> pm_consistent (snd (ov9281_s_stream hw on s)).
Proof.
  intros [Hc Hr].
  pose proof (b2z_range (power_on (dev s))) as Hb.
  destruct (Bool.eqb (streaming (dev s)) (negb (on =? 0))) eqn:Esame.
  { apply Bool.eqb_prop in Esame. rewrite s_stream_same by exact Esame.
    split; assumption. }
  destruct (on =? 0) eqn:Eon; cbn [negb] in Esame.
  - (* stream off *)
    assert (Hs : streaming (dev s) = true)
      by (destruct (streaming (dev s)); [ reflexivity | discriminate ]).
    unfold ov9281_s_stream, bind, get_dev. rewrite Hs, Eon.
    cbn [negb Bool.eqb]. unfold __ov9281_stop_stream.
    rewrite write_reg_run by (vm_compute; discriminate).
    rewrite pm_runtime_put_run. unfold set_streaming, bind, get_dev, put_dev,
      ret. cbn [snd].
    rewrite Hs in Hc. cbn [Z.b2z] in Hc.
    set (s1 := emit _ s).
    assert (Hact : runtime_active s1 = true)
      by (unfold s1; cbn [runtime_active emit]; rewrite Hr;
          apply Z.ltb_lt; lia).
    unfold pm_consistent.
    cbn [dev usage_count runtime_active with_dev with_streaming streaming
         power_on].
    rewrite released_dev, released_usage, released_active by exact Hact.
    unfold s1. cbn [dev usage_count emit Z.b2z]. split; [ lia | ].
    destruct (usage_count s - 1 =? 0) eqn:E; cbn [negb]; symmetry.
    + apply Z.ltb_ge. apply Z.eqb_eq in E. lia.
    + apply Z.ltb_lt. apply Z.eqb_neq in E. lia.
  - (* stream on *)
    assert (Hs : streaming (dev s) = false)
      by (destruct (streaming (dev s)); [ discriminate | reflexivity ]).
    assert (Hon : on <> 0) by (apply Z.eqb_neq; exact Eon).
    rewrite s_stream_on_unfold by assumption.
    destruct (get_sync_run hw s) as (Hd & Hu & _ & Hact & _ & Hfail).
    destruct (pm_runtime_get_sync hw s) as [e s0]. cbn [fst snd] in *.
    rewrite Hs in Hc. cbn [Z.b2z] in Hc.
    unfold pm_consistent.
    destruct (e <? 0) eqn:E; cbn [snd].
    + apply Z.ltb_lt in E.
      unfold pm_runtime_put_noidle.
      cbn [snd dev usage_count runtime_active with_usage emit].
      rewrite Hd, Hu, Hs, (Hfail E), Hr. cbn [Z.b2z].
      replace (usage_count s + 1 - 1) with (usage_count s) by lia.
      split; [ lia | reflexivity ].
    + apply Z.ltb_ge in E.
      assert (Hu0 : usage_count s0 <> 0) by lia.
      destruct (start_stream_run hw s0 (Hact E) Hu0)
        as (done & rest & d' & e' & _ & Hst & Hfs & Hfp & _).
      rewrite Hst. rewrite Hd in Hfs, Hfp.
      destruct (negb (e' =? 0)); cbn [snd].
      * assert (Hact1 : runtime_active (with_dev d' (emit done s0)) = true)
          by (exact (Hact E)).
        rewrite released_dev, released_usage, released_active by exact Hact1.
        cbn [dev usage_count with_dev emit].
        rewrite Hfs, Hfp, Hs, Hu. cbn [Z.b2z].
        replace (usage_count s + 1 - 1) with (usage_count s) by lia.
        split; [ lia | ]. rewrite <- Hr.
        destruct (usage_count s =? 0) eqn:E0; cbn [negb]; rewrite Hr;
          symmetry.
        -- apply Z.ltb_ge. apply Z.eqb_eq in E0. lia.
        -- apply Z.ltb_lt. apply Z.eqb_neq in E0. lia.
      * cbn [dev usage_count runtime_active with_dev with_streaming emit
             streaming power_on].
        rewrite Hfp, Hu, (Hact E). cbn [Z.b2z].
        split; [ lia | ]. symmetry. apply Z.ltb_lt. lia.
Qed.

(** Whatever the host asks and whatever the platform answers, the PM
    bookkeeping stays in step with the two flags of the handle. *)
Lemma pm_consistent_reachable hw qs : forall s,
  pm_consistent s -> pm_consistent (serve_all hw qs s).
Proof.
  unfold serve_all.
  induction qs as [| q qs IH]; intros s H; cbn [fold_left]; [ exact H | ].
  apply IH. destruct q; cbn [serve].
  - apply s_power_preserves, H.
  - apply s_stream_preserves, H.
  - apply s_ctrl_preserves, H.
Qed.


(** ** Control writes to a suspended device *)

(** On a platform that does not fail, a stream start on a handle that is
    not streaming runs the whole plan. *)
Lemma s_stream_on_ok hw s on :
  platform_ok hw ->
  streaming (dev s) = false -> on <> 0 -> 0 <= usage_count s ->
  fst (ov9281_s_stream hw on s) = 0 /\
  exists pw,
    trace (snd (ov9281_s_stream hw on s)) =
      trace s ++ PmGetSync :: pw ++ stream_start_plan (dev s) /\
    quiet pw.
Proof.
  intros Hok Hs Hon Hu.
  destruct (s_stream_on_run hw s on Hs Hon Hu) as ((pw & Ht & Hq) & _ & Hrun).
  destruct (get_sync_run hw s) as (_ & _ & _ & _ & Hg & _).
  destruct (Hrun (Hg Hok)) as (done & rest & Hp & Hcase).
  destruct Hcase as [(He & -> & Htr & _) | (_ & Hbad & _)];
    [ | contradiction ].
  rewrite app_nil_r in Hp. subst done.
  split; [ exact He | ].
  exists pw. rewrite Htr, Ht, <- app_assoc. cbn [app].
  split; [ reflexivity | exact Hq ].
Qed.




Lemma platform_ok_good_hw : platform_ok good_hw.
Proof.
  split; [ | split ]; intros; cbn; [ reflexivity | discriminate .. ].
Defined.



Example replay_after_suspended_write :
  let s1 := snd (v4l2_ctrl_s_ctrl good_hw V4L2_CID_EXPOSURE 100 after_probe) in
  In (I2cSend [0x35; 0x00; 0x00; 0x06; 0x40])
     (trace (snd (ov9281_s_stream good_hw 1 s1))).
Proof. vm_compute. tauto. Qed.

(** When the bus fails, the stream start ends at the first mode register and
    the replay is not reached. *)
Example replay_not_reached_on_dead_bus :
  let s1 := snd (v4l2_ctrl_s_ctrl dead_bus V4L2_CID_EXPOSURE 100 after_probe) in
  let r := ov9281_s_stream dead_bus 1 s1 in
  fst r = - EIO /\
  i2c_traffic (trace (snd r)) = [I2cSend [0x01; 0x03; 0x01]].
Proof. vm_compute. split; reflexivity. Qed.

(** * Further properties of the driver *)

(** ** Register reads and the write/read round trip *)

Lemma lor_shiftl_small b k r :
  0 <= k -> 0 <= r < 2 ^ k -> Z.lor (Z.shiftl b k) r = b * 2 ^ k + r.
Proof.
  intros Hk Hr. rewrite <- Z.shiftl_mul_pow2 by exact Hk.
  assert (Hz : Z.land (Z.shiftl b k) r = 0).
  { apply Z.bits_inj'. intros n Hn.
    rewrite Z.land_spec, Z.bits_0.
    destruct (Z_lt_le_dec n k) as [Hlt | Hge].
    - rewrite Z.shiftl_spec_low by exact Hlt. reflexivity.
    - assert (Hb : Z.testbit r n = false).
      { destruct (Z.eq_dec r 0) as [-> | Hnz]; [ apply Z.bits_0 | ].
        apply Z.bits_above_log2; [ lia | ].
        assert (Z.log2 r < k) by (apply Z.log2_lt_pow2; lia). lia. }
      rewrite Hb. apply andb_false_r. }
  pose proof (Z.add_lor_land (Z.shiftl b k) r) as H. lia.
Qed.

Lemma u8_range x : 0 <= u8 x < 256.
Proof. unfold u8. apply Z.mod_pos_bound. lia. Qed.

Lemma big_endian_value_app l b :
  big_endian_value (l ++ [b]) = big_endian_value l * 256 + b.
Proof. unfold big_endian_value. rewrite fold_left_app. reflexivity. Qed.

(** The value [be32_to_cpu] assembles from the bytes read is the number the
    byte string stands for, and it fits the width read. *)
Lemma be_value_number data :
  Forall (fun b => 0 <= b < 256) data ->
  0 <= be_value data < 256 ^ Z.of_nat (length data) /\
  forall acc,
    fold_left (fun a b => a * 256 + b) data acc =
    acc * 256 ^ Z.of_nat (length data) + be_value data.
Proof.
  induction 1 as [| b data Hb Hall [IHr IHf]].
  - cbn. split; [ lia | intros; lia ].
  - cbn [be_value length fold_left].
    rewrite u8_small by exact Hb.
    assert (Hp : 0 < 256 ^ Z.of_nat (length data))
      by (apply Z.pow_pos_nonneg; lia).
    assert (E256 : 256 ^ Z.of_nat (length data)
                   = 2 ^ (8 * Z.of_nat (length data))).
    { change 256 with (2 ^ 8). rewrite <- Z.pow_mul_r by lia. reflexivity. }
    rewrite lor_shiftl_small by (rewrite <- ?E256; lia).
    rewrite <- E256.
    rewrite Nat2Z.inj_succ, Z.pow_succ_r by lia.
    split; [ nia | ].
    intros acc. rewrite IHf. ring.
Qed.

Lemma read_bytes_bytes data len :
  Forall (fun b => 0 <= b < 256) (read_bytes data len) /\
  length (read_bytes data len) = Z.to_nat len.
Proof.
  unfold read_bytes. split.
  - apply Forall_forall. intros b Hin. apply in_map_iff in Hin.
    destruct Hin as (i & <- & _). apply u8_range.
  - rewrite length_map, length_seq. reflexivity.
Qed.

(** How a register read of a valid length runs. *)
Lemma read_reg_run hw reg len old s :
  0 <= reg < 2 ^ 16 -> 1 <= len <= 4 ->
  ov9281_read_reg hw reg len old s =
  (if i2c_transfer hw (length (trace s)) =? 2
   then (0, be_value (read_bytes (i2c_read_data hw (length (trace s))) len))
   else (- EIO, old),
   emit [I2cTransfer [reg / 256; reg mod 256] len] s).
Proof.
  intros Hreg Hlen. unfold ov9281_read_reg.
  rewrite (u16_small reg), (u32_small len) by lia.
  assert (E1 : (4 <? len) = false) by (apply Z.ltb_ge; lia).
  assert (E2 : (len =? 0) = false) by (apply Z.eqb_neq; lia).
  rewrite E1, E2. cbn [orb].
  unfold bind, do_i2c_transfer, clock, log, ret, bind. cbn [fst snd].
  assert (Ea : [u8 (Z.shiftr reg 8); u8 reg] = [reg / 256; reg mod 256]).
  { assert (E0 : u8 (Z.shiftr reg 8) = reg / 256).
    { rewrite Z.shiftr_div_pow2 by lia. apply u8_small.
      change (2 ^ 8) with 256. split.
      - apply Z.div_pos; lia.
      - apply Z.div_lt_upper_bound; lia. }
    rewrite E0. reflexivity. }
  rewrite Ea.
  destruct (i2c_transfer hw (length (trace s)) =? 2); reflexivity.
Qed.

(** X1: a register read of length 1..4 asks for one transfer (two address
    bytes out, [len] bytes in).  When the adapter completes both messages
    the result is the big-endian number of the bytes read, which is below
    [2^(8 len)]; otherwise the status is [-EIO] and the caller's variable
    keeps its content.  Nothing else of the system changes. *)
Theorem read_reg_result hw reg len old s :
  0 <= reg < 2 ^ 16 -> 1 <= len <= 4 ->
  let n := length (trace s) in
  let data := read_bytes (i2c_read_data hw n) len in
  let r := ov9281_read_reg hw reg len old s in
  snd r = emit [I2cTransfer [reg / 256; reg mod 256] len] s /\
  (i2c_transfer hw n = 2 ->
   fst r = (0, big_endian_value data) /\
   0 <= big_endian_value data < 2 ^ (8 * len)) /\
  (i2c_transfer hw n <> 2 -> fst r = (- EIO, old)).
Proof.
  intros Hreg Hlen n data r. subst r.
  rewrite read_reg_run by assumption. fold n. fold data. cbn [snd].
  destruct (read_bytes_bytes (i2c_read_data hw n) len) as [Hall Hlen'].
  fold data in Hall, Hlen'.
  destruct (be_value_number data Hall) as [Hr Hf].
  assert (Ev : big_endian_value data = be_value data).
  { unfold big_endian_value. rewrite Hf. lia. }
  rewrite Hlen', Z2Nat.id in Hr by lia.
  assert (E256 : 256 ^ len = 2 ^ (8 * len)).
  { change 256 with (2 ^ 8). rewrite <- Z.pow_mul_r by lia. reflexivity. }
  destruct (i2c_transfer hw n =? 2) eqn:E; cbn [negb fst snd].
  - apply Z.eqb_eq in E.
    split; [ reflexivity | split ].
    + intros _. rewrite Ev. split; [ reflexivity | lia ].
    + intros Hne. contradiction.
  - apply Z.eqb_neq in E.
    split; [ reflexivity | split ].
    + intros He. contradiction.
    + intros _. reflexivity.
Qed.

Lemma read_reg_result_witness :
  (0 <= 0x300a < 2 ^ 16) /\ (1 <= 2 <= 4) /\
  ov9281_read_reg wrong_chip 0x300a 2 0
    (emit [PmGet] after_probe)
  = (0, 0x5600, emit [PmGet; I2cTransfer [0x30; 0x0a] 2] after_probe).
Proof.
  assert (Hreg : 0 <= 0x300a < 2 ^ 16) by lia.
  assert (Hlen : 1 <= 2 <= 4) by lia.
  split; [ exact Hreg | split; [ exact Hlen | ] ].
  destruct (read_reg_result wrong_chip 0x300a 2 0 (emit [PmGet] after_probe)
              Hreg Hlen) as (Hs & Hok & _).
  rewrite (surjective_pairing (ov9281_read_reg _ _ _ _ _)).
  rewrite Hs, (proj1 (Hok eq_refl)). reflexivity.
Defined.

Lemma big_endian_bytes L v : Forall (fun b => 0 <= b < 256) (big_endian L v).
Proof.
  induction L; cbn [big_endian]; constructor; [ | assumption ].
  apply Z.mod_pos_bound. lia.
Qed.

Lemma read_bytes_id data len :
  Forall (fun b => 0 <= b < 256) data -> length data = Z.to_nat len ->
  read_bytes data len = data.
Proof.
  intros Hall Hl. unfold read_bytes. rewrite <- Hl. clear Hl.
  induction Hall as [| b data Hb Hall IH]; [ reflexivity | ].
  cbn [length seq map nth]. rewrite u8_small by exact Hb. f_equal.
  rewrite <- seq_shift, map_map. exact IH.
Qed.

(** X2: what a register write puts on the bus reads back as the value
    written: when the device answers a read of the same length with the
    value bytes of the write message, the read returns the value. *)
Theorem write_read_round_trip hw a L v old s0 s :
  0 <= a < 2 ^ 16 -> 1 <= L <= 4 -> 0 <= v < 2 ^ (8 * L) ->
  let msg := reg_message a (Z.to_nat L) v in
  snd (ov9281_write_reg hw a L v s0) = emit [I2cSend msg] s0 /\
  (i2c_transfer hw (length (trace s)) = 2 ->
   i2c_read_data hw (length (trace s)) = skipn 2 msg ->
   fst (ov9281_read_reg hw a L old s) = (0, v)).
Proof.
  intros Ha HL Hv msg.
  assert (Hv32 : 0 <= v < 2 ^ 32).
  { split; [ lia | ]. apply Z.lt_le_trans with (2 ^ (8 * L)); [ lia | ].
    apply Z.pow_le_mono_r; lia. }
  split.
  - rewrite write_reg_run by (rewrite u32_small; lia). cbn [snd].
    rewrite reg_write_message by lia. reflexivity.
  - intros Hok Hdata. rewrite read_reg_run by lia.
    apply Z.eqb_eq in Hok. rewrite Hok, Hdata. cbn [fst].
    unfold msg, reg_message. cbn [skipn].
    rewrite read_bytes_id
      by (solve [ apply big_endian_bytes
                | rewrite big_endian_length; reflexivity ]).
    f_equal.
    destruct (be_value_number _ (big_endian_bytes (Z.to_nat L) v)) as [_ Hf].
    pose proof (big_endian_value_inv (Z.to_nat L) v) as Hinv.
    unfold big_endian_value in Hinv. rewrite Hf in Hinv.
    rewrite Z2Nat.id in Hinv by lia.
    assert (Hn : (Z.to_nat L <= 4)%nat) by lia.
    specialize (Hinv Hn Hv). lia.
Qed.

Lemma write_read_round_trip_witness :
  (0 <= 0x380e < 2 ^ 16) /\ (1 <= 2 <= 4) /\ (0 <= 0x038e < 2 ^ (8 * 2)) /\
  fst (ov9281_read_reg
         {| i2c_master_send := fun _ buf => Z.of_nat (length buf);
            i2c_transfer := fun _ => 2;
            i2c_read_data := fun _ => [0x03; 0x8e];
            clk_prepare_enable := fun _ => 0;
            regulator_bulk_enable := fun _ => 0 |}
         0x380e 2 0 after_probe) = (0, 0x038e).
Proof.
  assert (Ha : 0 <= 0x380e < 2 ^ 16) by lia.
  assert (HL : 1 <= 2 <= 4) by lia.
  assert (Hv : 0 <= 0x038e < 2 ^ (8 * 2)) by (split; [ lia | reflexivity ]).
  split; [ exact Ha | split; [ exact HL | split; [ exact Hv | ] ] ].
  refine (proj2 (write_read_round_trip _ 0x380e 2 0x038e 0 after_probe
                   after_probe Ha HL Hv) _ _); reflexivity.
Defined.

Lemma big_endian_low_bytes L v :
  (L <= 4)%nat ->
  big_endian L (u32 v) = big_endian L (v mod 2 ^ (8 * Z.of_nat L)).
Proof.
  intros HL. unfold u32.
  do 5 (destruct L as [| L];
        [ cbn [big_endian];
          repeat match goal with
                 | |- context [Z.of_nat ?n] =>
                     let z := eval vm_compute in (Z.of_nat n) in
                     change (Z.of_nat n) with z
                 end;
          repeat match goal with
                 | |- context [?a ^ ?b] =>
                     let z := eval vm_compute in (a ^ b) in
                     change (a ^ b) with z
                 end;
          repeat (f_equal; try (Z.div_mod_to_equations; lia)) | ]).
  lia.
Qed.

(** X3: a register write never rejects a value that is wider than its
    length: only the low [L] bytes of the value and the low 16 bits of the
    address go on the bus, so the write behaves as the write of the
    truncated value. *)
Theorem write_reg_truncates hw a L v s :
  0 <= L <= 4 ->
  snd (ov9281_write_reg hw a L v s) =
    emit [I2cSend (reg_message (a mod 2 ^ 16) (Z.to_nat L)
                     (v mod 2 ^ (8 * L)))] s /\
  ov9281_write_reg hw a L v s =
    ov9281_write_reg hw (a mod 2 ^ 16) L (v mod 2 ^ (8 * L)) s.
Proof.
  intros HL.
  assert (EL : u32 L = L) by (apply u32_small; lia).
  assert (Ha : 0 <= a mod 2 ^ 16 < 2 ^ 16) by (apply Z.mod_pos_bound; lia).
  assert (Hbuf : forall w,
            write_reg_buf (u16 a) (u32 L) (u32 w) =
            reg_message (a mod 2 ^ 16) (Z.to_nat L) (w mod 2 ^ (8 * L))).
  { intros w. rewrite EL. unfold u16.
    rewrite write_reg_buf_message by lia.
    unfold reg_message. do 2 f_equal.
    rewrite big_endian_low_bytes by lia.
    rewrite Z2Nat.id by lia. reflexivity. }
  assert (Hidem : (v mod 2 ^ (8 * L)) mod 2 ^ (8 * L) = v mod 2 ^ (8 * L))
    by (apply Z.mod_mod; apply Z.pow_nonzero; lia).
  split.
  - rewrite write_reg_run by lia. cbn [snd]. unfold reg_write.
    rewrite Hbuf. reflexivity.
  - rewrite !write_reg_run by lia. unfold write_status, reg_write.
    assert (Eu : u16 (a mod 2 ^ 16) = u16 a)
      by (unfold u16; apply Z.mod_mod; lia).
    rewrite Eu, !Hbuf, Hidem. reflexivity.
Qed.

Lemma write_reg_truncates_witness :
  (0 <= 1 <= 4) /\
  snd (ov9281_write_reg good_hw 0x15e00 1 0x182 after_probe) =
    emit [I2cSend [0x5e; 0x00; 0x82]] after_probe.
Proof.
  assert (HL : 0 <= 1 <= 4) by lia.
  split; [ exact HL | ].
  exact (proj1 (write_reg_truncates good_hw 0x15e00 1 0x182 after_probe HL)).
Defined.

(** X4: a register table is written one byte per entry, in order, up to the
    first [REG_NULL] entry; what follows that entry is never written.  The
    writing stops after the first write that fails, with [-EIO]; if none
    fails the status is 0 and every entry before the sentinel has been
    written. *)
Theorem write_array_stops hw pre stop post : forall s,
  Forall (fun r => addr r <> REG_NULL) pre -> addr stop = REG_NULL ->
  let status i :=
    write_status hw (length (trace s) + i) (addr (nth i pre stop))
      OV9281_REG_VALUE_08BIT (val (nth i pre stop)) in
  let r := ov9281_write_array hw (pre ++ stop :: post) s in
  exists k,
    (k <= length pre)%nat /\
    snd r =
      emit (map (fun r => reg_write (addr r) OV9281_REG_VALUE_08BIT (val r))
              (firstn k pre)) s /\
    (forall i, (S i < k)%nat -> status i = 0) /\
    (fst r = 0 /\ k = length pre /\ (forall i, (i < k)%nat -> status i = 0)
     \/
     fst r = - EIO /\ (0 < k)%nat /\ status (k - 1)%nat = - EIO).
Proof.
  induction pre as [| r0 pre IH]; intros s Hall Hstop; cbn zeta.
  - exists 0%nat. cbn [app ov9281_write_array].
    apply Z.eqb_eq in Hstop. rewrite Hstop. unfold ret.
    cbn [fst snd firstn map length]. rewrite emit_nil.
    split; [ lia | split; [ reflexivity | split; [ intros; lia | ] ] ].
    left. split; [ reflexivity | split; [ reflexivity | intros; lia ] ].
  - inversion Hall as [| ? ? Hr0 Hall']; subst.
    cbn [app ov9281_write_array].
    apply Z.eqb_neq in Hr0. rewrite Hr0. unfold bind.
    rewrite write_reg_run by (vm_compute; discriminate).
    destruct (write_status_cases hw (length (trace s)) (addr r0)
                OV9281_REG_VALUE_08BIT (val r0))
      as [E | [E _]]; [ vm_compute; discriminate | | ].
    + rewrite E. cbn [Z.eqb].
      set (s1 := emit [reg_write (addr r0) OV9281_REG_VALUE_08BIT (val r0)] s).
      destruct (IH s1 Hall' Hstop) as (k & Hk & Hs & Hpre & Hcase).
      assert (El : forall i, (length (trace s1) + i =
                              length (trace s) + S i)%nat).
      { intros i. unfold s1. cbn [trace emit]. rewrite length_app.
        cbn [length]. lia. }
      exists (S k). cbn [length firstn map nth].
      split; [ lia | split ].
      * rewrite Hs. unfold s1. rewrite emit_emit. reflexivity.
      * split.
        -- intros [| i] Hi.
           ++ rewrite Nat.add_0_r. exact E.
           ++ rewrite <- El. apply Hpre. lia.
        -- destruct Hcase as [(H0 & Hlen & Hst) | (He & Hpos & Hst)].
           ++ left. split; [ exact H0 | split; [ lia | ] ].
              intros [| i] Hi.
              ** rewrite Nat.add_0_r. exact E.
              ** rewrite <- El. apply Hst. lia.
           ++ right. split; [ exact He | split; [ lia | ] ].
              destruct k as [| k']; [ lia | ].
              cbn [Nat.sub] in Hst |- *. rewrite Nat.sub_0_r in *.
              rewrite <- El. exact Hst.
    + rewrite E. cbn [Z.eqb Z.opp EIO]. unfold ret. cbn [fst snd].
      exists 1%nat. cbn [length firstn map nth Nat.sub].
      split; [ lia | split; [ reflexivity | split; [ intros; lia | ] ] ].
      right. split; [ reflexivity | split; [ lia | ] ].
      rewrite Nat.add_0_r. exact E.
Qed.

Lemma write_array_stops_witness :
  Forall (fun r => addr r <> REG_NULL) [mk_regval 0x0103 0x01] /\
  addr (mk_regval REG_NULL 0) = REG_NULL /\
  exists k,
    (k <= 1)%nat /\
    snd (ov9281_write_array good_hw
           ([mk_regval 0x0103 0x01] ++ mk_regval REG_NULL 0 ::
            [mk_regval 0x0100 0x01]) after_probe)
    = emit (map (fun r => reg_write (addr r) OV9281_REG_VALUE_08BIT (val r))
              (firstn k [mk_regval 0x0103 0x01])) after_probe.
Proof.
  assert (Hall : Forall (fun r => addr r <> REG_NULL) [mk_regval 0x0103 0x01])
    by (repeat constructor; discriminate).
  assert (Hstop : addr (mk_regval REG_NULL 0) = REG_NULL) by reflexivity.
  split; [ exact Hall | split; [ exact Hstop | ] ].
  destruct (write_array_stops good_hw [mk_regval 0x0103 0x01]
              (mk_regval REG_NULL 0) [mk_regval 0x0100 0x01]
              after_probe Hall Hstop) as (k & Hk & Hs & _ & _).
  exists k. split; [ exact Hk | exact Hs ].
Defined.

(** ** The power sequencer and the supply rails *)

Lemma run_rails_app hw a : forall n p b,
  run_rails hw n p (a ++ b) =
  match run_rails hw n p a with
  | Some p' => run_rails hw (n + length a) p' b
  | None => None
  end.
Proof.
  induction a as [| e a IH]; intros n p b; cbn [app run_rails length].
  - rewrite Nat.add_0_r. reflexivity.
  - destruct (step_rails hw n p e) as [p' |]; [ | reflexivity ].
    rewrite IH. rewrite Nat.add_succ_r. reflexivity.
Qed.

Lemma run_rails_neutral hw evs : forall n p,
  forallb rail_neutral evs = true -> run_rails hw n p evs = Some p.
Proof.
  induction evs as [| e evs IH]; intros n p H; [ reflexivity | ].
  cbn [forallb] in H. apply andb_true_iff in H. destruct H as [He Hr].
  cbn [run_rails].
  assert (Hs : step_rails hw n p e = Some p)
    by (destruct e; try discriminate; reflexivity).
  rewrite Hs. apply IH, Hr.
Qed.

(** Requests that need the rails on or leave them alone. *)
Lemma run_rails_powered hw evs : forall n,
  forallb (fun e => rail_neutral e || is_i2c e) evs = true ->
  run_rails hw n (rails_of true) evs = Some (rails_of true).
Proof.
  induction evs as [| e evs IH]; intros n H; [ reflexivity | ].
  cbn [forallb] in H. apply andb_true_iff in H. destruct H as [He Hr].
  cbn [run_rails].
  assert (Hs : step_rails hw n (rails_of true) e = Some (rails_of true))
    by (destruct e; try discriminate; reflexivity).
  rewrite Hs. apply IH, Hr.
Qed.

(** How powering up runs, in terms of the two answers of the platform. *)
Lemma power_on_exact hw s :
  let n := length (trace s) in
  let c := clk_prepare_enable hw (S n) in
  let m := (if reset_gpio (dev s) then 3 + n else 2 + n)%nat in
  let e := regulator_bulk_enable hw m in
  __ov9281_power_on hw s =
  (if c <? 0 then c else if e <? 0 then e else 0,
   emit (power_on_events (dev s) (negb (c <? 0)) (negb (e <? 0))) s).
Proof.
  intros n c m e.
  unfold __ov9281_power_on, bind, get_dev, clock, log, when, ret,
    power_on_events.
  cbn [dev emit trace].
  assert (E1 : length (trace s ++ [ClkSetRate OV9281_XVCLK_FREQ]) = S n).
  { rewrite length_app. cbn [length]. unfold n. lia. }
  rewrite E1. fold c.
  destruct (c <? 0) eqn:Ec; cbn [negb].
  { rewrite emit_emit. reflexivity. }
  destruct (reset_gpio (dev s)), (pwdn_gpio (dev s));
    cbn [dev emit trace usage_count runtime_active];
    rewrite ?length_app; cbn [length];
    match goal with
    | |- context [regulator_bulk_enable hw ?i] =>
        replace i with m by (unfold m, n; lia)
    end;
    fold e; destruct (e <? 0); cbn [negb];
    rewrite ?emit_emit; reflexivity.
Qed.

Lemma power_on_events_quiet d c e :
  i2c_traffic (power_on_events d c e) = [].
Proof.
  unfold power_on_events.
  destruct c, e, (reset_gpio d), (pwdn_gpio d); reflexivity.
Qed.

Lemma power_on_rails hw s :
  let n := length (trace s) in
  let c := clk_prepare_enable hw (S n) in
  let m := (if reset_gpio (dev s) then 3 + n else 2 + n)%nat in
  let e := regulator_bulk_enable hw m in
  run_rails hw n (rails_of false)
    (power_on_events (dev s) (negb (c <? 0)) (negb (e <? 0))) =
  Some (rails_of (negb (c <? 0) && negb (e <? 0))).
Proof.
  intros n c m e. unfold power_on_events.
  assert (Hc : (0 <=? c) = negb (c <? 0))
    by (destruct (c <? 0) eqn:E; [ apply Z.ltb_lt in E; apply Z.leb_gt; lia
                                 | apply Z.ltb_ge in E; apply Z.leb_le; lia ]).
  assert (He : (0 <=? e) = negb (e <? 0))
    by (destruct (e <? 0) eqn:E; [ apply Z.ltb_lt in E; apply Z.leb_gt; lia
                                 | apply Z.ltb_ge in E; apply Z.leb_le; lia ]).
  unfold m in *. clear m.
  destruct (reset_gpio (dev s)), (pwdn_gpio (dev s));
    cbn [app run_rails step_rails rails_of clk_on regs_on];
    fold c; rewrite Hc; destruct (c <? 0); cbn [negb andb];
    try reflexivity;
    cbn [app run_rails step_rails rails_of clk_on regs_on Nat.add];
    match goal with
    | |- context [regulator_bulk_enable hw ?i] =>
        change (regulator_bulk_enable hw i) with e
    end;
    rewrite He; destruct (e <? 0); reflexivity.
Qed.



Example power_on_rolls_clock_back :
  let hw := {| i2c_master_send := fun _ buf => Z.of_nat (length buf);
               i2c_transfer := fun _ => 2;
               i2c_read_data := fun _ => [];
               clk_prepare_enable := fun _ => 0;
               regulator_bulk_enable := fun _ => -16 |} in
  __ov9281_power_on hw after_probe =
  (-16, emit [ClkSetRate 24000000; ClkPrepareEnable; GpioSet RESET 0;
              RegulatorBulkEnable; ClkDisableUnprepare] after_probe).
Proof. reflexivity. Qed.

Lemma power_off_rails hw d n :
  run_rails hw n (rails_of true) (power_off_events d) = Some (rails_of false).
Proof.
  unfold power_off_events.
  destruct (pwdn_gpio d), (reset_gpio d); reflexivity.
Qed.

(** X6: powering down undoes powering up.  With clock and regulators on,
    [__ov9281_power_off] disables each of them once and cannot fail, so a
    successful power-up followed by a power-down leaves both off, with
    nothing put on the bus in between. *)
Theorem power_cycle_balanced hw s :
  run_rails hw 0 (rails_of false) (trace s) = Some (rails_of false) ->
  fst (__ov9281_power_on hw s) = 0 ->
  let s' := snd (__ov9281_power_off (snd (__ov9281_power_on hw s))) in
  run_rails hw 0 (rails_of false) (trace s') = Some (rails_of false) /\
  i2c_traffic (trace s') = i2c_traffic (trace s) /\
  dev s' = dev s.
Proof.
  intros Hoff Hok s'. subst s'.
  rewrite power_off_run. cbn [snd].
  rewrite power_on_exact in *. cbn [fst snd] in *.
  set (c := clk_prepare_enable hw _) in *.
  set (e := regulator_bulk_enable hw _) in *.
  cbn [trace emit dev].
  pose proof (power_on_rails hw s) as Hr. cbn zeta in Hr. fold c e in Hr.
  rewrite !run_rails_app, Hoff. cbn [Nat.add]. rewrite Hr.
  assert (Hc : (c <? 0) = false)
    by (destruct (c <? 0) eqn:E; [ apply Z.ltb_lt in E; lia | reflexivity ]).
  rewrite Hc in *.
  assert (He : (e <? 0) = false)
    by (destruct (e <? 0) eqn:E; [ apply Z.ltb_lt in E; lia | reflexivity ]).
  rewrite He. cbn [negb andb].
  rewrite power_off_rails.
  rewrite !i2c_traffic_app, power_on_events_quiet, power_off_quiet,
    !app_nil_r.
  repeat split.
Qed.

Lemma power_cycle_balanced_witness :
  run_rails good_hw 0 (rails_of false) (trace after_probe)
    = Some (rails_of false) /\
  fst (__ov9281_power_on good_hw after_probe) = 0 /\
  run_rails good_hw 0 (rails_of false)
    (trace (snd (__ov9281_power_off
                   (snd (__ov9281_power_on good_hw after_probe)))))
    = Some (rails_of false).
Proof.
  assert (Hoff : run_rails good_hw 0 (rails_of false) (trace after_probe)
                 = Some (rails_of false)) by reflexivity.
  assert (Hok : fst (__ov9281_power_on good_hw after_probe) = 0)
    by reflexivity.
  split; [ exact Hoff | split; [ exact Hok | ] ].
  exact (proj1 (power_cycle_balanced good_hw after_probe Hoff Hok)).
Defined.

(** ** Stopping the stream and switching the power *)

Lemma s_stream_off_unfold hw on s :
  streaming (dev s) = true -> on = 0 ->
  ov9281_s_stream hw on s =
  (0, with_dev
        (with_streaming false (dev s))
        (released (emit [reg_write OV9281_REG_CTRL_MODE OV9281_REG_VALUE_08BIT
                           OV9281_MODE_SW_STANDBY] s))).
Proof.
  intros Hs ->. unfold ov9281_s_stream, bind, get_dev. rewrite Hs.
  cbn [Z.eqb negb Bool.eqb]. unfold __ov9281_stop_stream.
  rewrite write_reg_run by (vm_compute; discriminate).
  rewrite pm_runtime_put_run.
  unfold set_streaming, bind, get_dev, put_dev, ret.
  rewrite released_dev. reflexivity.
Qed.

(** X7: stopping the stream cannot fail.  On a streaming handle
    [s_stream(0)] writes 0x00 to register 0x0100, drops the PM reference
    whatever the bus answered to that write, clears the streaming flag and
    returns 0; nothing else of the handle changes. *)
Theorem stream_off_always_succeeds hw s on :
  streaming (dev s) = true -> on = 0 ->
  let r := ov9281_s_stream hw on s in
  fst r = 0 /\
  dev (snd r) = with_streaming false (dev s) /\
  usage_count (snd r) = usage_count s - 1 /\
  exists tl,
    trace (snd r) = trace s ++ I2cSend [0x01; 0x00; 0x00] :: PmPut :: tl /\
    i2c_traffic tl = [].
Proof.
  intros Hs Hon r. subst r. rewrite s_stream_off_unfold by assumption.
  cbn [fst snd dev usage_count trace with_dev].
  rewrite released_usage.
  destruct (released_trace
              (emit [reg_write OV9281_REG_CTRL_MODE OV9281_REG_VALUE_08BIT
                       OV9281_MODE_SW_STANDBY] s)) as (tl & Ht & Hq).
  split; [ reflexivity | split; [ reflexivity | split; [ reflexivity | ] ] ].
  exists tl. rewrite Ht. cbn [trace emit]. rewrite <- app_assoc.
  split; [ reflexivity | exact Hq ].
Qed.

Lemma stream_off_always_succeeds_witness :
  streaming (dev (snd (ov9281_s_stream good_hw 1 after_probe))) = true /\
  0 = 0 /\
  fst (ov9281_s_stream dead_bus 0
         (snd (ov9281_s_stream good_hw 1 after_probe))) = 0 /\
  usage_count (snd (ov9281_s_stream dead_bus 0
                      (snd (ov9281_s_stream good_hw 1 after_probe)))) =
  usage_count (snd (ov9281_s_stream good_hw 1 after_probe)) - 1.
Proof.
  assert (Hs : streaming (dev (snd (ov9281_s_stream good_hw 1 after_probe)))
               = true) by reflexivity.
  destruct (stream_off_always_succeeds dead_bus
              (snd (ov9281_s_stream good_hw 1 after_probe)) 0 Hs eq_refl)
    as (H0 & _ & Hu & _).
  split; [ exact Hs | split; [ reflexivity | split; [ exact H0 | exact Hu ] ] ].
Defined.

(** Taking the first reference to a suspended device, in terms of the two
    answers of the platform. *)
Lemma get_sync_suspended hw s :
  runtime_active s = false ->
  let n := length (trace s) in
  let c := clk_prepare_enable hw (2 + n) in
  let e := regulator_bulk_enable hw
             (if reset_gpio (dev s) then 4 + n else 3 + n) in
  let after a b :=
    with_usage (usage_count s + 1)
      (emit (PmGetSync :: power_on_events (dev s) a b) s) in
  pm_runtime_get_sync hw s =
  if c <? 0 then (c, after false false)
  else if e <? 0 then (e, after true false)
  else (0, with_active true (after true true)).
Proof.
  intros Ha n c e after.
  unfold pm_runtime_get_sync, ov9281_runtime_resume.
  cbn [runtime_active with_usage emit]. rewrite Ha.
  rewrite power_on_exact.
  cbn [dev trace usage_count runtime_active with_usage emit].
  assert (El : length (trace s ++ [PmGetSync]) = S n)
    by (rewrite length_app; cbn [length]; unfold n; lia).
  rewrite El. change (clk_prepare_enable hw (S (S n))) with c.
  assert (Ee : regulator_bulk_enable hw
                 (if reset_gpio (dev s) then 3 + S n else 2 + S n)%nat = e).
  { unfold e. destruct (reset_gpio (dev s)); f_equal; lia. }
  rewrite Ee.
  destruct (c <? 0) eqn:Ec; cbn [negb].
  - rewrite Ec. unfold after, with_usage, emit.
    cbn [dev usage_count runtime_active trace].
    rewrite <- app_assoc. reflexivity.
  - destruct (e <? 0) eqn:E2; cbn [negb].
    + rewrite E2. unfold after, with_usage, emit.
      cbn [dev usage_count runtime_active trace].
      rewrite <- app_assoc. reflexivity.
    + cbn [Z.ltb Z.compare]. unfold after, with_usage, with_active, emit.
      cbn [dev usage_count runtime_active trace].
      rewrite <- app_assoc. reflexivity.
Qed.

Lemma get_sync_resumed hw s :
  runtime_active s = true ->
  pm_runtime_get_sync hw s =
  (1, with_usage (usage_count s + 1) (emit [PmGetSync] s)).
Proof.
  intros Ha. unfold pm_runtime_get_sync.
  cbn [runtime_active with_usage emit]. rewrite Ha. reflexivity.
Qed.



(** ** The rails along a run *)

Lemma rails_ok_extend hw s s' evs :
  rails_ok hw s ->
  trace s' = trace s ++ evs ->
  runtime_active s' = runtime_active s ->
  forallb (fun e => rail_neutral e || (runtime_active s && is_i2c e)) evs
    = true ->
  rails_ok hw s'.
Proof.
  unfold rails_ok. intros H Ht Ha Hev.
  rewrite Ht, Ha, run_rails_app, H.
  destruct (runtime_active s); cbn [andb] in Hev.
  - apply run_rails_powered. exact Hev.
  - apply run_rails_neutral. clear -Hev.
    induction evs as [| e evs IH]; [ reflexivity | ].
    cbn [forallb] in *. apply andb_true_iff in Hev. destruct Hev as [He Hr].
    rewrite orb_false_r in He. rewrite He. apply IH, Hr.
Qed.

Lemma rails_ok_same hw s s' :
  rails_ok hw s -> trace s' = trace s ->
  runtime_active s' = runtime_active s -> rails_ok hw s'.
Proof.
  intros H Ht Ha. apply (rails_ok_extend hw s s' []); auto.
  rewrite app_nil_r. exact Ht.
Qed.

Lemma released_rails hw x : rails_ok hw x -> rails_ok hw (released x).
Proof.
  intros H. unfold released.
  destruct ((usage_count x - 1 =? 0) && runtime_active x) eqn:E.
  - apply andb_true_iff in E. destruct E as [_ Ha].
    unfold rails_ok in *. rewrite Ha in H.
    cbn [trace runtime_active with_active with_usage emit].
    rewrite run_rails_app, H. cbn [run_rails step_rails].
    apply power_off_rails.
  - apply (rails_ok_extend hw x _ [PmPut]); auto; reflexivity.
Qed.

Lemma get_sync_rails hw s :
  rails_ok hw s -> rails_ok hw (snd (pm_runtime_get_sync hw s)).
Proof.
  intros H. destruct (runtime_active s) eqn:Ea.
  - rewrite get_sync_resumed by exact Ea. cbn [snd].
    apply (rails_ok_extend hw s _ [PmGetSync]); auto; reflexivity.
  - rewrite get_sync_suspended by exact Ea.
    pose proof (power_on_rails hw
                  (with_usage (usage_count s + 1) (emit [PmGetSync] s)))
      as Hr.
    cbn zeta in Hr.
    cbn [dev trace usage_count runtime_active with_usage emit] in Hr.
    assert (El : length (trace s ++ [PmGetSync]) = S (length (trace s)))
      by (rewrite length_app; cbn [length]; lia).
    rewrite El in Hr.
    change (clk_prepare_enable hw (S (S (length (trace s)))))
      with (clk_prepare_enable hw (2 + length (trace s))) in Hr.
    assert (Ee : (if reset_gpio (dev s)
                  then 3 + S (length (trace s))
                  else 2 + S (length (trace s)))%nat =
                 (if reset_gpio (dev s)
                  then 4 + length (trace s)
                  else 3 + length (trace s))%nat)
      by (destruct (reset_gpio (dev s)); lia).
    rewrite Ee in Hr.
    set (c := clk_prepare_enable hw _) in *.
    set (e := regulator_bulk_enable hw _) in *.
    unfold rails_ok in H. rewrite Ea in H.
    assert (Hrun : forall a b,
              run_rails hw 0 (rails_of false)
                (trace s ++ PmGetSync :: power_on_events (dev s) a b) =
              run_rails hw (S (length (trace s))) (rails_of false)
                (power_on_events (dev s) a b)).
    { intros a b. rewrite run_rails_app, H. cbn [run_rails step_rails].
      rewrite Nat.add_0_l. reflexivity. }
    unfold rails_ok.
    destruct (c <? 0) eqn:Ec; [ | destruct (e <? 0) eqn:E2 ];
      cbn [snd trace runtime_active with_usage with_active emit negb andb]
        in *;
      rewrite Hrun.
    + change (power_on_events (dev s) false false)
        with (power_on_events (dev s) false (negb (e <? 0))).
      rewrite Hr, Ea. reflexivity.
    + rewrite Hr, Ea. reflexivity.
    + rewrite Hr. reflexivity.
Qed.

Lemma mode_writes_powered regs :
  forallb (fun e => rail_neutral e || is_i2c e) (mode_writes regs) = true.
Proof.
  unfold mode_writes. induction (until_null regs) as [| x l IH];
    [ reflexivity | exact IH ].
Qed.

Lemma plan_powered d :
  forallb (fun e => rail_neutral e || is_i2c e) (stream_start_plan d) = true.
Proof.
  unfold stream_start_plan. rewrite forallb_app, mode_writes_powered.
  reflexivity.
Qed.

Lemma setter_events_powered d id v :
  forallb (fun e => rail_neutral e || is_i2c e)
    (ctrl_range_events d id v ++ [PmGet] ++ ctrl_reg_writes d id v) = true.
Proof. destruct id; reflexivity. Qed.

Lemma powered_when_active (b : bool) evs :
  b = true ->
  forallb (fun e => rail_neutral e || is_i2c e) evs = true ->
  forallb (fun e => rail_neutral e || (b && is_i2c e)) evs = true.
Proof. intros ->. exact (fun H => H). Qed.

Lemma set_ctrl_rails hw id v s :
  rails_ok hw s -> rails_ok hw (snd (ov9281_set_ctrl hw id v s)).
Proof.
  intros H. destruct (runtime_active s) eqn:Ea.
  - rewrite set_ctrl_resumed by exact Ea. cbn [snd].
    apply released_rails.
    eapply (rails_ok_extend hw s); [ exact H | reflexivity | reflexivity | ].
    apply powered_when_active; [ exact Ea | apply setter_events_powered ].
  - rewrite set_ctrl_suspended by exact Ea. cbn [snd].
    eapply (rails_ok_extend hw s); [ exact H | reflexivity | reflexivity | ].
    rewrite Ea. destruct id; reflexivity.
Qed.

Lemma s_ctrl_rails hw id v s :
  rails_ok hw s -> rails_ok hw (snd (v4l2_ctrl_s_ctrl hw id v s)).
Proof.
  intros H. rewrite s_ctrl_unfold. apply set_ctrl_rails.
  eapply rails_ok_same; [ exact H | reflexivity | reflexivity ].
Qed.

Lemma s_power_rails hw on s :
  rails_ok hw s -> rails_ok hw (snd (ov9281_s_power hw on s)).
Proof.
  intros H.
  destruct (Bool.eqb (power_on (dev s)) (negb (on =? 0))) eqn:Esame.
  { apply Bool.eqb_prop in Esame. rewrite s_power_same by exact Esame.
    exact H. }
  destruct (on =? 0) eqn:Eon; cbn [negb] in Esame.
  - assert (Hp : power_on (dev s) = true)
      by (destruct (power_on (dev s)); [ reflexivity | discriminate ]).
    unfold ov9281_s_power, bind, get_dev. rewrite Hp, Eon.
    cbn [negb Bool.eqb]. rewrite pm_runtime_put_run.
    unfold set_power_on, bind, get_dev, put_dev, ret. cbn [snd].
    eapply rails_ok_same; [ apply released_rails; exact H | | ];
      reflexivity.
  - assert (Hp : power_on (dev s) = false)
      by (destruct (power_on (dev s)); [ discriminate | reflexivity ]).
    assert (Hon : on <> 0) by (apply Z.eqb_neq; exact Eon).
    rewrite s_power_on_unfold by assumption.
    pose proof (get_sync_rails hw s H) as Hg.
    destruct (pm_runtime_get_sync hw s) as [e s0]. cbn [snd] in Hg.
    destruct (e <? 0); cbn [snd].
    + apply (rails_ok_extend hw s0 _ [PmPutNoidle]); auto; reflexivity.
    + eapply rails_ok_same; [ exact Hg | | ]; reflexivity.
Qed.

Lemma forallb_prefix {A} (f : A -> bool) a b :
  forallb f (a ++ b) = true -> forallb f a = true.
Proof.
  rewrite forallb_app. intros H. apply andb_true_iff in H. apply H.
Qed.

Lemma s_stream_rails hw on s :
  pm_consistent s -> rails_ok hw s ->
  rails_ok hw (snd (ov9281_s_stream hw on s)).
Proof.
  intros [Hc Hra] H.
  pose proof (b2z_range (power_on (dev s))) as Hb.
  destruct (Bool.eqb (streaming (dev s)) (negb (on =? 0))) eqn:Esame.
  { apply Bool.eqb_prop in Esame. rewrite s_stream_same by exact Esame.
    exact H. }
  destruct (on =? 0) eqn:Eon; cbn [negb] in Esame.
  - assert (Hs : streaming (dev s) = true)
      by (destruct (streaming (dev s)); [ reflexivity | discriminate ]).
    apply Z.eqb_eq in Eon.
    rewrite s_stream_off_unfold by assumption. cbn [snd].
    rewrite Hs in Hc. cbn [Z.b2z] in Hc.
    assert (Hact : runtime_active s = true)
      by (rewrite Hra; apply Z.ltb_lt; lia).
    eapply rails_ok_same; [ apply released_rails | | ]; try reflexivity.
    eapply (rails_ok_extend hw s); [ exact H | reflexivity | reflexivity | ].
    rewrite Hact. reflexivity.
  - assert (Hs : streaming (dev s) = false)
      by (destruct (streaming (dev s)); [ discriminate | reflexivity ]).
    assert (Hon : on <> 0) by (apply Z.eqb_neq; exact Eon).
    rewrite s_stream_on_unfold by assumption.
    pose proof (get_sync_rails hw s H) as Hg.
    destruct (get_sync_run hw s) as (Hd & Hu & _ & Hact & _).
    destruct (pm_runtime_get_sync hw s) as [e s0]. cbn [fst snd] in *.
    rewrite Hs in Hc. cbn [Z.b2z] in Hc.
    destruct (e <? 0) eqn:E; cbn [snd].
    + apply (rails_ok_extend hw s0 _ [PmPutNoidle]); auto; reflexivity.
    + apply Z.ltb_ge in E.
      assert (Hu0 : usage_count s0 <> 0) by lia.
      destruct (start_stream_run hw s0 (Hact E) Hu0)
        as (done & rest & d' & e' & Hp & Hst & _).
      rewrite Hst.
      assert (Hdone : rails_ok hw (with_dev d' (emit done s0))).
      { eapply (rails_ok_extend hw s0);
          [ exact Hg | reflexivity | reflexivity | ].
        apply powered_when_active; [ exact (Hact E) | ].
        apply forallb_prefix with (b := rest). rewrite <- Hp.
        apply plan_powered. }
      destruct (negb (e' =? 0)); cbn [snd].
      * apply released_rails. exact Hdone.
      * eapply rails_ok_same; [ exact Hdone | | ]; reflexivity.
Qed.

(** ** Setting the format *)

Lemma find_best_fit_only fmt : ov9281_find_best_fit fmt = mode_1280x800.
Proof. reflexivity. Qed.

(** The format [ov9281_set_fmt] and [ov9281_get_fmt] report for a mode. *)
Lemma set_fmt_try hw k cfg fmt s :
  which fmt = V4L2_SUBDEV_FORMAT_TRY k ->
  exists f,
    ov9281_set_fmt hw k cfg fmt s =
      (0, set_try_fmt cfg (pad fmt) f,
       {| which := which fmt; pad := pad fmt; format := f |}, s) /\
    fmt_width f = 1280 /\ fmt_height f = 800 /\
    code f = MEDIA_BUS_FMT_Y10_1X10 k.
Proof.
  intros Hw. unfold ov9281_set_fmt. cbn [which pad format].
  rewrite Hw, Z.eqb_refl. eexists. split; [ reflexivity | ].
  repeat split.
Qed.

(** The state in which an active [ov9281_set_fmt] hands the blanking default
    to the setter. *)
Lemma set_fmt_active hw k cfg fmt s :
  which fmt <> V4L2_SUBDEV_FORMAT_TRY k ->
  exists f d3,
    ov9281_set_fmt hw k cfg fmt s =
      (0, cfg, {| which := which fmt; pad := pad fmt; format := f |},
       snd (v4l2_ctrl_s_ctrl hw V4L2_CID_VBLANK 110
              (with_dev d3
                 (emit [CtrlModifyRange V4L2_CID_HBLANK 176 176 1 176;
                        CtrlModifyRange V4L2_CID_VBLANK 110 31967 1 110]
                    s)))) /\
    fmt_width f = 1280 /\ fmt_height f = 800 /\
    code f = MEDIA_BUS_FMT_Y10_1X10 k /\
    cur_mode d3 = mode_1280x800 /\
    minimum (vblank d3) = 110 /\ maximum (vblank d3) = 31967 /\
    cur_val (hblank d3) = 176 /\
    exposure d3 = exposure (dev s) /\
    anal_gain d3 = anal_gain (dev s) /\
    test_pattern d3 = test_pattern (dev s) /\
    streaming d3 = streaming (dev s) /\
    power_on d3 = power_on (dev s).
Proof.
  intros Hw. apply Z.eqb_neq in Hw.
  unfold ov9281_set_fmt. cbn [which pad format]. rewrite Hw.
  rewrite find_best_fit_only.
  cbv [bind get_dev put_dev ret log __v4l2_ctrl_modify_range
       __v4l2_ctrl_s_ctrl].
  change (u32 (hts_def mode_1280x800 - width mode_1280x800)) with 176.
  change (u32 (vts_def mode_1280x800 - height mode_1280x800)) with 110.
  change (u32 (OV9281_VTS_MAX - height mode_1280x800)) with 31967.
  match goal with
  | |- context [v4l2_ctrl_s_ctrl hw V4L2_CID_VBLANK 110 ?x] =>
      remember x as X eqn:HX;
      remember (v4l2_ctrl_s_ctrl hw V4L2_CID_VBLANK 110 X) as call eqn:Hcall
  end.
  destruct call as [e sx].
  assert (HXs : X =
    with_dev (dev X)
      (emit [CtrlModifyRange V4L2_CID_HBLANK 176 176 1 176;
             CtrlModifyRange V4L2_CID_VBLANK 110 31967 1 110] s)).
  { subst X. unfold with_dev, emit.
    cbn [dev usage_count runtime_active trace].
    rewrite <- app_assoc. reflexivity. }
  eexists. exists (dev X). split.
  - rewrite <- HXs, <- Hcall. reflexivity.
  - subst X. repeat split.
Qed.

Lemma set_fmt_cases k fmt :
  which fmt = V4L2_SUBDEV_FORMAT_TRY k \/
  which fmt <> V4L2_SUBDEV_FORMAT_TRY k.
Proof.
  destruct (Z.eq_dec (which fmt) (V4L2_SUBDEV_FORMAT_TRY k)); auto.
Qed.

(** ** What holds in every reachable state *)

Ltac split_ands :=
  repeat match goal with |- _ /\ _ => split end.

Lemma handle_ok_ext d d' :
  cur_mode d' = cur_mode d -> vblank d' = vblank d ->
  maximum (exposure d') = maximum (exposure d) ->
  minimum (exposure d') = minimum (exposure d) ->
  handle_ok d -> handle_ok d'.
Proof.
  unfold handle_ok, coupled. intros -> -> -> ->. exact (fun H => H).
Qed.

Lemma handle_ok_replayed d :
  handle_ok d ->
  handle_ok (range_updated V4L2_CID_VBLANK (cur_val (vblank d)) d).
Proof.
  intros (Hm & Hmin & Hmax & Hv & Hc & He).
  unfold handle_ok, coupled.
  cbn [range_updated with_ctrl cur_mode vblank exposure maximum minimum].
  destruct (vblank_no_wrap _ _ Hm Hv) as [Hw _].
  split_ands; assumption.
Qed.

Lemma handle_ok_written d id v :
  handle_ok d -> In id ops_ctrls ->
  minimum (ctrl_of id d) <= v <= maximum (ctrl_of id d) ->
  handle_ok
    (range_updated id v
       (with_ctrl id
          {| minimum := minimum (ctrl_of id d);
             maximum := maximum (ctrl_of id d);
             step := step (ctrl_of id d);
             default_value := default_value (ctrl_of id d);
             cur_val := v |} d)).
Proof.
  intros (Hm & Hmin & Hmax & Hv & Hc & He) Hin Hr.
  unfold ops_ctrls in Hin. cbn [In] in Hin.
  destruct Hin as [<- | [<- | [<- | [<- | []]]]];
    unfold handle_ok, coupled in *;
    cbn [range_updated with_ctrl ctrl_of cur_mode vblank exposure maximum
         minimum cur_val] in *;
    try (split_ands; assumption).
  assert (Hacc : vblank_accepts (cur_mode d) v)
    by (unfold vblank_accepts; lia).
  destruct (vblank_no_wrap _ _ Hm Hacc) as [Hw _].
  split_ands; assumption.
Qed.

Lemma start_stream_dev hw s :
  runtime_active s = true -> usage_count s <> 0 ->
  dev (snd (__ov9281_start_stream hw s)) = dev s \/
  dev (snd (__ov9281_start_stream hw s)) =
    range_updated V4L2_CID_VBLANK (cur_val (vblank (dev s))) (dev s).
Proof.
  intros Ha Hu. unfold __ov9281_start_stream, bind, get_dev.
  destruct (write_array_run hw (reg_list (cur_mode (dev s))) s)
    as (done1 & rest1 & _ & Hs1 & _).
  destruct (ov9281_write_array hw (reg_list (cur_mode (dev s))) s)
    as [e1 s1]. cbn [snd] in Hs1. subst s1.
  destruct (negb (e1 =? 0)); [ left; reflexivity | ].
  assert (Ha1 : runtime_active (emit done1 s) = true) by exact Ha.
  assert (Hu1 : usage_count (emit done1 s) <> 0) by exact Hu.
  destruct (replay_run hw (emit done1 s) Ha1 Hu1)
    as (done2 & rest2 & _ & Hs2 & _).
  destruct (v4l2_ctrl_handler_setup hw (emit done1 s)) as [e2 s2].
  cbn [snd] in Hs2. subst s2.
  right. destruct (negb (e2 =? 0)); [ reflexivity | ].
  rewrite write_reg_run by (vm_compute; discriminate). reflexivity.
Qed.

Lemma s_power_handle hw on s :
  handle_ok (dev s) -> handle_ok (dev (snd (ov9281_s_power hw on s))).
Proof.
  intros H.
  destruct (Bool.eqb (power_on (dev s)) (negb (on =? 0))) eqn:Esame.
  { apply Bool.eqb_prop in Esame. rewrite s_power_same by exact Esame.
    exact H. }
  destruct (on =? 0) eqn:Eon; cbn [negb] in Esame.
  - assert (Hp : power_on (dev s) = true)
      by (destruct (power_on (dev s)); [ reflexivity | discriminate ]).
    unfold ov9281_s_power, bind, get_dev. rewrite Hp, Eon.
    cbn [negb Bool.eqb]. rewrite pm_runtime_put_run.
    unfold set_power_on, bind, get_dev, put_dev, ret.
    cbn [snd dev with_dev]. rewrite released_dev.
    eapply handle_ok_ext; [ | | | | exact H ]; reflexivity.
  - assert (Hp : power_on (dev s) = false)
      by (destruct (power_on (dev s)); [ discriminate | reflexivity ]).
    assert (Hon : on <> 0) by (apply Z.eqb_neq; exact Eon).
    rewrite s_power_on_unfold by assumption.
    destruct (get_sync_run hw s) as (Hd & _).
    destruct (pm_runtime_get_sync hw s) as [e s0]. cbn [snd] in Hd.
    destruct (e <? 0); cbn [snd]; unfold pm_runtime_put_noidle;
      cbn [snd dev with_dev with_usage emit]; rewrite Hd;
      [ exact H | eapply handle_ok_ext; [ | | | | exact H ]; reflexivity ].
Qed.

Lemma s_stream_handle hw on s :
  pm_consistent s -> handle_ok (dev s) ->
  handle_ok (dev (snd (ov9281_s_stream hw on s))).
Proof.
  intros [Hc Hra] H.
  pose proof (b2z_range (power_on (dev s))) as Hb.
  destruct (Bool.eqb (streaming (dev s)) (negb (on =? 0))) eqn:Esame.
  { apply Bool.eqb_prop in Esame. rewrite s_stream_same by exact Esame.
    exact H. }
  destruct (on =? 0) eqn:Eon; cbn [negb] in Esame.
  - assert (Hs : streaming (dev s) = true)
      by (destruct (streaming (dev s)); [ reflexivity | discriminate ]).
    apply Z.eqb_eq in Eon.
    rewrite s_stream_off_unfold by assumption. cbn [snd dev with_dev].
    eapply handle_ok_ext; [ | | | | exact H ]; reflexivity.
  - assert (Hs : streaming (dev s) = false)
      by (destruct (streaming (dev s)); [ discriminate | reflexivity ]).
    assert (Hon : on <> 0) by (apply Z.eqb_neq; exact Eon).
    rewrite s_stream_on_unfold by assumption.
    destruct (get_sync_run hw s) as (Hd & Hu & _ & Hact & _).
    destruct (pm_runtime_get_sync hw s) as [e s0]. cbn [fst snd] in *.
    rewrite Hs in Hc. cbn [Z.b2z] in Hc.
    destruct (e <? 0) eqn:E; cbn [snd].
    + unfold pm_runtime_put_noidle. cbn [snd dev with_usage emit].
      rewrite Hd. exact H.
    + apply Z.ltb_ge in E.
      assert (Hu0 : usage_count s0 <> 0) by lia.
      pose proof (start_stream_dev hw s0 (Hact E) Hu0) as Hdev.
      rewrite Hd in Hdev.
      destruct (__ov9281_start_stream hw s0) as [e' s1]. cbn [snd] in Hdev.
      assert (H1 : handle_ok (dev s1)).
      { destruct Hdev as [-> | ->]; [ exact H | ].
        apply handle_ok_replayed, H. }
      destruct (negb (e' =? 0)); cbn [snd].
      * rewrite released_dev. exact H1.
      * cbn [dev with_dev].
        eapply handle_ok_ext; [ | | | | exact H1 ]; reflexivity.
Qed.

Lemma s_ctrl_handle hw id v s :
  handle_ok (dev s) -> In id ops_ctrls ->
  minimum (ctrl_of id (dev s)) <= v <= maximum (ctrl_of id (dev s)) ->
  handle_ok (dev (snd (v4l2_ctrl_s_ctrl hw id v s))).
Proof.
  intros H Hin Hr. rewrite s_ctrl_unfold, set_ctrl_dev.
  cbn [dev with_dev]. apply handle_ok_written; assumption.
Qed.

Lemma set_fmt_state hw k cfg fmt s :
  snd (ov9281_set_fmt hw k cfg fmt s) = s \/
  exists d3,
    snd (ov9281_set_fmt hw k cfg fmt s) =
      snd (v4l2_ctrl_s_ctrl hw V4L2_CID_VBLANK 110
             (with_dev d3
                (emit [CtrlModifyRange V4L2_CID_HBLANK 176 176 1 176;
                       CtrlModifyRange V4L2_CID_VBLANK 110 31967 1 110]
                   s))) /\
    cur_mode d3 = mode_1280x800 /\
    minimum (vblank d3) = 110 /\ maximum (vblank d3) = 31967 /\
    exposure d3 = exposure (dev s) /\
    streaming d3 = streaming (dev s) /\
    power_on d3 = power_on (dev s).
Proof.
  destruct (set_fmt_cases k fmt) as [Hw | Hw].
  - left. destruct (set_fmt_try hw k cfg fmt s Hw) as (f & -> & _).
    reflexivity.
  - right. destruct (set_fmt_active hw k cfg fmt s Hw)
      as (f & d3 & -> & _ & _ & _ & Hm & Hmin & Hmax & _ & He & _ & _
          & Hs & Hp).
    exists d3. repeat split; assumption.
Qed.

Lemma set_fmt_handle hw k cfg fmt s :
  handle_ok (dev s) -> handle_ok (dev (snd (ov9281_set_fmt hw k cfg fmt s))).
Proof.
  intros H. destruct (set_fmt_state hw k cfg fmt s)
    as [-> | (d3 & -> & Hm & Hmin & Hmax & He & _)]; [ exact H | ].
  rewrite s_ctrl_unfold, set_ctrl_dev. cbn [dev with_dev].
  destruct H as (_ & _ & _ & _ & _ & Hemin).
  unfold handle_ok, coupled.
  cbn [range_updated with_ctrl ctrl_of cur_mode vblank exposure maximum
       minimum cur_val].
  rewrite Hm, Hmin, Hmax, He, Hemin.
  repeat split; try reflexivity; try (left; reflexivity);
    unfold vblank_accepts; cbn; lia.
Qed.

Lemma set_fmt_pm hw k cfg fmt s :
  pm_consistent s -> pm_consistent (snd (ov9281_set_fmt hw k cfg fmt s)).
Proof.
  intros H. destruct (set_fmt_state hw k cfg fmt s)
    as [-> | (d3 & -> & _ & _ & _ & _ & Hs & Hp)]; [ exact H | ].
  apply s_ctrl_preserves. destruct H as [Hc Hr]. unfold pm_consistent.
  cbn [dev usage_count runtime_active with_dev emit].
  rewrite Hs, Hp. split; assumption.
Qed.

Lemma set_fmt_rails hw k cfg fmt s :
  rails_ok hw s -> rails_ok hw (snd (ov9281_set_fmt hw k cfg fmt s)).
Proof.
  intros H. destruct (set_fmt_state hw k cfg fmt s)
    as [-> | (d3 & -> & _)]; [ exact H | ].
  apply s_ctrl_rails.
  eapply (rails_ok_extend hw s); [ exact H | reflexivity | reflexivity | ].
  reflexivity.
Qed.

Lemma handle_ok_probed : handle_ok probed_handle.
Proof.
  unfold handle_ok, coupled, vblank_accepts.
  repeat split; try reflexivity; try (left; reflexivity); cbn; lia.
Qed.

Lemma rails_ok_after_probe hw : rails_ok hw after_probe.
Proof. reflexivity. Qed.

Lemma reachable_invariants hw s :
  reachable hw s -> pm_consistent s /\ rails_ok hw s /\ handle_ok (dev s).
Proof.
  induction 1 as [| s on _ (Hc & Hr & Hh) | s on _ (Hc & Hr & Hh)
                  | s id v _ (Hc & Hr & Hh) Hin Hv
                  | s k cfg fmt _ (Hc & Hr & Hh)].
  - split; [ apply pm_consistent_after_probe | split ];
      [ apply rails_ok_after_probe | apply handle_ok_probed ].
  - split; [ apply s_power_preserves, Hc | split ];
      [ apply s_power_rails, Hr | apply s_power_handle, Hh ].
  - split; [ apply s_stream_preserves, Hc | split ];
      [ apply s_stream_rails; assumption
      | apply s_stream_handle; assumption ].
  - split; [ apply s_ctrl_preserves, Hc | split ];
      [ apply s_ctrl_rails, Hr | apply s_ctrl_handle; assumption ].
  - split; [ apply set_fmt_pm, Hc | split ];
      [ apply set_fmt_rails, Hr | apply set_fmt_handle, Hh ].
Qed.

(** X9: in every state the host can reach from a probed sensor (power,
    streaming, control and format calls in any order, on any platform), the
    bus has only been used while clock and regulators were enabled, enables
    and disables alternate, the supplies are on exactly when the device is
    runtime-resumed, and that is exactly when the handle is powered or
    streaming, with one PM reference for each. *)
Theorem bus_only_on_live_rails hw s :
  reachable hw s ->
  run_rails hw 0 (rails_of false) (trace s) =
    Some (rails_of (runtime_active s)) /\
  runtime_active s = streaming (dev s) || power_on (dev s) /\
  usage_count s = Z.b2z (streaming (dev s)) + Z.b2z (power_on (dev s)).
Proof.
  intros H. destruct (reachable_invariants hw s H) as ([Hu Ha] & Hr & _).
  split; [ exact Hr | split; [ | exact Hu ] ].
  rewrite Ha, Hu.
  destruct (streaming (dev s)), (power_on (dev s)); reflexivity.
Qed.

Lemma bus_only_on_live_rails_witness :
  let s := snd (ov9281_s_stream good_hw 1 after_probe) in
  run_rails good_hw 0 (rails_of false) (trace s) =
    Some (rails_of (runtime_active s)) /\
  runtime_active s = streaming (dev s) || power_on (dev s) /\
  usage_count s = Z.b2z (streaming (dev s)) + Z.b2z (power_on (dev s)).
Proof.
  apply (bus_only_on_live_rails good_hw
           (snd (ov9281_s_stream good_hw 1 after_probe))).
  apply reach_s_stream, reach_probe.
Defined.

(** X10: in every reachable state the current mode is a supported one, the
    vertical blanking has the range of that mode and a value in it, and the
    exposure maximum is the frame length minus 4: no call sequence breaks
    the coupling of exposure and vertical blanking. *)
Theorem reachable_handle_coupled hw s :
  reachable hw s -> handle_ok (dev s).
Proof.
  intros H. apply (reachable_invariants hw s H).
Qed.

Lemma reachable_handle_coupled_witness :
  handle_ok
    (dev (snd (v4l2_ctrl_s_ctrl good_hw V4L2_CID_VBLANK 1000
                 (snd (ov9281_s_power good_hw 1 after_probe))))).
Proof.
  apply (reachable_handle_coupled good_hw).
  apply reach_s_ctrl.
  - apply reach_s_power, reach_probe.
  - unfold ops_ctrls. cbn. tauto.
  - vm_compute. split; discriminate.
Defined.

(** ** Switching on and off again *)

Lemma range_updated_id d :
  handle_ok d ->
  range_updated V4L2_CID_VBLANK (cur_val (vblank d)) d = d.
Proof.
  intros (Hm & _ & _ & Hv & Hc & _).
  destruct (vblank_no_wrap _ _ Hm Hv) as [Hw _].
  unfold range_updated, with_ctrl. rewrite Hw, <- Hc.
  destruct d as [rg pg ex ag hb vb tp st po cm]. destruct ex.
  reflexivity.
Qed.

Lemma with_streaming_id d b :
  streaming d = b -> with_streaming b (with_streaming (negb b) d) = d.
Proof. intros <-. destruct d. reflexivity. Qed.

Lemma with_power_on_id d b :
  power_on d = b -> with_power_on b (with_power_on (negb b) d) = d.
Proof. intros <-. destruct d. reflexivity. Qed.

Lemma active_after_release u :
  0 <= u -> negb (u + 1 - 1 =? 0) = (0 <? u).
Proof.
  intros Hu. replace (u + 1 - 1) with u by lia.
  destruct (Z.eqb_spec u 0) as [-> | Hn]; [ reflexivity | ].
  symmetry. apply Z.ltb_lt. lia.
Qed.

(** X11: starting the stream and stopping it again leaves the handle, the
    PM reference count and the power state as they were, on any platform:
    whether the start succeeds or fails at the power-up or at any register
    write, nothing of it is left behind. *)
Theorem stream_on_off_restores hw on s :
  pm_consistent s -> handle_ok (dev s) ->
  streaming (dev s) = false -> on <> 0 ->
  let s2 := snd (ov9281_s_stream hw 0 (snd (ov9281_s_stream hw on s))) in
  dev s2 = dev s /\ usage_count s2 = usage_count s /\
  runtime_active s2 = runtime_active s.
Proof.
  intros [Hu Ha] Hh Hs Hon.
  pose proof (b2z_range (power_on (dev s))) as Hb.
  rewrite Hs in Hu. cbn [Z.b2z] in Hu.
  rewrite (s_stream_on_unfold hw on s) by assumption.
  destruct (get_sync_run hw s) as (Hd & Hc & _ & Hact & _ & Hfail).
  destruct (pm_runtime_get_sync hw s) as [e s0]. cbn [fst snd] in *.
  destruct (e <? 0) eqn:E; cbn [snd].
  - apply Z.ltb_lt in E.
    rewrite s_stream_same
      by (unfold pm_runtime_put_noidle; cbn [snd dev with_usage emit];
          rewrite Hd; exact Hs).
    unfold pm_runtime_put_noidle.
    cbn [snd dev usage_count runtime_active with_usage emit].
    rewrite Hd, Hc, (Hfail E). split_ands; [ reflexivity | lia | reflexivity ].
  - apply Z.ltb_ge in E. specialize (Hact E).
    assert (Hu0 : usage_count s0 <> 0) by lia.
    pose proof (start_stream_dev hw s0 Hact Hu0) as Hdev.
    destruct (start_stream_run hw s0 Hact Hu0)
      as (done & rest & d' & e' & _ & Hrun & _).
    rewrite Hrun in *. cbn [snd dev with_dev] in Hdev.
    assert (Hd' : d' = dev s).
    { destruct Hdev as [-> | ->]; rewrite Hd;
        [ reflexivity | apply range_updated_id, Hh ]. }
    subst d'.
    assert (Hrel : runtime_active s = negb (usage_count s0 - 1 =? 0)).
    { rewrite Ha, Hc. symmetry. apply active_after_release. lia. }
    destruct (negb (e' =? 0)); cbn [snd].
    + rewrite s_stream_same by (rewrite released_dev; exact Hs).
      cbn [snd]. rewrite released_dev, released_usage, released_active
        by exact Hact.
      cbn [dev usage_count with_dev emit]. rewrite Hrel.
      split_ands; [ reflexivity | lia | reflexivity ].
    + rewrite s_stream_off_unfold by reflexivity.
      cbn [snd dev with_dev usage_count runtime_active].
      rewrite released_usage, released_active by exact Hact.
      cbn [dev usage_count with_dev emit]. rewrite Hrel.
      split_ands; [ | lia | reflexivity ].
      apply (with_streaming_id (dev s) false Hs).
Qed.

Lemma stream_on_off_restores_witness :
  let s2 := snd (ov9281_s_stream dead_bus 0
                   (snd (ov9281_s_stream dead_bus 1 after_probe))) in
  dev s2 = dev after_probe /\ usage_count s2 = usage_count after_probe /\
  runtime_active s2 = runtime_active after_probe.
Proof.
  apply (stream_on_off_restores dead_bus 1 after_probe).
  - apply pm_consistent_after_probe.
  - apply handle_ok_probed.
  - reflexivity.
  - discriminate.
Defined.

(** X12: powering on through [ov9281_s_power] and off again leaves the
    handle, the PM reference count and the power state as they were, on any
    platform, also when the power-up fails. *)
Theorem power_on_off_restores hw on s :
  pm_consistent s -> power_on (dev s) = false -> on <> 0 ->
  let s2 := snd (ov9281_s_power hw 0 (snd (ov9281_s_power hw on s))) in
  dev s2 = dev s /\ usage_count s2 = usage_count s /\
  runtime_active s2 = runtime_active s.
Proof.
  intros [Hu Ha] Hp Hon.
  pose proof (b2z_range (streaming (dev s))) as Hb.
  rewrite Hp in Hu. cbn [Z.b2z] in Hu.
  rewrite (s_power_on_unfold hw on s) by assumption.
  destruct (get_sync_run hw s) as (Hd & Hc & _ & Hact & _ & Hfail).
  destruct (pm_runtime_get_sync hw s) as [e s0]. cbn [fst snd] in *.
  destruct (e <? 0) eqn:E; cbn [snd].
  - apply Z.ltb_lt in E.
    rewrite s_power_same
      by (unfold pm_runtime_put_noidle; cbn [snd dev with_usage emit];
          rewrite Hd; exact Hp).
    unfold pm_runtime_put_noidle.
    cbn [snd dev usage_count runtime_active with_usage emit].
    rewrite Hd, Hc, (Hfail E). split_ands; [ reflexivity | lia | reflexivity ].
  - apply Z.ltb_ge in E. specialize (Hact E).
    unfold ov9281_s_power, bind, get_dev. cbn [dev with_dev power_on
      with_power_on]. cbn [Z.eqb negb Bool.eqb].
    rewrite pm_runtime_put_run.
    unfold set_power_on, bind, get_dev, put_dev, ret.
    cbn [snd dev with_dev usage_count runtime_active].
    rewrite released_dev, released_usage, released_active by exact Hact.
    cbn [dev usage_count with_dev]. rewrite Hd, Hc, Ha.
    split_ands; [ | lia | apply active_after_release; lia ].
    apply (with_power_on_id (dev s) false Hp).
Qed.

Lemma power_on_off_restores_witness :
  let s2 := snd (ov9281_s_power good_hw 0
                   (snd (ov9281_s_power good_hw 1 after_probe))) in
  dev s2 = dev after_probe /\ usage_count s2 = usage_count after_probe /\
  runtime_active s2 = runtime_active after_probe.
Proof.
  apply (power_on_off_restores good_hw 1 after_probe).
  - apply pm_consistent_after_probe.
  - reflexivity.
  - discriminate.
Defined.

(** ** Mode negotiation *)

Lemma s32_small x : - 2 ^ 31 <= x < 2 ^ 31 -> s32 x = x.
Proof.
  intros H. unfold s32. rewrite Z.mod_small by lia. lia.
Qed.

Lemma s32_u32 x : s32 (u32 x) = s32 x.
Proof.
  unfold s32, u32. rewrite Zplus_mod_idemp_l. reflexivity.
Qed.

Lemma abs_u32 x : - 2 ^ 31 < x < 2 ^ 31 -> abs (u32 x) = Z.abs x.
Proof.
  intros H. unfold abs. rewrite s32_u32, s32_small by lia.
  destruct (Z.ltb_spec x 0).
  - rewrite s32_small by lia. lia.
  - lia.
Qed.

(** X13: as long as the two differences and their sum stay below [2^31],
    the distance of a mode from a requested format is
    [|width - w| + |height - h|]: the unsigned subtraction of the source
    and the signed [abs] cancel. *)
Theorem reso_dist_manhattan mode framefmt :
  let dw := width mode - fmt_width framefmt in
  let dh := height mode - fmt_height framefmt in
  Z.abs dw + Z.abs dh < 2 ^ 31 ->
  ov9281_get_reso_dist mode framefmt = Z.abs dw + Z.abs dh.
Proof.
  intros dw dh H. unfold ov9281_get_reso_dist. fold dw dh.
  rewrite !abs_u32 by lia. apply s32_small. lia.
Qed.

Lemma reso_dist_manhattan_witness :
  ov9281_get_reso_dist mode_1280x800 request_640x480 = 960.
Proof.
  rewrite (reso_dist_manhattan mode_1280x800 request_640x480);
    vm_compute; reflexivity.
Defined.

Lemma best_fit_loop_spec f : forall modes i cb cd,
  (forall m, In m modes -> 0 <= ov9281_get_reso_dist m f) -> 0 <= cd ->
  let r := best_fit_loop modes f i cb cd in
  (r = cb /\ forall m, In m modes -> cd <= ov9281_get_reso_dist m f) \/
  (exists pre m post,
     modes = pre ++ m :: post /\
     r = i + Z.of_nat (length pre) /\
     ov9281_get_reso_dist m f < cd /\
     (forall x, In x pre ->
        ov9281_get_reso_dist m f < ov9281_get_reso_dist x f) /\
     (forall x, In x post ->
        ov9281_get_reso_dist m f <= ov9281_get_reso_dist x f)).
Proof.
  induction modes as [| m rest IH]; intros i cb cd Hall Hcd; cbn zeta.
  - left. split; [ reflexivity | intros m [] ].
  - cbn [best_fit_loop].
    assert (Hm : 0 <= ov9281_get_reso_dist m f) by (apply Hall; left; auto).
    assert (Hrest : forall x, In x rest -> 0 <= ov9281_get_reso_dist x f)
      by (intros x Hx; apply Hall; right; exact Hx).
    destruct (Z.eqb_spec cd (-1)) as [E | _]; [ lia | ].
    cbn [orb].
    destruct (Z.ltb_spec (ov9281_get_reso_dist m f) cd) as [Hlt | Hge].
    + right.
      destruct (IH (i + 1) i (ov9281_get_reso_dist m f) Hrest Hm)
        as [[Hr Hmin] | (pre & b & post & Hs & Hr & Hb & Hpre & Hpost)].
      * exists [], m, rest. cbn [app length]. split_ands; auto.
        -- rewrite Hr. cbn. lia.
        -- intros x [].
      * exists (m :: pre), b, post. split_ands.
        -- rewrite Hs. reflexivity.
        -- rewrite Hr. cbn [length]. lia.
        -- lia.
        -- intros x [<- | Hx]; [ exact Hb | apply Hpre, Hx ].
        -- exact Hpost.
    + destruct (IH (i + 1) cb cd Hrest Hcd)
        as [[Hr Hmin] | (pre & b & post & Hs & Hr & Hb & Hpre & Hpost)].
      * left. split; [ exact Hr | ].
        intros x [<- | Hx]; [ exact Hge | apply Hmin, Hx ].
      * right. exists (m :: pre), b, post. split_ands.
        -- rewrite Hs. reflexivity.
        -- rewrite Hr. cbn [length]. lia.
        -- exact Hb.
        -- intros x [<- | Hx]; [ lia | apply Hpre, Hx ].
        -- exact Hpost.
Qed.

(** X14: the loop of [ov9281_find_best_fit], run over any non-empty mode
    table whose distances from the request are not negative, returns the
    index of the first mode at the least distance: every earlier mode is
    strictly farther, every later mode is at least as far. *)
Theorem best_fit_first_minimum modes f :
  modes <> [] ->
  (forall m, In m modes -> 0 <= ov9281_get_reso_dist m f) ->
  exists pre m post,
    modes = pre ++ m :: post /\
    best_fit_loop modes f 0 0 (-1) = Z.of_nat (length pre) /\
    (forall x, In x pre ->
       ov9281_get_reso_dist m f < ov9281_get_reso_dist x f) /\
    (forall x, In x post ->
       ov9281_get_reso_dist m f <= ov9281_get_reso_dist x f).
Proof.
  destruct modes as [| m0 rest]; [ congruence | ]. intros _ Hall.
  cbn [best_fit_loop]. change (-1 =? -1) with true. cbn [orb].
  assert (H0 : 0 <= ov9281_get_reso_dist m0 f) by (apply Hall; left; auto).
  assert (Hrest : forall x, In x rest -> 0 <= ov9281_get_reso_dist x f)
    by (intros x Hx; apply Hall; right; exact Hx).
  destruct (best_fit_loop_spec f rest (0 + 1) 0 _ Hrest H0)
    as [[Hr Hmin] | (pre & b & post & Hs & Hr & Hb & Hpre & Hpost)].
  - exists [], m0, rest. split_ands; auto. intros x [].
  - exists (m0 :: pre), b, post. split_ands.
    + rewrite Hs. reflexivity.
    + rewrite Hr. cbn [length]. lia.
    + intros x [<- | Hx]; [ exact Hb | apply Hpre, Hx ].
    + exact Hpost.
Qed.

Lemma best_fit_first_minimum_witness :
  exists pre m post,
    [mode_1280x800; mode_640x400; mode_640x400] = pre ++ m :: post /\
    best_fit_loop [mode_1280x800; mode_640x400; mode_640x400]
      request_640x480 0 0 (-1) = Z.of_nat (length pre) /\
    (forall x, In x pre ->
       ov9281_get_reso_dist m request_640x480 <
       ov9281_get_reso_dist x request_640x480) /\
    (forall x, In x post ->
       ov9281_get_reso_dist m request_640x480 <=
       ov9281_get_reso_dist x request_640x480).
Proof.
  apply (best_fit_first_minimum
           [mode_1280x800; mode_640x400; mode_640x400] request_640x480).
  - discriminate.
  - intros m [<- | [<- | [<- | []]]]; vm_compute; discriminate.
Defined.

(** ** Formats and selections *)

Lemma s_ctrl_cur_mode hw id v s :
  cur_mode (dev (snd (v4l2_ctrl_s_ctrl hw id v s))) = cur_mode (dev s).
Proof.
  rewrite s_ctrl_unfold, set_ctrl_dev. cbn [dev with_dev].
  destruct id; reflexivity.
Qed.

Lemma s_ctrl_traffic hw id v s :
  i2c_traffic (trace (snd (v4l2_ctrl_s_ctrl hw id v s))) =
  i2c_traffic (trace s) ++
  (if runtime_active s then ctrl_reg_writes (dev s) id v else []).
Proof.
  rewrite s_ctrl_unfold, set_ctrl_traffic.
  cbn [trace runtime_active dev with_dev]. destruct id; reflexivity.
Qed.

(** X15: [ov9281_set_fmt] on the active format selects the 1280x800 mode
    whatever size is asked for, reports that size and the Y10 code, and
    returns 0 even when the bus fails.  It puts the blanking controls back
    to the defaults of the mode (176 and 110) and the exposure maximum to
    906.  The frame length 910 is written to register 0x380E when the
    sensor is runtime-resumed, and nothing is written when it is
    suspended; the PM state and the two flags stay as they were. *)
Theorem set_fmt_active_effect hw k cfg fmt s :
  pm_consistent s ->
  which fmt <> V4L2_SUBDEV_FORMAT_TRY k ->
  let r := ov9281_set_fmt hw k cfg fmt s in
  fst (fst (fst r)) = 0 /\ snd (fst (fst r)) = cfg /\
  which (snd (fst r)) = which fmt /\ pad (snd (fst r)) = pad fmt /\
  fmt_width (format (snd (fst r))) = 1280 /\
  fmt_height (format (snd (fst r))) = 800 /\
  code (format (snd (fst r))) = MEDIA_BUS_FMT_Y10_1X10 k /\
  cur_mode (dev (snd r)) = mode_1280x800 /\
  cur_val (hblank (dev (snd r))) = 176 /\
  cur_val (vblank (dev (snd r))) = 110 /\
  maximum (exposure (dev (snd r))) = 906 /\
  i2c_traffic (trace (snd r)) =
    i2c_traffic (trace s) ++
    (if runtime_active s then [I2cSend [0x38; 0x0e; 0x03; 0x8e]] else []) /\
  usage_count (snd r) = usage_count s /\
  runtime_active (snd r) = runtime_active s /\
  streaming (dev (snd r)) = streaming (dev s) /\
  power_on (dev (snd r)) = power_on (dev s).
Proof.
  intros [Hu Ha] Hw r. subst r.
  destruct (set_fmt_active hw k cfg fmt s Hw)
    as (f & d3 & -> & Hfw & Hfh & Hfc & Hm & Hmin & Hmax & Hhb & He & _ & _
        & Hs & Hp).
  cbn [fst snd which pad format].
  set (s3 := with_dev d3 (emit _ s)).
  assert (Hpm : pm_consistent s3).
  { unfold pm_consistent, s3.
    cbn [dev usage_count runtime_active with_dev emit].
    rewrite Hs, Hp. split; assumption. }
  destruct (s_ctrl_keeps_pm hw V4L2_CID_VBLANK 110 s3 Hpm)
    as (Ku & Kr & Ks & Kp).
  cbn zeta in Ku, Kr, Ks, Kp.
  rewrite s_ctrl_cur_mode, s_ctrl_traffic, Ku, Kr, Ks, Kp.
  rewrite s_ctrl_unfold, set_ctrl_dev.
  cbn [dev with_dev range_updated with_ctrl ctrl_of hblank vblank exposure
       cur_val maximum cur_mode].
  unfold s3. cbn [dev usage_count runtime_active trace with_dev emit].
  rewrite i2c_traffic_app, Hm, Hhb.
  cbn [i2c_traffic filter is_i2c app ctrl_reg_writes].
  rewrite app_nil_r.
  split_ands; try reflexivity; try assumption.
  rewrite Hm. reflexivity.
Qed.

Lemma set_fmt_active_effect_witness :
  i2c_traffic
    (trace (snd (ov9281_set_fmt dead_bus linux_abi (fun _ => zero_pad)
                   {| which := 1; pad := 0; format := request_640x480 |}
                   (snd (ov9281_s_power dead_bus 1 after_probe))))) =
  [I2cSend [0x38; 0x0e; 0x03; 0x8e]].
Proof.
  destruct (set_fmt_active_effect dead_bus linux_abi (fun _ => zero_pad)
              {| which := 1; pad := 0; format := request_640x480 |}
              (snd (ov9281_s_power dead_bus 1 after_probe)))
    as (_ & _ & _ & _ & _ & _ & _ & _ & _ & _ & _ & H & _).
  - apply s_power_preserves, pm_consistent_after_probe.
  - discriminate.
  - exact H.
Defined.

Lemma set_fmt_reports hw k cfg fmt s :
  fst (ov9281_set_fmt hw k cfg fmt s) =
  (0,
   if which fmt =? V4L2_SUBDEV_FORMAT_TRY k
   then set_try_fmt cfg (pad fmt) (mode_format k mode_1280x800)
   else cfg,
   {| which := which fmt; pad := pad fmt;
      format := mode_format k mode_1280x800 |}).
Proof.
  unfold ov9281_set_fmt. cbn [which pad format].
  rewrite find_best_fit_only.
  destruct (which fmt =? V4L2_SUBDEV_FORMAT_TRY k); [ reflexivity | ].
  cbv [bind get_dev put_dev ret log __v4l2_ctrl_modify_range
       __v4l2_ctrl_s_ctrl].
  match goal with
  | |- context [v4l2_ctrl_s_ctrl ?a ?b ?c ?x] =>
      destruct (v4l2_ctrl_s_ctrl a b c x)
  end.
  reflexivity.
Qed.

Lemma set_fmt_cur_mode hw k cfg fmt s :
  which fmt <> V4L2_SUBDEV_FORMAT_TRY k ->
  cur_mode (dev (snd (ov9281_set_fmt hw k cfg fmt s))) = mode_1280x800.
Proof.
  intros Hw. destruct (set_fmt_active hw k cfg fmt s Hw)
    as (f & d3 & -> & _ & _ & _ & Hm & _).
  cbn [snd]. rewrite s_ctrl_cur_mode. exact Hm.
Qed.

(** X16: what [ov9281_set_fmt] reports is what [ov9281_get_fmt] reports
    right after it, for the try format as for the active one: the getter
    returns 0 and the very format structure the setter left. *)
Theorem set_get_fmt_round_trip hw k cfg fmt s :
  let r := ov9281_set_fmt hw k cfg fmt s in
  ov9281_get_fmt k (dev (snd r)) (snd (fst (fst r))) (snd (fst r)) =
  (0, snd (fst r)).
Proof.
  intros r. subst r. unfold ov9281_get_fmt.
  rewrite set_fmt_reports. cbn [fst snd which pad format].
  destruct (Z.eqb_spec (which fmt) (V4L2_SUBDEV_FORMAT_TRY k)) as [_ | Hw].
  - unfold set_try_fmt. rewrite Z.eqb_refl. reflexivity.
  - rewrite set_fmt_cur_mode by exact Hw. reflexivity.
Qed.

(** X17: a try [ov9281_set_fmt] never touches the sensor: the system is
    left exactly as it was (no event, the handle and the PM state
    unchanged), the status is 0, and of the try state only the format of
    the addressed pad changes: its crop and the other pads stay. *)
Theorem set_fmt_try_isolated hw k cfg fmt s :
  which fmt = V4L2_SUBDEV_FORMAT_TRY k ->
  let r := ov9281_set_fmt hw k cfg fmt s in
  let cfg' := snd (fst (fst r)) in
  snd r = s /\ fst (fst (fst r)) = 0 /\
  try_fmt (cfg' (pad fmt)) = format (snd (fst r)) /\
  try_crop (cfg' (pad fmt)) = try_crop (cfg (pad fmt)) /\
  (forall q, q <> pad fmt -> cfg' q = cfg q).
Proof.
  intros Hw r cfg'. subst cfg' r.
  rewrite set_fmt_reports. cbn [fst snd format].
  destruct (set_fmt_try hw k cfg fmt s Hw) as (f & -> & _).
  rewrite Hw, Z.eqb_refl. unfold set_try_fmt. rewrite Z.eqb_refl.
  cbn [snd try_fmt try_crop]. split_ands; try reflexivity.
  intros q Hq. apply Z.eqb_neq in Hq. rewrite Hq. reflexivity.
Qed.

Lemma set_fmt_try_isolated_witness :
  snd (ov9281_set_fmt dead_bus linux_abi (fun _ => zero_pad)
         {| which := 0; pad := 0; format := request_640x480 |} after_probe)
  = after_probe.
Proof.
  destruct (set_fmt_try_isolated dead_bus linux_abi (fun _ => zero_pad)
              {| which := 0; pad := 0; format := request_640x480 |}
              after_probe) as (H & _).
  - reflexivity.
  - exact H.
Defined.

(** X18: [ov9281_get_selection] dereferences the [NULL] of
    [__ov9281_get_pad_crop] exactly when the crop target is asked with a
    [which] that is neither TRY nor ACTIVE; in every other case it returns,
    and with any target outside the four it knows it returns [-EINVAL] and
    leaves the selection alone. *)
Theorem get_selection_fault k d cfg sel :
  (ov9281_get_selection k d cfg sel = None <->
   target sel = V4L2_SEL_TGT_CROP k /\
   sel_which sel <> V4L2_SUBDEV_FORMAT_TRY k /\
   sel_which sel <> V4L2_SUBDEV_FORMAT_ACTIVE k) /\
  (target sel <> V4L2_SEL_TGT_CROP k ->
   target sel <> V4L2_SEL_TGT_NATIVE_SIZE k ->
   target sel <> V4L2_SEL_TGT_CROP_DEFAULT k ->
   target sel <> V4L2_SEL_TGT_CROP_BOUNDS k ->
   ov9281_get_selection k d cfg sel = Some (- EINVAL, sel)).
Proof.
  unfold ov9281_get_selection, __ov9281_get_pad_crop. split.
  - destruct (Z.eqb_spec (target sel) (V4L2_SEL_TGT_CROP k)) as [Et | Et].
    + destruct (Z.eqb_spec (sel_which sel) (V4L2_SUBDEV_FORMAT_TRY k));
        [ split; [ discriminate | tauto ] | ].
      destruct (Z.eqb_spec (sel_which sel) (V4L2_SUBDEV_FORMAT_ACTIVE k));
        [ split; [ discriminate | tauto ] | ].
      tauto.
    + destruct (target sel =? V4L2_SEL_TGT_NATIVE_SIZE k);
        [ split; [ discriminate | tauto ] | ].
      destruct ((target sel =? V4L2_SEL_TGT_CROP_DEFAULT k)
                || (target sel =? V4L2_SEL_TGT_CROP_BOUNDS k));
        split; try discriminate; tauto.
  - intros H1 H2 H3 H4.
    apply Z.eqb_neq in H1, H2, H3, H4. rewrite H1, H2, H3, H4.
    reflexivity.
Qed.

Lemma get_selection_fault_witness :
  ov9281_get_selection linux_abi probed_handle (fun _ => zero_pad)
    {| sel_which := 0; sel_pad := 0; target := 0x100;
       r := try_crop zero_pad |}
  = Some (- EINVAL,
          {| sel_which := 0; sel_pad := 0; target := 0x100;
             r := try_crop zero_pad |}).
Proof.
  apply (get_selection_fault linux_abi probed_handle (fun _ => zero_pad));
    discriminate.
Defined.

Example get_selection_null_crop :
  ov9281_get_selection linux_abi probed_handle (fun _ => zero_pad)
    {| sel_which := 2; sel_pad := 0; target := 0;
       r := try_crop zero_pad |} = None.
Proof. reflexivity. Qed.

(** X19: for a handle whose mode is a supported one, the active crop
    rectangle has the size [ov9281_get_fmt] reports for the active format,
    and lies within the rectangle returned for the crop bounds, which is
    also the crop default and has the native size. *)
Theorem active_crop_matches_format k d cfg p :
  In (cur_mode d) supported_modes ->
  V4L2_SUBDEV_FORMAT_ACTIVE k <> V4L2_SUBDEV_FORMAT_TRY k ->
  V4L2_SEL_TGT_CROP_BOUNDS k <> V4L2_SEL_TGT_CROP k ->
  V4L2_SEL_TGT_CROP_BOUNDS k <> V4L2_SEL_TGT_NATIVE_SIZE k ->
  let ask t := {| sel_which := V4L2_SUBDEV_FORMAT_ACTIVE k; sel_pad := p;
                  target := t; r := try_crop (cfg p) |} in
  let fmt := snd (ov9281_get_fmt k d cfg
                    {| which := V4L2_SUBDEV_FORMAT_ACTIVE k; pad := p;
                       format := try_fmt (cfg p) |}) in
  let c := crop (cur_mode d) in
  let b := {| left := OV9281_PIXEL_ARRAY_LEFT;
              top := OV9281_PIXEL_ARRAY_TOP;
              rect_width := OV9281_PIXEL_ARRAY_WIDTH;
              rect_height := OV9281_PIXEL_ARRAY_HEIGHT |} in
  ov9281_get_selection k d cfg (ask (V4L2_SEL_TGT_CROP k)) =
    Some (0, {| sel_which := V4L2_SUBDEV_FORMAT_ACTIVE k; sel_pad := p;
                target := V4L2_SEL_TGT_CROP k; r := c |}) /\
  ov9281_get_selection k d cfg (ask (V4L2_SEL_TGT_CROP_BOUNDS k)) =
    Some (0, {| sel_which := V4L2_SUBDEV_FORMAT_ACTIVE k; sel_pad := p;
                target := V4L2_SEL_TGT_CROP_BOUNDS k; r := b |}) /\
  rect_width c = fmt_width (format fmt) /\
  rect_height c = fmt_height (format fmt) /\
  left b <= left c /\ left c + rect_width c <= left b + rect_width b /\
  top b <= top c /\ top c + rect_height c <= top b + rect_height b /\
  rect_width b = OV9281_NATIVE_WIDTH /\
  rect_height b = OV9281_NATIVE_HEIGHT.
Proof.
  intros Hm Hat Hb1 Hb2 ask fmt c b. subst ask fmt c b.
  unfold supported_modes in Hm. cbn [In] in Hm.
  destruct Hm as [Hm | []].
  unfold ov9281_get_selection, __ov9281_get_pad_crop, ov9281_get_fmt.
  cbn [sel_which sel_pad target r which pad format].
  apply Z.eqb_neq in Hat, Hb1, Hb2.
  rewrite !Z.eqb_refl, Hat, Hb1, Hb2, Bool.orb_true_r. rewrite <- Hm.
  split; [ reflexivity | split; [ reflexivity | ] ].
  cbn. split_ands; try reflexivity; lia.
Qed.

Lemma active_crop_matches_format_witness :
  ov9281_get_selection linux_abi probed_handle (fun _ => zero_pad)
    {| sel_which := 1; sel_pad := 0; target := 0;
       r := try_crop zero_pad |}
  = Some (0, {| sel_which := 1; sel_pad := 0; target := 0;
                r := {| left := 0; top := 0; rect_width := 1280;
                        rect_height := 800 |} |}).
Proof.
  destruct (active_crop_matches_format linux_abi probed_handle
              (fun _ => zero_pad) 0)
    as (H & _); try discriminate.
  - left. reflexivity.
  - exact H.
Defined.

(** X20: [ov9281_open] returns 0 and leaves in the try format of pad 0
    exactly the format that [ov9281_set_fmt] reports for any request, so a
    [ov9281_get_fmt] of the try format of pad 0 on the fresh file handle
    answers with the format of the default mode; the crop of pad 0 and the
    other pads are not touched. *)
Theorem open_try_format k cfg d fmt :
  which fmt = V4L2_SUBDEV_FORMAT_TRY k -> pad fmt = 0 ->
  let cfg' := snd (ov9281_open k cfg) in
  fst (ov9281_open k cfg) = 0 /\
  ov9281_get_fmt k d cfg' fmt =
    (0, {| which := which fmt; pad := pad fmt;
           format := mode_format k mode_1280x800 |}) /\
  (forall hw req s,
     format (snd (fst (ov9281_set_fmt hw k cfg req s))) =
     try_fmt (cfg' 0)) /\
  try_crop (cfg' 0) = try_crop (cfg 0) /\
  (forall q, q <> 0 -> cfg' q = cfg q).
Proof.
  intros Hw Hp cfg'. subst cfg'.
  unfold ov9281_open, ov9281_get_fmt, set_try_fmt.
  cbn [fst snd]. rewrite Hw, Hp, !Z.eqb_refl.
  cbn [try_fmt try_crop nth supported_modes].
  split_ands; try reflexivity.
  - intros hw req s. rewrite set_fmt_reports. reflexivity.
  - intros q Hq. apply Z.eqb_neq in Hq. rewrite Hq. reflexivity.
Qed.

Lemma open_try_format_witness :
  ov9281_get_fmt linux_abi probed_handle
    (snd (ov9281_open linux_abi (fun _ => zero_pad)))
    {| which := 0; pad := 0; format := request_640x480 |} =
  (0, {| which := 0; pad := 0;
         format := mode_format linux_abi mode_1280x800 |}).
Proof.
  destruct (open_try_format linux_abi (fun _ => zero_pad) probed_handle
              {| which := 0; pad := 0; format := request_640x480 |})
    as (_ & H & _).
  - reflexivity.
  - reflexivity.
  - exact H.
Defined.

(** X21: the two enumerations agree with [ov9281_set_fmt].  A frame size
    that [ov9281_enum_frame_sizes] returns has equal minimum and maximum,
    its code is the one [ov9281_enum_mbus_code] gives for index 0, and a
    request for that size is reported back by [ov9281_set_fmt] with that
    size and that code.  A failing enumeration returns [-EINVAL] and
    changes nothing. *)
Theorem enumeration_agrees_with_set_fmt hw k cfg s fse req junk :
  let e := ov9281_enum_frame_sizes k fse in
  (fst e = 0 \/ fst e = - EINVAL /\ snd e = fse) /\
  (fst e = 0 ->
   fmt_width (format req) = max_width (snd e) ->
   fmt_height (format req) = max_height (snd e) ->
   let rep := format (snd (fst (ov9281_set_fmt hw k cfg req s))) in
   min_width (snd e) = max_width (snd e) /\
   min_height (snd e) = max_height (snd e) /\
   ov9281_enum_mbus_code k 0 junk = (0, fse_code (snd e)) /\
   fmt_width rep = fmt_width (format req) /\
   fmt_height rep = fmt_height (format req) /\
   code rep = fse_code (snd e)).
Proof.
  intros e. subst e. unfold ov9281_enum_frame_sizes.
  destruct (Z.leb_spec (Z.of_nat (length supported_modes)) (u32 (index fse)))
    as [Hi | Hi].
  { cbn [fst snd]. split; [ right; split; reflexivity | ].
    unfold EINVAL. discriminate. }
  destruct (Z.eqb_spec (fse_code fse) (MEDIA_BUS_FMT_Y10_1X10 k))
    as [Hc | Hc]; cbn [negb fst snd].
  2:{ split; [ right; split; reflexivity | ]. unfold EINVAL. discriminate. }
  split; [ left; reflexivity | ].
  intros _. cbn [max_width max_height min_width min_height fse_code].
  assert (H0 : u32 (index fse) = 0).
  { assert (0 <= u32 (index fse)) by (apply Z.mod_pos_bound; lia).
    change (Z.of_nat (length supported_modes)) with 1 in Hi. lia. }
  rewrite H0. change (nth (Z.to_nat 0) supported_modes mode_1280x800)
    with mode_1280x800.
  intros Hw Hh. rewrite set_fmt_reports.
  cbn [snd format mode_format fmt_width fmt_height code].
  rewrite Hw, Hh, Hc. split_ands; reflexivity.
Qed.

Lemma enumeration_agrees_with_set_fmt_witness :
  fmt_width
    (format (snd (fst (ov9281_set_fmt dead_bus linux_abi (fun _ => zero_pad)
                         {| which := 1; pad := 0;
                            format := mode_format linux_abi mode_1280x800 |}
                         after_probe)))) = 1280.
Proof.
  destruct (enumeration_agrees_with_set_fmt dead_bus linux_abi
              (fun _ => zero_pad) after_probe
              {| index := 0; fse_code := 0x200a; min_width := 0;
                 max_width := 0; min_height := 0; max_height := 0 |}
              {| which := 1; pad := 0;
                 format := mode_format linux_abi mode_1280x800 |} 0)
    as (_ & H).
  destruct H as (_ & _ & _ & Hw & _);
    [ reflexivity | reflexivity | reflexivity | exact Hw ].
Defined.

(** ** Binding and unbinding *)

Lemma check_sensor_id_run hw junk s :
  exists st,
    ov9281_check_sensor_id hw junk s =
      (st, emit (I2cTransfer [0x30; 0x0b] 1 ::
                 if i2c_transfer hw (length (trace s)) =? 2
                 then [I2cTransfer [0x30; 0x0a] 1] else []) s) /\
    (st = 0 /\ (i2c_transfer hw (length (trace s)) =? 2) = true \/
     st = - ENODEV).
Proof.
  unfold ov9281_check_sensor_id, bind.
  rewrite read_reg_byte.
  change (u8 (Z.shiftr (u16 (OV9281_REG_CHIP_ID + 1)) 8)) with 0x30.
  change (u8 (u16 (OV9281_REG_CHIP_ID + 1))) with 0x0b.
  destruct (i2c_transfer hw (length (trace s)) =? 2) eqn:E1;
    cbn [fst snd Z.eqb].
  - rewrite read_reg_byte.
    change (u8 (Z.shiftr (u16 OV9281_REG_CHIP_ID) 8)) with 0x30.
    change (u8 (u16 OV9281_REG_CHIP_ID)) with 0x0a.
    destruct (i2c_transfer hw (length (trace (emit _ s))) =? 2);
      cbn [fst snd Z.eqb negb orb].
    + match goal with
      | |- context [negb (?i =? CHIP_ID)] => destruct (i =? CHIP_ID)
      end; cbn [negb]; unfold ret; rewrite emit_emit;
        eexists; (split; [ reflexivity | ]); [ left | right ]; auto.
    + unfold ret. rewrite emit_emit.
      eexists; (split; [ reflexivity | ]); right; reflexivity.
  - unfold ret. cbn [fst snd negb orb].
    eexists; (split; [ reflexivity | ]); right; reflexivity.
Qed.

Lemma power_on_outcome hw s :
  run_rails hw 0 (rails_of false) (trace s) = Some (rails_of false) ->
  exists e pw,
    __ov9281_power_on hw s = (e, emit pw s) /\ e <= 0 /\
    i2c_traffic pw = [] /\
    run_rails hw 0 (rails_of false) (trace s ++ pw) =
      Some (rails_of (e =? 0)).
Proof.
  intros Hoff. rewrite power_on_exact.
  set (c := clk_prepare_enable hw _). set (e := regulator_bulk_enable hw _).
  eexists. eexists. split; [ reflexivity | ].
  rewrite run_rails_app, Hoff. cbn [Nat.add].
  pose proof (power_on_rails hw s) as Hr. cbn zeta in Hr.
  fold c e in Hr. rewrite Hr. rewrite power_on_events_quiet.
  destruct (c <? 0) eqn:Ec; [ | destruct (e <? 0) eqn:Ee ]; cbn [negb andb].
  - apply Z.ltb_lt in Ec.
    assert (Hz : (c =? 0) = false) by (apply Z.eqb_neq; lia).
    rewrite Hz. split_ands; try reflexivity; lia.
  - apply Z.ltb_lt in Ee.
    assert (Hz : (e =? 0) = false) by (apply Z.eqb_neq; lia).
    rewrite Hz. split_ands; try reflexivity; lia.
  - split_ands; try reflexivity; lia.
Qed.

Lemma rails_power_off hw t d :
  run_rails hw 0 (rails_of false) t = Some (rails_of true) ->
  run_rails hw 0 (rails_of false) (t ++ power_off_events d) =
    Some (rails_of false).
Proof.
  intros H. rewrite run_rails_app, H. apply power_off_rails.
Qed.

Lemma rails_powered hw t evs :
  run_rails hw 0 (rails_of false) t = Some (rails_of true) ->
  forallb (fun e => rail_neutral e || is_i2c e) evs = true ->
  run_rails hw 0 (rails_of false) (t ++ evs) = Some (rails_of true).
Proof.
  intros H Hev. rewrite run_rails_app, H. apply run_rails_powered, Hev.
Qed.

Lemma probe_steps hw env junk s :
  devm_kzalloc env = true -> devm_clk_get env = true ->
  devm_regulator_bulk_get env = 0 -> ctrl_handler_error env = 0 ->
  ov9281_probe hw env junk s =
  (let (e, s2) := __ov9281_power_on hw (with_dev (handle_of env) s) in
   if negb (e =? 0) then (e, s2)
   else
     let (e, s3) := ov9281_check_sensor_id hw junk s2 in
     if negb (e =? 0) then (e, emit (power_off_events (dev s3)) s3)
     else if media_entity_pads_init env <? 0
     then (media_entity_pads_init env, emit (power_off_events (dev s3)) s3)
     else if negb (v4l2_async_register_subdev_sensor_common env =? 0)
     then (v4l2_async_register_subdev_sensor_common env,
           emit (power_off_events (dev s3)) s3)
     else (0, snd (pm_runtime_idle (with_active true s3)))).
Proof.
  intros Hk Hc Hr Hh. unfold ov9281_probe.
  rewrite Hk, Hc, Hr, Hh. cbn [negb Z.eqb].
  unfold bind at 1 2 3 4 5. unfold put_dev at 1 2 3, get_dev at 1 2.
  cbn [dev with_dev].
  change (with_dev _ (with_dev _ (with_dev _ s)))
    with (with_dev (handle_of env) s).
  unfold bind at 1.
  destruct (__ov9281_power_on hw (with_dev (handle_of env) s)) as [e s2].
  destruct (negb (e =? 0)); [ reflexivity | ].
  unfold bind at 1.
  destruct (ov9281_check_sensor_id hw junk s2) as [e3 s3].
  destruct (negb (e3 =? 0)).
  { unfold bind. rewrite power_off_run. reflexivity. }
  destruct (media_entity_pads_init env <? 0).
  { unfold bind. rewrite power_off_run. reflexivity. }
  destruct (negb (v4l2_async_register_subdev_sensor_common env =? 0)).
  { unfold bind. rewrite power_off_run. reflexivity. }
  unfold bind, pm_runtime_set_active, ret.
  destruct (pm_runtime_idle (with_active true s3)). reflexivity.
Qed.

Lemma probe_early hw env junk s :
  devm_kzalloc env = false \/ devm_clk_get env = false \/
  devm_regulator_bulk_get env <> 0 \/ ctrl_handler_error env <> 0 ->
  fst (ov9281_probe hw env junk s) <> 0 /\
  trace (snd (ov9281_probe hw env junk s)) = trace s /\
  usage_count (snd (ov9281_probe hw env junk s)) = usage_count s /\
  runtime_active (snd (ov9281_probe hw env junk s)) = runtime_active s.
Proof.
  intros H. unfold ov9281_probe.
  destruct (devm_kzalloc env); cbn [negb];
    [ | split_ands; try reflexivity; unfold ret, ENOMEM; cbn; discriminate ].
  unfold bind at 1. unfold put_dev at 1.
  destruct (devm_clk_get env); cbn [negb];
    [ | split_ands; try reflexivity; unfold ret, EINVAL; cbn; discriminate ].
  unfold bind at 1 2. unfold get_dev at 1. unfold put_dev at 1.
  destruct (Z.eqb_spec (devm_regulator_bulk_get env) 0) as [Hr | Hr];
    cbn [negb];
    [ | split_ands; try reflexivity; unfold ret; cbn [fst]; exact Hr ].
  destruct (Z.eqb_spec (ctrl_handler_error env) 0) as [Hh | Hh];
    cbn [negb];
    [ | split_ands; try reflexivity; unfold ret; cbn [fst]; exact Hh ].
  destruct H as [H | [H | [H | H]]]; congruence.
Qed.

Lemma probe_env_cases env :
  (devm_kzalloc env = true /\ devm_clk_get env = true /\
   devm_regulator_bulk_get env = 0 /\ ctrl_handler_error env = 0) \/
  (devm_kzalloc env = false \/ devm_clk_get env = false \/
   devm_regulator_bulk_get env <> 0 \/ ctrl_handler_error env <> 0).
Proof.
  destruct (devm_kzalloc env); [ | right; auto ].
  destruct (devm_clk_get env); [ | right; auto ].
  destruct (Z.eq_dec (devm_regulator_bulk_get env) 0); [ | right; auto ].
  destruct (Z.eq_dec (ctrl_handler_error env) 0); [ | right; auto ].
  left. auto.
Qed.

(** X22: [ov9281_probe] returns 0 exactly when every step succeeds: the
    handle and the clock are obtained, the regulator lookup and the control
    handler report 0, the power-up and the identity check return 0, the pad
    initialisation is not negative and the registration returns 0. *)
Theorem probe_succeeds_iff hw env junk s :
  let p := __ov9281_power_on hw (with_dev (handle_of env) s) in
  let c := ov9281_check_sensor_id hw junk (snd p) in
  fst (ov9281_probe hw env junk s) = 0 <->
  devm_kzalloc env = true /\ devm_clk_get env = true /\
  devm_regulator_bulk_get env = 0 /\ ctrl_handler_error env = 0 /\
  fst p = 0 /\ fst c = 0 /\
  0 <= media_entity_pads_init env /\
  v4l2_async_register_subdev_sensor_common env = 0.
Proof.
  intros p c. subst c p.
  destruct (probe_env_cases env) as [(Hk & Hc & Hr & Hh) | Hbad].
  2:{ destruct (probe_early hw env junk s Hbad) as (Hne & _).
      split; [ intros H; contradiction | ].
      intros (Hk & Hc & Hr & Hh & _).
      destruct Hbad as [H | [H | [H | H]]]; congruence. }
  rewrite probe_steps by assumption.
  destruct (__ov9281_power_on hw (with_dev (handle_of env) s)) as [e s2].
  cbn [fst snd].
  destruct (Z.eqb_spec e 0) as [He | He]; cbn [negb fst];
    [ | split; [ intros H; contradiction | intros H; tauto ] ].
  destruct (ov9281_check_sensor_id hw junk s2) as [e3 s3]. cbn [fst].
  destruct (Z.eqb_spec e3 0) as [He3 | He3]; cbn [negb fst];
    [ | split; [ intros H; contradiction | intros H; tauto ] ].
  destruct (Z.ltb_spec (media_entity_pads_init env) 0) as [Hp | Hp];
    cbn [fst]; [ split; intros H; lia | ].
  destruct (Z.eqb_spec (v4l2_async_register_subdev_sensor_common env) 0)
    as [Hv | Hv]; cbn [negb fst];
    [ | split; [ intros H; contradiction | intros H; tauto ] ].
  split; [ intros _; tauto | reflexivity ].
Qed.

(** X23: whatever fails, [ov9281_probe] leaves the supplies off.  Started
    with clock and regulators off and no PM reference held, it ends with
    both off on every path (a power-up that worked is undone by the
    power-down of the error path, or after success by the idle notification
    to the PM core), with the device suspended and no reference held; the
    bus carries at most the two identity reads, made while the supplies
    were on.  On success both reads were made and the handle holds the
    controls of the 1280x800 mode. *)
Theorem probe_unwinds_power hw env junk s :
  rails_ok hw s -> runtime_active s = false -> usage_count s = 0 ->
  let r := ov9281_probe hw env junk s in
  rails_ok hw (snd r) /\ runtime_active (snd r) = false /\
  usage_count (snd r) = 0 /\
  (exists reads,
     i2c_traffic (trace (snd r)) = i2c_traffic (trace s) ++ reads /\
     (reads = [] \/ reads = firstn 1 id_reads \/ reads = id_reads)) /\
  (fst r = 0 ->
   dev (snd r) = handle_of env /\
   i2c_traffic (trace (snd r)) = i2c_traffic (trace s) ++ id_reads).
Proof.
  intros Hrails Ha Hu r. subst r.
  destruct (probe_env_cases env) as [(Hk & Hc & Hr & Hh) | Hbad].
  2:{ destruct (probe_early hw env junk s Hbad) as (Hne & Ht & Hu' & Ha').
      split_ands.
      - apply (rails_ok_same hw s); assumption.
      - congruence.
      - congruence.
      - exists []. rewrite Ht, app_nil_r. auto.
      - intros H. contradiction. }
  rewrite probe_steps by assumption.
  unfold rails_ok in Hrails. rewrite Ha in Hrails.
  destruct (power_on_outcome hw (with_dev (handle_of env) s) Hrails)
    as (e & pw & -> & Hle & Hq & Hpw).
  cbn [trace with_dev] in Hpw.
  destruct (Z.eqb_spec e 0) as [He | He]; cbn [negb snd fst].
  2:{ unfold rails_ok.
      cbn [trace runtime_active usage_count dev with_dev emit].
      rewrite Ha, Hpw, i2c_traffic_app, Hq. split_ands; auto.
      - exists []. auto.
      - intros H. contradiction. }
  destruct (check_sensor_id_run hw junk (emit pw (with_dev (handle_of env) s)))
    as (st & -> & Hst).
  set (reads := I2cTransfer [0x30; 0x0b] 1 :: _).
  assert (Hreads : forallb (fun e => rail_neutral e || is_i2c e) reads = true)
    by (unfold reads; destruct (_ =? 2); reflexivity).
  assert (Hrd : reads = firstn 1 id_reads \/ reads = id_reads)
    by (unfold reads; destruct (_ =? 2); [ right | left ]; reflexivity).
  assert (Htr : i2c_traffic reads = reads)
    by (unfold reads; destruct (_ =? 2); reflexivity).
  pose proof (rails_powered hw _ reads Hpw Hreads) as Hon.
  assert (Hoff :
    rails_ok hw
      (emit (power_off_events (handle_of env))
         (emit reads (emit pw (with_dev (handle_of env) s)))) /\
    runtime_active
      (emit (power_off_events (handle_of env))
         (emit reads (emit pw (with_dev (handle_of env) s)))) = false /\
    usage_count
      (emit (power_off_events (handle_of env))
         (emit reads (emit pw (with_dev (handle_of env) s)))) = 0 /\
    i2c_traffic
      (trace (emit (power_off_events (handle_of env))
                (emit reads (emit pw (with_dev (handle_of env) s))))) =
    i2c_traffic (trace s) ++ reads).
  { unfold rails_ok.
    cbn [trace runtime_active usage_count dev with_dev emit].
    rewrite Ha, <- !app_assoc, (app_assoc (trace s)).
    rewrite (app_assoc (trace s ++ pw)).
    rewrite (rails_power_off hw _ _ Hon).
    rewrite <- !app_assoc, !i2c_traffic_app, Hq, power_off_quiet, Htr,
      app_nil_r.
    auto. }
  destruct Hoff as (F1 & F2 & F3 & F4).
  cbn [dev with_dev emit].
  destruct (Z.eqb_spec st 0) as [Hs0 | Hs0]; cbn [negb snd fst].
  2:{ split_ands; auto.
      - exists reads. auto.
      - intros H. contradiction. }
  destruct Hst as [[_ Hok] | Hst]; [ | unfold ENODEV in Hst; lia ].
  assert (Hall : reads = id_reads) by (unfold reads; rewrite Hok; reflexivity).
  destruct (Z.ltb_spec (media_entity_pads_init env) 0) as [Hp | Hp];
    cbn [snd fst].
  { split_ands; auto.
    - exists reads. auto.
    - intros H. lia. }
  destruct (Z.eqb_spec (v4l2_async_register_subdev_sensor_common env) 0)
    as [Hv | Hv]; cbn [negb snd fst].
  2:{ split_ands; auto.
      - exists reads. auto.
      - intros H. contradiction. }
  unfold pm_runtime_idle.
  cbn [usage_count runtime_active with_active emit with_dev].
  rewrite Hu. cbn [Z.eqb andb].
  unfold ov9281_runtime_suspend, bind. rewrite power_off_run. unfold ret.
  cbn [snd dev with_active emit with_dev].
  assert (Hsame : forall x,
            rails_ok hw x -> runtime_active x = false ->
            forall y, trace y = trace x -> runtime_active y = false ->
            rails_ok hw y).
  { intros x Hx Hxa y Hy Hya. apply (rails_ok_same hw x); congruence. }
  split_ands.
  - apply (Hsame _ F1 F2); reflexivity.
  - reflexivity.
  - exact F3.
  - exists reads. split; [ exact F4 | auto ].
  - intros _. split; [ reflexivity | ]. rewrite <- Hall. exact F4.
Qed.

Lemma probe_unwinds_power_witness :
  rails_ok wrong_chip
    (snd (ov9281_probe wrong_chip granting 0 (unbound probed_handle))) /\
  runtime_active
    (snd (ov9281_probe wrong_chip granting 0 (unbound probed_handle)))
    = false.
Proof.
  destruct (probe_unwinds_power wrong_chip granting 0
              (unbound probed_handle)) as (H1 & H2 & _).
  - reflexivity.
  - reflexivity.
  - reflexivity.
  - split; [ exact H1 | exact H2 ].
Defined.

Example probe_detects :
  let r := ov9281_probe fresh_sensor granting 0 (unbound probed_handle) in
  fst r = 0 /\ dev (snd r) = dev after_probe /\
  usage_count (snd r) = usage_count after_probe /\
  runtime_active (snd r) = runtime_active after_probe.
Proof. vm_compute. repeat split. Qed.

Example probe_wrong_chip :
  let r := ov9281_probe wrong_chip granting 0 (unbound probed_handle) in
  fst r = - ENODEV /\
  i2c_traffic (trace (snd r)) = id_reads /\
  run_rails wrong_chip 0 (rails_of false) (trace (snd r)) =
    Some (rails_of false).
Proof. vm_compute. repeat split. Qed.

(** X24: [ov9281_remove] returns 0 and leaves the supplies off.  If the
    device is runtime-resumed, with the supplies on, they are switched off
    once; if it is suspended nothing is requested.  The bus is never used,
    not even to stop a running stream, and the handle and the reference
    count are left as they are. *)
Theorem remove_powers_down hw s :
  rails_ok hw s ->
  let r := ov9281_remove s in
  fst r = 0 /\
  run_rails hw 0 (rails_of false) (trace (snd r)) = Some (rails_of false) /\
  runtime_active (snd r) = false /\
  trace (snd r) =
    trace s ++ (if runtime_active s then power_off_events (dev s) else []) /\
  i2c_traffic (trace (snd r)) = i2c_traffic (trace s) /\
  dev (snd r) = dev s /\ usage_count (snd r) = usage_count s.
Proof.
  intros H r. subst r. unfold rails_ok in H.
  unfold ov9281_remove, bind, pm_runtime_status_suspended,
    pm_runtime_set_suspended, ret, when.
  destruct (runtime_active s) eqn:Ha; cbn [negb].
  - rewrite power_off_run.
    cbn [fst snd trace dev usage_count runtime_active with_active emit].
    rewrite (rails_power_off hw _ _ H), i2c_traffic_app, power_off_quiet,
      app_nil_r.
    split_ands; reflexivity.
  - cbn [fst snd trace dev usage_count runtime_active with_active].
    rewrite app_nil_r. split_ands; try reflexivity. exact H.
Qed.

Lemma remove_powers_down_witness :
  run_rails good_hw 0 (rails_of false)
    (trace (snd (ov9281_remove
                   (snd (ov9281_s_stream good_hw 1 after_probe))))) =
  Some (rails_of false).
Proof.
  destruct (remove_powers_down good_hw
              (snd (ov9281_s_stream good_hw 1 after_probe)))
    as (_ & H & _).
  - vm_compute. reflexivity.
  - exact H.
Defined.

(** ** The status of a control write *)

(** X25: the control setter fails only with [-EIO], and only when the
    device is runtime-resumed and the bus does not take a write; on a
    suspended device it returns 0.  The PM reference it takes for the write
    is given back on every path, so the reference count and the power state
    are as before, also when the write fails. *)
Theorem set_ctrl_status hw id v s :
  pm_consistent s ->
  let r := ov9281_set_ctrl hw id v s in
  (fst r = 0 \/
   fst r = - EIO /\ runtime_active s = true /\ ~ platform_ok hw) /\
  usage_count (snd r) = usage_count s /\
  runtime_active (snd r) = runtime_active s.
Proof.
  intros [Hu Ha] r. subst r.
  destruct (runtime_active s) eqn:E.
  - rewrite set_ctrl_resumed by exact E. cbn [fst snd].
    assert (Hpos : usage_count s <> 0).
    { symmetry in Ha. apply Z.ltb_lt in Ha. lia. }
    rewrite released_in_use by (cbn [usage_count with_usage]; lia).
    cbn [usage_count runtime_active dev with_usage with_dev emit].
    split_ands; [ | lia | exact E ].
    destruct (setter_status_cases hw
                (length (trace s ++ ctrl_range_events (dev s) id v ++ [PmGet]))
                (dev s) id v) as [H | [H Hb]]; [ left | right ]; auto.
  - rewrite set_ctrl_suspended by exact E. cbn [fst snd].
    cbn [usage_count runtime_active with_dev emit].
    split_ands; auto.
Qed.

Lemma set_ctrl_status_witness :
  fst (ov9281_set_ctrl dead_bus V4L2_CID_EXPOSURE 100
         (snd (ov9281_s_power dead_bus 1 after_probe))) = 0 \/
  fst (ov9281_set_ctrl dead_bus V4L2_CID_EXPOSURE 100
         (snd (ov9281_s_power dead_bus 1 after_probe))) = - EIO /\
  runtime_active (snd (ov9281_s_power dead_bus 1 after_probe)) = true /\
  ~ platform_ok dead_bus.
Proof.
  destruct (set_ctrl_status dead_bus V4L2_CID_EXPOSURE 100
              (snd (ov9281_s_power dead_bus 1 after_probe))) as (H & _).
  - apply s_power_preserves, pm_consistent_after_probe.
  - exact H.
Defined.

(** ** The registers and the controls *)























Lemma s_stream_on_dev hw on s :
  pm_consistent s -> handle_ok (dev s) ->
  streaming (dev s) = false -> on <> 0 ->
  fst (ov9281_s_stream hw on s) = 0 ->
  dev (snd (ov9281_s_stream hw on s)) = with_streaming true (dev s).
Proof.
  intros [Hc Hra] Hh Hs Hon.
  pose proof (b2z_range (power_on (dev s))) as Hb.
  rewrite Hs in Hc. cbn [Z.b2z] in Hc.
  rewrite (s_stream_on_unfold hw on s) by assumption.
  destruct (get_sync_run hw s) as (Hd & Hu & _ & Hact & _).
  destruct (pm_runtime_get_sync hw s) as [e s0]. cbn [fst snd] in *.
  destruct (e <? 0) eqn:E; cbn [fst snd].
  - apply Z.ltb_lt in E. lia.
  - apply Z.ltb_ge in E.
    assert (Hu0 : usage_count s0 <> 0) by lia.
    pose proof (start_stream_dev hw s0 (Hact E) Hu0) as Hdev.
    rewrite Hd in Hdev.
    destruct (__ov9281_start_stream hw s0) as [e' s1]. cbn [snd] in Hdev.
    assert (H1 : dev s1 = dev s).
    { destruct Hdev as [-> | ->]; [ reflexivity | ].
      apply range_updated_id, Hh. }
    destruct (Z.eqb_spec e' 0) as [-> | Hne]; cbn [negb fst snd].
    + intros _. cbn [dev with_dev]. rewrite H1. reflexivity.
    + intros H. contradiction.
Qed.









(** ** A platform that works *)

Lemma get_sync_ok hw s :
  platform_ok hw ->
  fst (pm_runtime_get_sync hw s) = Z.b2z (runtime_active s).
Proof.
  intros (_ & Hclk & Hreg).
  destruct (runtime_active s) eqn:Ha.
  - rewrite get_sync_resumed by exact Ha. reflexivity.
  - pose proof (get_sync_suspended hw s Ha) as H. cbn zeta in H.
    rewrite H.
    match goal with
    | |- context [clk_prepare_enable hw ?n <? 0] =>
        pose proof (Hclk n) as Hc;
        destruct (Z.ltb_spec (clk_prepare_enable hw n) 0); [ lia | ]
    end.
    match goal with
    | |- context [regulator_bulk_enable hw ?n <? 0] =>
        pose proof (Hreg n) as Hr;
        destruct (Z.ltb_spec (regulator_bulk_enable hw n) 0); [ lia | ]
    end.
    reflexivity.
Qed.

(** X27: on a platform where every bus write and both enables succeed, no
    request fails in a reachable state and each takes effect:
    [ov9281_s_stream] returns 0 and leaves the streaming flag as asked,
    [ov9281_s_power] returns 0, or 1 when it found the device already
    resumed, and leaves the power flag as asked, and a control write
    returns 0. *)
Theorem working_platform_never_fails hw s :
  platform_ok hw -> reachable hw s ->
  (forall on,
     fst (ov9281_s_stream hw on s) = 0 /\
     streaming (dev (snd (ov9281_s_stream hw on s))) = negb (on =? 0)) /\
  (forall on,
     0 <= fst (ov9281_s_power hw on s) <= 1 /\
     power_on (dev (snd (ov9281_s_power hw on s))) = negb (on =? 0)) /\
  (forall id v, fst (v4l2_ctrl_s_ctrl hw id v s) = 0).
Proof.
  intros Hok Hr.
  destruct (reachable_invariants hw s Hr) as (Hpm & _ & Hh).
  split; [ | split ].
  - intros on.
    destruct (Bool.eqb (streaming (dev s)) (negb (on =? 0))) eqn:Esame.
    { apply Bool.eqb_prop in Esame. rewrite s_stream_same by exact Esame.
      split; [ reflexivity | exact Esame ]. }
    destruct (on =? 0) eqn:Eon; cbn [negb] in *.
    + assert (Hs : streaming (dev s) = true)
        by (destruct (streaming (dev s)); [ reflexivity | discriminate ]).
      apply Z.eqb_eq in Eon.
      rewrite s_stream_off_unfold by assumption.
      split; reflexivity.
    + assert (Hs : streaming (dev s) = false)
        by (destruct (streaming (dev s)); [ discriminate | reflexivity ]).
      assert (Hon : on <> 0) by (apply Z.eqb_neq; exact Eon).
      assert (Hu : 0 <= usage_count s).
      { destruct Hpm as [Hu _]. rewrite Hu.
        pose proof (b2z_range (streaming (dev s))).
        pose proof (b2z_range (power_on (dev s))). lia. }
      destruct (s_stream_on_ok hw s on Hok Hs Hon Hu) as (He & _).
      split; [ exact He | ].
      rewrite (s_stream_on_dev hw on s Hpm Hh Hs Hon He). reflexivity.
  - intros on.
    destruct (Bool.eqb (power_on (dev s)) (negb (on =? 0))) eqn:Esame.
    { apply Bool.eqb_prop in Esame. rewrite s_power_same by exact Esame.
      split; [ cbn; lia | exact Esame ]. }
    destruct (on =? 0) eqn:Eon; cbn [negb] in *.
    + assert (Hp : power_on (dev s) = true)
        by (destruct (power_on (dev s)); [ reflexivity | discriminate ]).
      unfold ov9281_s_power, bind, get_dev. rewrite Hp, Eon.
      cbn [negb Bool.eqb]. rewrite pm_runtime_put_run.
      unfold set_power_on, bind, get_dev, put_dev, ret.
      cbn [fst snd dev with_dev power_on with_power_on].
      split; [ lia | reflexivity ].
    + assert (Hp : power_on (dev s) = false)
        by (destruct (power_on (dev s)); [ discriminate | reflexivity ]).
      assert (Hon : on <> 0) by (apply Z.eqb_neq; exact Eon).
      rewrite s_power_on_unfold by assumption.
      pose proof (get_sync_ok hw s Hok) as Hg.
      pose proof (b2z_range (runtime_active s)) as Hb.
      destruct (pm_runtime_get_sync hw s) as [e s0]. cbn [fst] in Hg.
      destruct (Z.ltb_spec e 0); [ lia | ].
      cbn [fst snd dev with_dev power_on with_power_on].
      split; [ lia | reflexivity ].
  - intros id v. rewrite s_ctrl_unfold.
    set (s1 := with_dev _ s).
    destruct (runtime_active s1) eqn:Ha.
    + rewrite set_ctrl_resumed by exact Ha. cbn [fst].
      destruct (setter_status_cases hw
                  (length (trace s1 ++ ctrl_range_events (dev s1) id v ++
                           [PmGet])) (dev s1) id v) as [H | [_ Hbad]];
        [ exact H | contradiction ].
    + rewrite set_ctrl_suspended by exact Ha. reflexivity.
Qed.

Lemma working_platform_never_fails_witness :
  fst (ov9281_s_stream good_hw 1
         (snd (ov9281_s_power good_hw 1 after_probe))) = 0.
Proof.
  destruct (working_platform_never_fails good_hw
              (snd (ov9281_s_power good_hw 1 after_probe))) as (H & _).
  - apply platform_ok_good_hw.
  - apply reach_s_power, reach_probe.
  - apply (H 1).
Defined.
